(** * A shallow embedding of the mspdebug USB transports

    The libusb calls made by the transports are modelled as operations of a
    small state monad over [usb_state]: the open device handles, the claimed
    interfaces, a log of the control and bulk transfers issued, and the
    scripted replies of the device to each transfer.  Printing is omitted;
    the Linux build is modelled (the [__Windows__] branches are left out),
    and kernel-driver detaching, which only logs on failure, has no effect
    on the modelled state. *)

From Stdlib Require Import String Ascii ZArith List Bool Lia.
Import ListNotations.
Open Scope Z_scope.

(** ** libusb *)

Definition LIBUSB_SUCCESS := 0.
Definition LIBUSB_ERROR_IO := -1.
Definition LIBUSB_ERROR_NO_DEVICE := -4.
Definition LIBUSB_ERROR_BUSY := -6.
Definition LIBUSB_ERROR_TIMEOUT := -7.

Definition USB_ENDPOINT_TYPE_MASK := 3.
Definition USB_ENDPOINT_TYPE_BULK := 2.
Definition USB_ENDPOINT_DIR_MASK := 128.
Definition USB_CLASS_HID := 3.

Record endpoint_descriptor := {
  bmAttributes : Z;
  bEndpointAddress : Z
}.

Record interface_descriptor := {
  bInterfaceClass : Z;
  bInterfaceNumber : Z;
  endpoint : list endpoint_descriptor
}.

Record config_descriptor := {
  bConfigurationValue : Z;
  interface : list interface_descriptor
}.

(** A device on the bus, with the outcome of opening it and of claiming
    one of its interfaces. *)
Record usb_device := {
  bus_number : Z;
  device_address : Z;
  idVendor : Z;
  idProduct : Z;
  serial_number : string;
  bNumConfigurations : Z;
  config : config_descriptor;
  open_ok : bool;
  claim_ok : bool
}.

Record ctrl_setup := {
  c_handle : Z;
  c_reqtype : Z;
  c_request : Z;
  c_value : Z;
  c_index : Z;
  c_data : list Z
}.

Record bulk_xfer := {
  b_handle : Z;
  b_ep : Z;
  b_data : list Z;   (** bytes written (OUT) *)
  b_length : Z       (** buffer length passed *)
}.

(** The device's answer to one bulk transfer: the return code, the bytes
    it delivers (IN), the number of bytes it accepts (OUT) and the seconds
    the transfer takes. *)
Record bulk_reply := {
  r_rc : Z;
  r_data : list Z;
  r_sent : Z;
  r_elapsed : Z
}.

Record usb_state := {
  next_handle : Z;
  handles : list (Z * usb_device);
  claimed : list (Z * Z);
  ctrl_log : list ctrl_setup;
  ctrl_replies : list Z;
  bulk_log : list bulk_xfer;
  bulk_replies : list bulk_reply;
  now : Z
}.

Definition M (A : Type) := usb_state -> A * usb_state.
Definition ret {A} (a : A) : M A := fun s => (a, s).
Definition bind {A B} (m : M A) (f : A -> M B) : M B :=
  fun s => let (a, s') := m s in f a s'.

Notation "x <- m ;; k" := (bind m (fun x => k))
  (at level 61, m at next level, right associativity).
Notation "' pat <- m ;; k" :=
  (bind m (fun x => match x with pat => k end))
  (at level 61, pat pattern, m at next level, right associativity).
Notation "m ;;; k" := (bind m (fun _ => k))
  (at level 61, right associativity).

Definition get : M usb_state := fun s => (s, s).
Definition put (s : usb_state) : M unit := fun _ => (tt, s).

Definition with_handles s hs :=
  {| next_handle := next_handle s; handles := hs; claimed := claimed s;
     ctrl_log := ctrl_log s; ctrl_replies := ctrl_replies s;
     bulk_log := bulk_log s; bulk_replies := bulk_replies s; now := now s |}.
Definition with_claimed s cs :=
  {| next_handle := next_handle s; handles := handles s; claimed := cs;
     ctrl_log := ctrl_log s; ctrl_replies := ctrl_replies s;
     bulk_log := bulk_log s; bulk_replies := bulk_replies s; now := now s |}.
Definition with_ctrl s log reps :=
  {| next_handle := next_handle s; handles := handles s; claimed := claimed s;
     ctrl_log := log; ctrl_replies := reps;
     bulk_log := bulk_log s; bulk_replies := bulk_replies s; now := now s |}.
Definition with_bulk s log reps t :=
  {| next_handle := next_handle s; handles := handles s; claimed := claimed s;
     ctrl_log := ctrl_log s; ctrl_replies := ctrl_replies s;
     bulk_log := log; bulk_replies := reps; now := t |}.

Fixpoint lookup_handle (h : Z) (hs : list (Z * usb_device)) : option usb_device :=
  match hs with
  | [] => None
  | (h', d) :: hs' => if h' =? h then Some d else lookup_handle h hs'
  end.

(** [libusb_open]: a fresh handle (never 0, the NULL pointer) or NULL. *)
Definition libusb_open (dev : usb_device) : M (Z * Z) :=
  fun s =>
    if open_ok dev then
      let h := next_handle s in
      ((LIBUSB_SUCCESS, h),
       {| next_handle := h + 1; handles := (h, dev) :: handles s;
          claimed := claimed s; ctrl_log := ctrl_log s;
          ctrl_replies := ctrl_replies s; bulk_log := bulk_log s;
          bulk_replies := bulk_replies s; now := now s |})
    else ((LIBUSB_ERROR_IO, 0), s).

Definition libusb_claim_interface (h i : Z) : M Z :=
  fun s =>
    match lookup_handle h (handles s) with
    | Some d =>
        if claim_ok d then (LIBUSB_SUCCESS, with_claimed s ((h, i) :: claimed s))
        else (LIBUSB_ERROR_BUSY, s)
    | None => (LIBUSB_ERROR_NO_DEVICE, s)
    end.

Definition libusb_release_interface (h i : Z) : M Z :=
  fun s =>
    (LIBUSB_SUCCESS,
     with_claimed s (filter (fun p => negb ((fst p =? h) && (snd p =? i)))
                            (claimed s))).

(** [libusb_close] frees the handle; the backends (usbfs [usbdev_release]
    on Linux, the Darwin and Windows close functions) release every
    interface still claimed through it. *)
Definition libusb_close (h : Z) : M unit :=
  fun s =>
    (tt, with_claimed
           (with_handles s (filter (fun p => negb (fst p =? h)) (handles s)))
           (filter (fun p => negb (fst p =? h)) (claimed s))).

(** [libusb_control_transfer]: logged; its result is the device's next
    scripted reply (on success, the number of bytes transferred). *)
Definition libusb_control_transfer (h reqtype request value index : Z)
    (data : list Z) : M Z :=
  fun s =>
    let log := ctrl_log s ++ [{| c_handle := h; c_reqtype := reqtype;
                                 c_request := request; c_value := value;
                                 c_index := index; c_data := data |}] in
    match ctrl_replies s with
    | [] => (LIBUSB_ERROR_NO_DEVICE, with_ctrl s log [])
    | rc :: rest => (rc, with_ctrl s log rest)
    end.

(** [libusb_bulk_transfer]: returns the return code, the bytes received
    (at most [len] of them) and the count reported through [transferred]. *)
Definition libusb_bulk_transfer (h ep : Z) (data : list Z) (len : Z)
    : M (Z * list Z * Z) :=
  fun s =>
    let log := bulk_log s ++ [{| b_handle := h; b_ep := ep;
                                 b_data := data; b_length := len |}] in
    match bulk_replies s with
    | [] => (LIBUSB_ERROR_NO_DEVICE, [], 0, with_bulk s log [] (now s))
    | r :: rest =>
        if Z.land ep USB_ENDPOINT_DIR_MASK =? 0 then
          (r_rc r, [], Z.min (r_sent r) len,
           with_bulk s log rest (now s + r_elapsed r))
        else
          let got := firstn (Z.to_nat len) (r_data r) in
          (r_rc r, got, Z.of_nat (length got),
           with_bulk s log rest (now s + r_elapsed r))
    end.

(** [libusb_interrupt_transfer]: answered, like a bulk transfer, by the
    device's next scripted reply; its return code. *)
Definition libusb_interrupt_transfer (h ep len : Z) : M Z :=
  '(rc, _, _) <- libusb_bulk_transfer h ep [] len ;;
  ret rc.

(** [libusb_clear_halt] and [libusb_set_configuration] are the standard
    requests CLEAR_FEATURE(ENDPOINT_HALT) and SET_CONFIGURATION on the
    control endpoint; they return 0 or a negative error. *)
Definition libusb_clear_halt (h ep : Z) : M Z :=
  rc <- libusb_control_transfer h 2 1 0 ep [] ;;
  ret (if rc <? 0 then rc else LIBUSB_SUCCESS).

Definition libusb_set_configuration (h cfg : Z) : M Z :=
  rc <- libusb_control_transfer h 0 9 cfg 0 [] ;;
  ret (if rc <? 0 then rc else LIBUSB_SUCCESS).

(** ** usbutil.c: locating a device *)

Definition is_delim (c : ascii) : bool :=
  match c with
  | ":"%char | "009"%char | "013"%char | "010"%char => true
  | _ => false
  end.

(** The tokens [strtok] returns one after the other on [s]. *)
Fixpoint strtok_all (s : string) (cur : string) : list string :=
  match s with
  | EmptyString => if String.eqb cur "" then [] else [cur]
  | String c s' =>
      if is_delim c then
        (if String.eqb cur "" then [] else [cur]) ++ strtok_all s' ""
      else strtok_all s' (cur ++ String c EmptyString)
  end.

Definition is_space (c : ascii) : bool :=
  match c with
  | " "%char | "009"%char | "010"%char | "011"%char | "012"%char
  | "013"%char => true
  | _ => false
  end.

Definition digit_value (c : ascii) : option Z :=
  let n := Z.of_nat (nat_of_ascii c) in
  if (48 <=? n) && (n <=? 57) then Some (n - 48) else None.

Fixpoint atoi_digits (s : string) (acc : Z) : Z :=
  match s with
  | String c s' =>
      match digit_value c with
      | Some d => atoi_digits s' (acc * 10 + d)
      | None => acc
      end
  | EmptyString => acc
  end.

Fixpoint atoi (s : string) : Z :=
  match s with
  | String c s' =>
      if is_space c then atoi s'
      else if Ascii.eqb c "-" then - atoi_digits s' 0
      else if Ascii.eqb c "+" then atoi_digits s' 0
      else atoi_digits s 0
  | EmptyString => 0
  end.

(** [usbutil_find_by_loc]: the last device at [<bus>:<device>]. *)
Definition usbutil_find_by_loc (devs : list usb_device) (loc : option string)
    : option usb_device :=
  match loc with
  | None => None
  | Some l =>
      let buf := substring 0 63 l in
      match strtok_all buf "" with
      | bus_text :: dev_text :: _ =>
          let target_bus := atoi bus_text in
          let target_dev := atoi dev_text in
          fold_left (fun found dev =>
                       if (bus_number dev =? target_bus) &&
                          (device_address dev =? target_dev)
                       then Some dev else found) devs None
      | _ => None
      end
  end.

Definition lower (c : ascii) : ascii :=
  let n := nat_of_ascii c in
  if (65 <=? n)%nat && (n <=? 90)%nat then ascii_of_nat (n + 32) else c.

Fixpoint strcasecmp_eq (a b : string) : bool :=
  match a, b with
  | EmptyString, EmptyString => true
  | String c a', String d b' => Ascii.eqb (lower c) (lower d) && strcasecmp_eq a' b'
  | _, _ => false
  end.

(** [read_serial]: opens the device, reads the serial string descriptor
    into a 128-byte buffer, and closes it again. *)
Definition read_serial (dev : usb_device) : M (option string) :=
  '(rc, dh) <- libusb_open dev ;;
  if rc =? 0 then
    libusb_close dh ;;; ret (Some (substring 0 127 (serial_number dev)))
  else ret None.

(** The body of the device loop of [usbutil_find_by_id]. *)
Definition find_by_id_step (vendor product : Z) (requested_serial : option string)
    (found : option usb_device) (dev : usb_device) : M (option usb_device) :=
  if (idVendor dev =? vendor) && (idProduct dev =? product) then
    match requested_serial with
    | None => ret (Some dev)
    | Some rs =>
        buf <- read_serial dev ;;
        match buf with
        | Some b => if strcasecmp_eq rs b then ret (Some dev) else ret found
        | None => ret found
        end
    end
  else ret found.

Definition usbutil_find_by_id (devs : list usb_device) (vendor product : Z)
    (requested_serial : option string) : M (option usb_device) :=
  fold_left (fun acc dev =>
    found <- acc ;;
    if (idVendor dev =? vendor) && (idProduct dev =? product) then
      match requested_serial with
      | None => ret (Some dev)
      | Some rs =>
          buf <- read_serial dev ;;
          match buf with
          | Some b => if strcasecmp_eq rs b then ret (Some dev) else ret found
          | None => ret found
          end
      end
    else ret found) devs (ret None).

(** A loop that issues one transfer per iteration is given as fuel one more
    than the number of scripted replies: past them the model's libusb
    fails every transfer. *)
Definition fuel (s : usb_state) : nat := S (List.length (bulk_replies s)).

(** ** bslhid.c: the USB-HID BSL transport *)

Module BslHid.

Definition BSLHID_VID := 8263.    (* 0x2047 *)
Definition BSLHID_PID := 512.     (* 0x0200 *)
Definition BSLHID_CLASS := USB_CLASS_HID.
Definition BSLHID_XFER_SIZE := 64.
Definition BSLHID_MTU := BSLHID_XFER_SIZE - 2.
Definition BSLHID_HEADER := 63.   (* 0x3F *)
Definition BSLHID_FILL := 172.    (* 0xac *)

Record bslhid_transport := {
  cfg_number : Z;
  int_number : Z;
  handle : Z;       (** 0 is NULL *)
  in_ep : Z;
  out_ep : Z;
  path : string;    (** char[8] *)
  serial : string   (** char[128] *)
}.

Definition set_handle tr h :=
  {| cfg_number := cfg_number tr; int_number := int_number tr; handle := h;
     in_ep := in_ep tr; out_ep := out_ep tr; path := path tr;
     serial := serial tr |}.

(** The inner loop of [find_interface]: the last bulk IN and the last bulk
    OUT endpoint address. *)
Definition scan_endpoints (eps : list endpoint_descriptor) : Z * Z :=
  fold_left (fun (io : Z * Z) (ep : endpoint_descriptor) =>
    let (i, o) := io in
    let type := Z.land (bmAttributes ep) USB_ENDPOINT_TYPE_MASK in
    let addr := bEndpointAddress ep in
    if negb (type =? USB_ENDPOINT_TYPE_BULK) then (i, o)
    else if negb (Z.land addr USB_ENDPOINT_DIR_MASK =? 0) then (addr, o)
    else (i, addr)) eps (-1, -1).

Fixpoint find_interface_from (tr : bslhid_transport) (c : config_descriptor)
    (ifs : list interface_descriptor) (i : Z) : Z * bslhid_transport :=
  match ifs with
  | [] => (-1, tr)
  | desc :: rest =>
      if negb (bInterfaceClass desc =? BSLHID_CLASS) then
        find_interface_from tr c rest (i + 1)
      else
        let (ie, oe) := scan_endpoints (endpoint desc) in
        let tr' := {| cfg_number := cfg_number tr; int_number := int_number tr;
                      handle := handle tr; in_ep := ie; out_ep := oe;
                      path := path tr; serial := serial tr |} in
        if (0 <=? ie) && (0 <=? oe) then
          (0, {| cfg_number := bConfigurationValue c; int_number := i;
                 handle := handle tr; in_ep := ie; out_ep := oe;
                 path := path tr; serial := serial tr |})
        else find_interface_from tr' c rest (i + 1)
  end.

Definition find_interface (tr : bslhid_transport) (dev : usb_device)
    : Z * bslhid_transport :=
  find_interface_from tr (config dev) (interface (config dev)) 0.

Definition open_device (tr : bslhid_transport) (dev : usb_device)
    : M (Z * bslhid_transport) :=
  let (rc, tr) := find_interface tr dev in
  if negb (rc =? 0) then ret (-1, tr) else
  '(rc, h) <- libusb_open dev ;;
  let tr := set_handle tr h in
  if h =? 0 then ret (-1, tr) else
  rc <- libusb_claim_interface h (int_number tr) ;;
  if negb (rc =? 0) then libusb_close h ;;; ret (-1, tr)
  else ret (0, tr).

Fixpoint flush_loop (n : nat) (h ep : Z) : M unit :=
  match n with
  | O => ret tt
  | S n' =>
      '(rc, _, _) <- libusb_bulk_transfer h ep [] BSLHID_XFER_SIZE ;;
      if negb (rc =? 0) then flush_loop n' h ep else ret tt
  end.

Definition bslhid_flush (tr : bslhid_transport) : M Z :=
  if handle tr =? 0 then ret 0 else
  s <- get ;;
  flush_loop (fuel s) (handle tr) (in_ep tr) ;;; ret 0.

(** The frame [bslhid_send] builds in [outbuf]. *)
Definition outbuf (data : list Z) : list Z :=
  [BSLHID_HEADER; Z.of_nat (List.length data)] ++ data
  ++ repeat BSLHID_FILL (Z.to_nat (BSLHID_XFER_SIZE - 2) - List.length data).

(** [while (len) { libusb_bulk_transfer(h, ep, data, len, &sent); ...;
    data += sent; len -= sent; }] *)
Fixpoint send_loop (n : nat) (h ep : Z) (data : list Z) : M Z :=
  match n with
  | O => ret (-1)
  | S n' =>
      let len := Z.of_nat (List.length data) in
      if len =? 0 then ret 0 else
      '(rc, _, sent) <- libusb_bulk_transfer h ep data len ;;
      if negb (rc =? 0) && negb (rc =? LIBUSB_ERROR_TIMEOUT) then ret (-1)
      else send_loop n' h ep (skipn (Z.to_nat sent) data)
  end.

Definition bslhid_send (tr : bslhid_transport) (data : list Z) : M Z :=
  if handle tr =? 0 then ret (-1) else
  let len := Z.of_nat (List.length data) in
  if len >? BSLHID_MTU then ret (-1) else
  let _ := outbuf data in
  s <- get ;;
  send_loop (fuel s) (handle tr) (out_ep tr) data.

(** [bslhid_recv]: the return value and the bytes copied to [data]. *)
Definition bslhid_recv (tr : bslhid_transport) (max_len : Z) : M (Z * list Z) :=
  if handle tr =? 0 then ret (-1, []) else
  '(rc, inbuf, r) <- libusb_bulk_transfer (handle tr) (in_ep tr) []
                                           BSLHID_XFER_SIZE ;;
  if negb (rc =? 0) && negb (rc =? LIBUSB_ERROR_TIMEOUT) then ret (-1, []) else
  if r <? 2 then ret (-1, []) else
  if negb (nth 0 inbuf 0 =? BSLHID_HEADER) then ret (-1, []) else
  let len := nth 1 inbuf 0 in
  if (len >? max_len) || (len + 2 >? r) then ret (-1, []) else
  ret (len, firstn (Z.to_nat len) (skipn 2 inbuf)).

Definition bslhid_suspend (tr : bslhid_transport) : M (Z * bslhid_transport) :=
  if negb (handle tr =? 0) then
    libusb_release_interface (handle tr) (int_number tr) ;;;
    libusb_close (handle tr) ;;;
    ret (0, set_handle tr 0)
  else ret (0, tr).

Definition bslhid_resume (devs : list usb_device) (tr : bslhid_transport)
    : M (Z * bslhid_transport) :=
  if negb (handle tr =? 0) then ret (0, tr) else
  match usbutil_find_by_loc devs (Some (path tr)) with
  | None => ret (-1, tr)
  | Some dev =>
      '(rc, tr) <- open_device tr dev ;;
      if rc <? 0 then ret (-1, tr) else ret (0, tr)
  end.

Definition zero_transport : bslhid_transport :=
  {| cfg_number := 0; int_number := 0; handle := 0; in_ep := 0; out_ep := 0;
     path := ""; serial := "" |}.

(** [bslhid_open]: [requested_serial] is only read when [dev_path] is
    NULL, and the callers pass a string then. *)
Definition bslhid_open (devs : list usb_device) (dev_path : option string)
    (requested_serial : string) : M (option bslhid_transport) :=
  '(tr, dev) <-
    match dev_path with
    | Some p =>
        ret ({| cfg_number := 0; int_number := 0; handle := 0; in_ep := 0;
                out_ep := 0; path := substring 0 7 p; serial := "" |},
             usbutil_find_by_loc devs (Some p))
    | None =>
        d <- usbutil_find_by_id devs BSLHID_VID BSLHID_PID
                                (Some requested_serial) ;;
        ret ({| cfg_number := 0; int_number := 0; handle := 0; in_ep := 0;
                out_ep := 0; path := "";
                serial := substring 0 127 requested_serial |}, d)
    end ;;
  match dev with
  | None => ret None
  | Some dev =>
      '(rc, tr) <- open_device tr dev ;;
      if rc <? 0 then ret None else
      bslhid_flush tr ;;; ret (Some tr)
  end.

(** [bslhid_destroy]; [libusb_unref_device] drops a reference count the
    model does not track, and [free] has no effect on the modelled state. *)
Definition bslhid_destroy (tr : bslhid_transport) : M unit :=
  if negb (handle tr =? 0) then
    libusb_release_interface (handle tr) (int_number tr) ;;;
    libusb_close (handle tr)
  else ret tt.

End BslHid.

(** ** Concrete devices and states *)

Definition bulk_ep (addr : Z) : endpoint_descriptor :=
  {| bmAttributes := USB_ENDPOINT_TYPE_BULK; bEndpointAddress := addr |}.

Definition hid_interface : interface_descriptor :=
  {| bInterfaceClass := USB_CLASS_HID; bInterfaceNumber := 0;
     endpoint := [bulk_ep 129; bulk_ep 1] |}.

(** A BSL HID device at 001:005 with serial number "ABC". *)
Definition bsl_device : usb_device :=
  {| bus_number := 1; device_address := 5; idVendor := BslHid.BSLHID_VID;
     idProduct := BslHid.BSLHID_PID; serial_number := "ABC";
     bNumConfigurations := 1;
     config := {| bConfigurationValue := 1; interface := [hid_interface] |};
     open_ok := true; claim_ok := true |}.

Definition ok_reply (data : list Z) (sent : Z) : bulk_reply :=
  {| r_rc := 0; r_data := data; r_sent := sent; r_elapsed := 0 |}.

Definition state_with (ctrl : list Z) (bulk : list bulk_reply) : usb_state :=
  {| next_handle := 1; handles := []; claimed := []; ctrl_log := [];
     ctrl_replies := ctrl; bulk_log := []; bulk_replies := bulk; now := 0 |}.

(** An open HID instance on handle 1 with the endpoints of [bsl_device]. *)
Definition hid_open_tr : BslHid.bslhid_transport :=
  {| BslHid.cfg_number := 1; BslHid.int_number := 0; BslHid.handle := 1;
     BslHid.in_ep := 129; BslHid.out_ep := 1; BslHid.path := "001:005";
     BslHid.serial := "" |}.

(** The drain loop [while (libusb_bulk_transfer(h, ep, buf, n, ...) != 0);]
    shared by the flush operations of the serial bridges. *)
Fixpoint drain_loop (k : nat) (h ep n : Z) : M unit :=
  match k with
  | O => ret tt
  | S k' =>
      '(rc, _, _) <- libusb_bulk_transfer h ep [] n ;;
      if negb (rc =? 0) then drain_loop k' h ep n else ret tt
  end.

(** ** cdc_acm.c *)

Module CdcAcm.

Definition READ_BUFFER_SIZE := 1024.
Definition CDC_REQTYPE_HOST_TO_DEVICE := 33.  (* 0x21 *)
Definition CDC_SET_CONTROL := 34.             (* 0x22 *)
Definition CDC_SET_LINE_CODING := 32.         (* 0x20 *)

Record cdc_acm_transport := {
  int_number : Z;
  handle : Z;
  in_ep : Z;
  out_ep : Z;
  rbuf_len : Z;
  rbuf_ptr : Z;
  rbuf : list Z
}.

Definition set_rbuf tr len ptr buf :=
  {| int_number := int_number tr; handle := handle tr; in_ep := in_ep tr;
     out_ep := out_ep tr; rbuf_len := len; rbuf_ptr := ptr; rbuf := buf |}.

(** [usbtr_recv]: the return value, the bytes copied and the instance. *)
Definition usbtr_recv (tr : cdc_acm_transport) (len : Z)
    : M (Z * list Z * cdc_acm_transport) :=
  '(ok, tr) <-
    (if rbuf_ptr tr >=? rbuf_len tr then
       let tr := set_rbuf tr (rbuf_len tr) 0 (rbuf tr) in
       '(rc, got, received) <- libusb_bulk_transfer (handle tr) (in_ep tr) []
                                                    READ_BUFFER_SIZE ;;
       if negb (rc =? 0) && negb (rc =? LIBUSB_ERROR_TIMEOUT) then
         ret (false, tr)
       else ret (true, set_rbuf tr received 0 got)
     else ret (true, tr)) ;;
  if negb ok then ret (-1, [], tr) else
  let len := if rbuf_ptr tr + len >? rbuf_len tr
             then rbuf_len tr - rbuf_ptr tr else len in
  let out := firstn (Z.to_nat len) (skipn (Z.to_nat (rbuf_ptr tr)) (rbuf tr)) in
  ret (len, out, set_rbuf tr (rbuf_len tr) (rbuf_ptr tr + len) (rbuf tr)).

Definition line_coding (baud_rate : Z) : list Z :=
  [Z.land baud_rate 255; Z.land (Z.shiftr baud_rate 8) 255;
   Z.land (Z.shiftr baud_rate 16) 255; Z.land (Z.shiftr baud_rate 24) 255;
   0; 0; 8].

Definition configure_port (tr : cdc_acm_transport) (baud_rate : Z) : M Z :=
  rc <- libusb_control_transfer (handle tr) CDC_REQTYPE_HOST_TO_DEVICE
          CDC_SET_LINE_CODING 0 0 (line_coding baud_rate) ;;
  if negb (rc =? 0) then ret (-1) else
  rc <- libusb_control_transfer (handle tr) CDC_REQTYPE_HOST_TO_DEVICE
          CDC_SET_CONTROL 0 0 [] ;;
  if negb (rc =? 0) then ret (-1) else ret 0.

Definition CDC_INTERFACE_CLASS := 10.

(** [usbtr_send]: the loop [while (len > 0) { ... data += sent;
    len -= sent; }] is the bulk write loop [BslHid.send_loop], [len]
    being the length of the remaining data. *)
Definition usbtr_send (tr : cdc_acm_transport) (data : list Z) : M Z :=
  s <- get ;;
  BslHid.send_loop (fuel s) (handle tr) (out_ep tr) data.

Definition usbtr_destroy (tr : cdc_acm_transport) : M unit :=
  libusb_release_interface (handle tr) (int_number tr) ;;;
  libusb_close (handle tr).

(** [usbtr_flush]: the return value and the instance. *)
Definition usbtr_flush (tr : cdc_acm_transport) : M (Z * cdc_acm_transport) :=
  s <- get ;;
  drain_loop (fuel s) (handle tr) (in_ep tr) 64 ;;;
  ret (0, set_rbuf tr 0 0 (rbuf tr)).

Definition set_eps tr ie oe :=
  {| int_number := int_number tr; handle := handle tr; in_ep := ie;
     out_ep := oe; rbuf_len := rbuf_len tr; rbuf_ptr := rbuf_ptr tr;
     rbuf := rbuf tr |}.

Definition set_int tr i :=
  {| int_number := i; handle := handle tr; in_ep := in_ep tr;
     out_ep := out_ep tr; rbuf_len := rbuf_len tr; rbuf_ptr := rbuf_ptr tr;
     rbuf := rbuf tr |}.

Definition set_handle tr h :=
  {| int_number := int_number tr; handle := h; in_ep := in_ep tr;
     out_ep := out_ep tr; rbuf_len := rbuf_len tr; rbuf_ptr := rbuf_ptr tr;
     rbuf := rbuf tr |}.

(** [find_interface]: the endpoint loop is the one of bslhid.c. *)
Fixpoint find_interface_from (tr : cdc_acm_transport)
    (ifs : list interface_descriptor) (i : Z) : Z * cdc_acm_transport :=
  match ifs with
  | [] => (-1, tr)
  | desc :: rest =>
      if negb (bInterfaceClass desc =? CDC_INTERFACE_CLASS) then
        find_interface_from tr rest (i + 1)
      else
        let (ie, oe) := BslHid.scan_endpoints (endpoint desc) in
        let tr' := set_eps tr ie oe in
        if (0 <=? ie) && (0 <=? oe) then (0, set_int tr' i)
        else find_interface_from tr' rest (i + 1)
  end.

Definition find_interface (tr : cdc_acm_transport) (dev : usb_device)
    : Z * cdc_acm_transport :=
  find_interface_from tr (interface (config dev)) 0.

Definition open_interface (tr : cdc_acm_transport) (dev : usb_device)
    : M (Z * cdc_acm_transport) :=
  '(rc, h) <- libusb_open dev ;;
  let tr := set_handle tr h in
  if h =? 0 then ret (-1, tr) else
  rc <- libusb_claim_interface h (int_number tr) ;;
  if negb (rc =? 0) then libusb_close h ;;; ret (-1, tr)
  else ret (0, tr).

Definition zero_transport : cdc_acm_transport :=
  {| int_number := 0; handle := 0; in_ep := 0; out_ep := 0; rbuf_len := 0;
     rbuf_ptr := 0; rbuf := repeat 0 (Z.to_nat READ_BUFFER_SIZE) |}.

(** [cdc_acm_open]: the instance, or NULL; [vendor] and [product] are
    16-bit values. *)
Definition cdc_acm_open (devs : list usb_device) (devpath : option string)
    (requested_serial : option string) (baud_rate vendor product : Z)
    : M (option cdc_acm_transport) :=
  dev <- (match devpath with
          | Some _ => ret (usbutil_find_by_loc devs devpath)
          | None => usbutil_find_by_id devs vendor product requested_serial
          end) ;;
  match dev with
  | None => ret None
  | Some dev =>
      let (rc, tr) := find_interface zero_transport dev in
      if rc <? 0 then ret None else
      '(rc, tr) <- open_interface tr dev ;;
      if rc <? 0 then ret None else
      rc <- configure_port tr baud_rate ;;
      if rc <? 0 then usbtr_destroy tr ;;; ret None else
      '(_, tr) <- usbtr_flush tr ;;
      ret (Some tr)
  end.

End CdcAcm.

(** ** ti3410.c: port configuration and firmware preparation *)

Module Ti3410.

Definition USB_TYPE_VENDOR := 64.   (* 0x40 *)
Definition USB_RECIP_DEVICE := 0.
Definition TI_SET_CONFIG := 5.
Definition TI_UART1_PORT := 3.
Definition TI_UART_8_DATA_BITS := 3.
Definition TI_UART_NO_PARITY := 0.
Definition TI_UART_1_STOP_BITS := 0.
Definition TI_FIRMWARE_BUF_SIZE := 16284.

Record ti3410_transport := { handle : Z }.

Definition tios_data : list Z :=
  [0; 2; 96; 0; TI_UART_8_DATA_BITS; TI_UART_NO_PARITY; TI_UART_1_STOP_BITS;
   0; 0; 0].

Definition set_termios (tr : ti3410_transport) : M Z :=
  rc <- libusb_control_transfer (handle tr)
          (Z.lor USB_TYPE_VENDOR USB_RECIP_DEVICE) TI_SET_CONFIG 0
          TI_UART1_PORT tios_data ;;
  if negb (rc =? 0) then ret (-1) else ret 0.

Record firmware := {
  buf : list Z;     (** uint8_t[TI_FIRMWARE_BUF_SIZE] *)
  size : Z
}.

Record binfile_chunk := {
  addr : Z;
  data : list Z
}.

(** Which branch of [do_extract] was taken: it returns 0 for [Extracted]
    and -1 for the two errors. *)
Inductive extract_result :=
| Extracted (f : firmware)
| FirmwareGap (size addr : Z)
| SizeExceeded.

Definition do_extract (f : firmware) (ch : binfile_chunk) : extract_result :=
  let len := Z.of_nat (List.length (data ch)) in
  if negb (size f =? addr ch) then FirmwareGap (size f) (addr ch)
  else if size f + len >? TI_FIRMWARE_BUF_SIZE then SizeExceeded
  else Extracted
         {| buf := firstn (Z.to_nat (size f)) (buf f) ++ data ch
                   ++ skipn (Z.to_nat (size f + len)) (buf f);
            size := size f + len |}.

(** Modelled from the spec: [ihex_extract] (ihex.c, not part of these
    sources), the external decoder that hands the image's chunks to the
    callback in file order and stops at the first chunk the callback
    rejects. *)
Fixpoint ihex_extract (chunks : list binfile_chunk) (f : firmware)
    : extract_result :=
  match chunks with
  | [] => Extracted f
  | ch :: rest =>
      match do_extract f ch with
      | Extracted f' => ihex_extract rest f'
      | err => err
      end
  end.

(** The buffer after [memset] of [load_firmware]. *)
Definition firmware_init : firmware :=
  {| buf := repeat 0 (Z.to_nat TI_FIRMWARE_BUF_SIZE); size := 0 |}.

Definition upd (l : list Z) (i : nat) (v : Z) : list Z :=
  firstn i l ++ v :: skipn (S i) l.

(** [for (i = 3; i < f->size; i++) cksum += f->buf[i];] on a uint8_t. *)
Definition cksum_of (f : firmware) : Z :=
  fold_left (fun c b => (c + b) mod 256)
            (firstn (Z.to_nat (size f - 3)) (skipn 3 (buf f))) 0.

Definition prepare_firmware (f : firmware) : firmware :=
  let cksum := cksum_of f in
  let real_size := (size f - 3) mod 65536 in   (* uint16_t *)
  {| buf := upd (upd (upd (buf f) 0 (Z.land real_size 255)) 1
                     (Z.shiftr real_size 8 mod 256)) 2 cksum;
     size := size f |}.

Definition USB_FET_IN_EP := 129.   (* 0x81 *)
Definition USB_FET_OUT_EP := 1.
Definition USB_FDL_INTERFACE := 0.
Definition USB_FDL_OUT_EP := 1.
Definition TI_CLOSE_PORT := 7.
Definition TI_DOWNLOAD_MAX_PACKET_SIZE := 64.
Definition READ_TIMEOUT := 5000.

Definition ti3410_send (tr : ti3410_transport) (data : list Z) : M Z :=
  s <- get ;;
  BslHid.send_loop (fuel s) (handle tr) USB_FET_OUT_EP data.

(** The loop [while (time(NULL) < deadline)] of [ti3410_recv]. *)
Fixpoint recv_loop (k : nat) (h max_len deadline : Z) : M (Z * list Z) :=
  match k with
  | O => ret (-1, [])
  | S k' =>
      s <- get ;;
      if now s <? deadline then
        '(rc, got, rlen) <- libusb_bulk_transfer h USB_FET_IN_EP [] max_len ;;
        if negb (rc =? 0) && negb (rc =? LIBUSB_ERROR_TIMEOUT) then
          ret (-1, [])
        else if rlen >? 0 then ret (rlen, got)
        else recv_loop k' h max_len deadline
      else ret (-1, [])
  end.

(** [ti3410_recv]: the return value and the bytes received. *)
Definition ti3410_recv (tr : ti3410_transport) (max_len : Z)
    : M (Z * list Z) :=
  s <- get ;;
  recv_loop (fuel s) (handle tr) max_len (now s + READ_TIMEOUT / 1000).

Definition teardown_port (tr : ti3410_transport) : M unit :=
  _ <- libusb_control_transfer (handle tr)
         (Z.lor USB_TYPE_VENDOR USB_RECIP_DEVICE) TI_CLOSE_PORT 0
         TI_UART1_PORT [] ;;
  ret tt.

Definition ti3410_destroy (tr : ti3410_transport) : M unit :=
  teardown_port tr.

(** The download loop of [do_download]: a packet of at most 64 bytes from
    [f->buf + offset], and [offset += r]. *)
Fixpoint download_loop (k : nat) (h : Z) (f : firmware) (offset : Z) : M Z :=
  match k with
  | O => ret (-1)
  | S k' =>
      if offset <? size f then
        let plen := Z.min (size f - offset) TI_DOWNLOAD_MAX_PACKET_SIZE in
        '(rc, _, r) <- libusb_bulk_transfer h USB_FDL_OUT_EP
                         (firstn (Z.to_nat plen) (skipn (Z.to_nat offset) (buf f)))
                         plen ;;
        if negb (rc =? 0) && negb (rc =? LIBUSB_ERROR_TIMEOUT) then
          libusb_close h ;;; ret (-1)
        else download_loop k' h f (offset + r)
      else ret 0
  end.

(** [do_download]; the [delay_ms(100)] and [libusb_reset_device], whose
    failure is only reported, are left out. *)
Definition do_download (dev : usb_device) (f : firmware) : M Z :=
  '(rc, h) <- libusb_open dev ;;
  if h =? 0 then ret (-1) else
  rc <- libusb_claim_interface h USB_FDL_INTERFACE ;;
  if negb (rc =? 0) then libusb_close h ;;; ret (-1) else
  s <- get ;;
  rc <- download_loop (fuel s) h f 0 ;;
  if rc <? 0 then ret (-1) else
  libusb_close h ;;; ret 0.

Definition USB_FET_VENDOR := 1105.     (* 0x0451 *)
Definition USB_FET_PRODUCT := 62512.   (* 0xf430 *)
Definition USB_FET_INTERFACE := 0.
Definition USB_FET_INT_EP := 131.      (* 0x83 *)
Definition TI_BOOT_CONFIG := 1.
Definition TI_ACTIVE_CONFIG := 2.
Definition TI_PIPE_MODE_CONTINOUS := 1.
Definition TI_PIPE_TIMEOUT_ENABLE := 128.   (* 0x80 *)
Definition TI_TRANSFER_TIMEOUT := 2.
Definition TI_RAM_PORT := 5.
Definition TI_PURGE_OUTPUT := 0.
Definition TI_PURGE_INPUT := 128.      (* 0x80 *)
Definition TI_OPEN_PORT := 6.
Definition TI_START_PORT := 8.
Definition TI_PURGE_PORT := 11.        (* 0x0B *)
Definition TI_WRITE_DATA := 128.       (* 0x80 *)
Definition TI_MCR_LOOP := 4.
Definition TI_MCR_DTR := 16.           (* 0x10 *)
Definition TI_MCR_RTS := 32.           (* 0x20 *)
Definition TI_RW_DATA_ADDR_XDATA := 48.   (* 0x30 *)
Definition TI_RW_DATA_BYTE := 1.

(** [open_device] of ti3410.c; the device and configuration descriptors
    are always read. *)
Definition open_device (tr : ti3410_transport) (dev : usb_device)
    : M (Z * ti3410_transport) :=
  '(rc, h) <- libusb_open dev ;;
  let tr := {| handle := h |} in
  if h =? 0 then ret (-1, tr) else
  rc <- (if bConfigurationValue (config dev) =? TI_BOOT_CONFIG
         then libusb_set_configuration h TI_ACTIVE_CONFIG
         else ret 0) ;;
  if negb (rc =? 0) then libusb_close h ;;; ret (-1, tr) else
  rc <- libusb_claim_interface h USB_FET_INTERFACE ;;
  if negb (rc =? 0) then libusb_close h ;;; ret (-1, tr) else
  ret (0, tr).

Definition wb_data : list Z :=
  [TI_RW_DATA_ADDR_XDATA; TI_RW_DATA_BYTE; 1; 0; 0; 255; 164;
   Z.lor (Z.lor TI_MCR_LOOP TI_MCR_RTS) TI_MCR_DTR;
   Z.lor TI_MCR_RTS TI_MCR_DTR].

Definition set_mcr (tr : ti3410_transport) : M Z :=
  rc <- libusb_control_transfer (handle tr)
          (Z.lor USB_TYPE_VENDOR USB_RECIP_DEVICE) TI_WRITE_DATA 0
          TI_RAM_PORT wb_data ;;
  if negb (rc =? 0) then ret (-1) else ret 0.

Definition do_open_start (tr : ti3410_transport) : M Z :=
  rc <- set_termios tr ;;
  if rc <? 0 then ret (-1) else
  rc <- set_mcr tr ;;
  if rc <? 0 then ret (-1) else
  rc <- libusb_control_transfer (handle tr)
          (Z.lor USB_TYPE_VENDOR USB_RECIP_DEVICE) TI_OPEN_PORT
          (Z.lor (Z.lor TI_PIPE_MODE_CONTINOUS TI_PIPE_TIMEOUT_ENABLE)
                 (Z.shiftl TI_TRANSFER_TIMEOUT 2))
          TI_UART1_PORT [] ;;
  if negb (rc =? 0) then ret (-1) else
  rc <- libusb_control_transfer (handle tr)
          (Z.lor USB_TYPE_VENDOR USB_RECIP_DEVICE) TI_START_PORT 0
          TI_UART1_PORT [] ;;
  if negb (rc =? 0) then ret (-1) else ret 0.

Definition interrupt_flush (tr : ti3410_transport) : M Z :=
  libusb_interrupt_transfer (handle tr) USB_FET_INT_EP 2.

Definition setup_port (tr : ti3410_transport) : M Z :=
  _ <- interrupt_flush tr ;;
  rc <- do_open_start tr ;;
  if rc <? 0 then ret (-1) else
  rc <- libusb_control_transfer (handle tr)
          (Z.lor USB_TYPE_VENDOR USB_RECIP_DEVICE) TI_PURGE_PORT
          TI_PURGE_INPUT TI_UART1_PORT [] ;;
  if negb (rc =? 0) then ret (-1) else
  _ <- interrupt_flush tr ;;
  _ <- interrupt_flush tr ;;
  rc <- libusb_control_transfer (handle tr)
          (Z.lor USB_TYPE_VENDOR USB_RECIP_DEVICE) TI_PURGE_PORT
          TI_PURGE_OUTPUT TI_UART1_PORT [] ;;
  if negb (rc =? 0) then ret (-1) else
  _ <- interrupt_flush tr ;;
  rc <- libusb_clear_halt (handle tr) USB_FET_IN_EP ;;
  if negb (rc =? 0) then ret (-1) else
  rc <- libusb_clear_halt (handle tr) USB_FET_OUT_EP ;;
  if negb (rc =? 0) then ret (-1) else
  rc <- do_open_start tr ;;
  if rc <? 0 then ret (-1) else ret 0.

(** [load_firmware]: [file] is what [find_firmware] opens, if anything,
    with the verdict of [ihex_check] on it and the chunks its records
    hold. *)
Definition load_firmware (file : option (bool * list binfile_chunk))
    : option firmware :=
  match file with
  | None => None
  | Some (valid, chunks) =>
      if negb valid then None else
      match ihex_extract chunks firmware_init with
      | Extracted f => Some f
      | _ => None
      end
  end.

(** [download_firmware]; the [delay_s(2)] is left out. *)
Definition download_firmware (file : option (bool * list binfile_chunk))
    (dev : usb_device) : M Z :=
  match load_firmware file with
  | None => ret (-1)
  | Some frm =>
      rc <- do_download dev (prepare_firmware frm) ;;
      if rc <? 0 then ret (-1) else ret 0
  end.

(** The device lookup [ti3410_open] makes, first in [devs] and, after a
    firmware download, again in the list [devs'] of the devices then on
    the bus. *)
Definition find_fet (devs : list usb_device) (devpath requested_serial : option string)
    : M (option usb_device) :=
  match devpath with
  | Some _ => ret (usbutil_find_by_loc devs devpath)
  | None => usbutil_find_by_id devs USB_FET_VENDOR USB_FET_PRODUCT requested_serial
  end.

(** [ti3410_open]: the instance, or NULL. *)
Definition ti3410_open (devs devs' : list usb_device)
    (file : option (bool * list binfile_chunk))
    (devpath requested_serial : option string) : M (option ti3410_transport) :=
  dev <- find_fet devs devpath requested_serial ;;
  match dev with
  | None => ret None
  | Some dev =>
      dev <- (if bNumConfigurations dev =? 1 then
                rc <- download_firmware file dev ;;
                if rc <? 0 then ret None
                else find_fet devs' devpath requested_serial
              else ret (Some dev)) ;;
      match dev with
      | None => ret None
      | Some dev =>
          '(rc, tr) <- open_device {| handle := 0 |} dev ;;
          if rc <? 0 then ret None else
          rc <- setup_port tr ;;
          if rc <? 0 then
            teardown_port tr ;;; libusb_close (handle tr) ;;; ret None
          else ret (Some tr)
      end
  end.

End Ti3410.

(** ** The modem request

    [transport_modem_t] is a bit set whose two masks, [TRANSPORT_MODEM_DTR]
    and [TRANSPORT_MODEM_RTS], are declared in transport.h; the backends
    below are written for any values of them. *)

Section Modem.

Variables TRANSPORT_MODEM_DTR TRANSPORT_MODEM_RTS : Z.

(** ** cp210x.c *)

Definition CP210X_CLOCK := 3500000.
Definition V1_INTERFACE_CLASS := 255.
Definition V1_IN_EP := 129.     (* 0x81 *)
Definition V1_OUT_EP := 1.
Definition CP210x_REQTYPE_HOST_TO_DEVICE := 65.   (* 0x41 *)
Definition CP210X_IFC_ENABLE := 0.
Definition CP210X_SET_BAUDDIV := 1.
Definition CP210X_SET_MHS := 7.
Definition CP210X_DTR := 1.
Definition CP210X_RTS := 2.
Definition CP210X_WRITE_DTR := 256.   (* 0x0100 *)
Definition CP210X_WRITE_RTS := 512.   (* 0x0200 *)
Definition CP210X_TIMEOUT_S := 30.

Record cp210x_transport := {
  cp_handle : Z;
  cp_int_number : Z
}.

Definition cp210x_configure_port (tr : cp210x_transport) (baud_rate : Z) : M Z :=
  rc <- libusb_control_transfer (cp_handle tr) CP210x_REQTYPE_HOST_TO_DEVICE
          CP210X_IFC_ENABLE 1 0 [] ;;
  if rc <? 0 then ret (-1) else
  rc <- libusb_control_transfer (cp_handle tr) CP210x_REQTYPE_HOST_TO_DEVICE
          CP210X_SET_BAUDDIV (Z.quot CP210X_CLOCK baud_rate) 0 [] ;;
  if rc <? 0 then ret (-1) else
  rc <- libusb_control_transfer (cp_handle tr) CP210x_REQTYPE_HOST_TO_DEVICE
          CP210X_SET_MHS 771 0 [] ;;   (* 0x303 *)
  if rc <? 0 then ret (-1) else ret 0.

Definition cp210x_open_interface (tr : cp210x_transport) (dev : usb_device)
    (ino baud_rate : Z) : M (Z * cp210x_transport) :=
  '(rc, h) <- libusb_open dev ;;
  let tr := {| cp_handle := h; cp_int_number := ino |} in
  if h =? 0 then ret (-1, tr) else
  rc <- libusb_claim_interface h ino ;;
  if negb (rc =? 0) then libusb_close h ;;; ret (-1, tr) else
  rc <- cp210x_configure_port tr baud_rate ;;
  if rc <? 0 then libusb_close h ;;; ret (-1, tr) else
  ret (0, tr).

Fixpoint cp210x_open_device_from (tr : cp210x_transport) (dev : usb_device)
    (ifs : list interface_descriptor) (baud_rate : Z)
    : M (Z * cp210x_transport) :=
  match ifs with
  | [] => ret (-1, tr)
  | desc :: rest =>
      if bInterfaceClass desc =? V1_INTERFACE_CLASS then
        '(rc, tr) <- cp210x_open_interface tr dev (bInterfaceNumber desc)
                                            baud_rate ;;
        if rc =? 0 then ret (0, tr)
        else cp210x_open_device_from tr dev rest baud_rate
      else cp210x_open_device_from tr dev rest baud_rate
  end.

Definition cp210x_open_device (tr : cp210x_transport) (dev : usb_device)
    (baud_rate : Z) : M (Z * cp210x_transport) :=
  cp210x_open_device_from tr dev (interface (config dev)) baud_rate.

(** [cp210x_open]: the instance, or NULL. *)
Definition cp210x_open (devs : list usb_device) (devpath : option string)
    (requested_serial : option string) (baud_rate product vendor : Z)
    : M (option cp210x_transport) :=
  let tr := {| cp_handle := 0; cp_int_number := 0 |} in
  dev <- (match devpath with
          | Some _ => ret (usbutil_find_by_loc devs devpath)
          | None => usbutil_find_by_id devs product vendor requested_serial
          end) ;;
  match dev with
  | None => ret None
  | Some dev =>
      '(rc, tr) <- cp210x_open_device tr dev baud_rate ;;
      if rc <? 0 then ret None else
      s <- get ;;
      drain_loop (fuel s) (cp_handle tr) V1_IN_EP 64 ;;;
      ret (Some tr)
  end.

Fixpoint cp210x_recv_loop (k : nat) (h max_len deadline : Z)
    : M (Z * list Z) :=
  match k with
  | O => ret (-1, [])
  | S k' =>
      s <- get ;;
      if now s <? deadline then
        '(rc, got, received) <- libusb_bulk_transfer h V1_IN_EP [] max_len ;;
        if negb (rc =? 0) && negb (rc =? LIBUSB_ERROR_TIMEOUT) then
          ret (-1, [])
        else if rc =? 0 then ret (received, got)
        else cp210x_recv_loop k' h max_len deadline
      else ret (-1, [])
  end.

(** [usbtr_recv] of cp210x.c: the return value and the bytes received. *)
Definition cp210x_usbtr_recv (tr : cp210x_transport) (max_len : Z)
    : M (Z * list Z) :=
  s <- get ;;
  cp210x_recv_loop (fuel s) (cp_handle tr) max_len (now s + CP210X_TIMEOUT_S).

Definition cp210x_modem_value (state : Z) : Z :=
  let value := Z.lor CP210X_WRITE_DTR CP210X_WRITE_RTS in
  let value := if Z.land state TRANSPORT_MODEM_DTR =? 0
               then Z.lor value CP210X_DTR else value in
  if Z.land state TRANSPORT_MODEM_RTS =? 0
  then Z.lor value CP210X_RTS else value.

Definition cp210x_usbtr_set_modem (tr : cp210x_transport) (state : Z) : M Z :=
  rc <- libusb_control_transfer (cp_handle tr) CP210x_REQTYPE_HOST_TO_DEVICE
          CP210X_SET_MHS (cp210x_modem_value state) 0 [] ;;
  if negb (rc =? 0) then ret (-1) else ret 0.

Definition cp210x_usbtr_send (tr : cp210x_transport) (data : list Z) : M Z :=
  s <- get ;;
  BslHid.send_loop (fuel s) (cp_handle tr) V1_OUT_EP data.

Definition cp210x_usbtr_destroy (tr : cp210x_transport) : M unit :=
  libusb_release_interface (cp_handle tr) (cp_int_number tr) ;;;
  libusb_close (cp_handle tr).

Definition cp210x_usbtr_flush (tr : cp210x_transport) : M Z :=
  s <- get ;;
  drain_loop (fuel s) (cp_handle tr) V1_IN_EP 64 ;;;
  ret 0.

(** ** cdc_acm.c: the modem request *)

Definition CDC_CTRL_DTR := 1.
Definition CDC_CTRL_RTS := 2.

Definition cdc_modem_value (state : Z) : Z :=
  let value := 0 in
  let value := if negb (Z.land state TRANSPORT_MODEM_DTR =? 0)
               then Z.lor value CDC_CTRL_DTR else value in
  if negb (Z.land state TRANSPORT_MODEM_RTS =? 0)
  then Z.lor value CDC_CTRL_RTS else value.

Definition cdc_usbtr_set_modem (tr : CdcAcm.cdc_acm_transport) (state : Z)
    : M Z :=
  rc <- libusb_control_transfer (CdcAcm.handle tr)
          CdcAcm.CDC_REQTYPE_HOST_TO_DEVICE CdcAcm.CDC_SET_CONTROL
          (cdc_modem_value state) 0 [] ;;
  if negb (rc =? 0) then ret (-1) else ret 0.

(** ** ftdi.c *)

Definition FTDI_USB_INTERFACE := 0.
Definition FTDI_EP_IN := 129.   (* 0x81 *)
Definition FTDI_EP_OUT := 2.
Definition REQTYPE_HOST_TO_DEVICE := 64.   (* 0x40 *)
Definition FTDI_SIO_RESET := 0.
Definition FTDI_SIO_MODEM_CTRL := 1.
Definition FTDI_SIO_SET_FLOW_CTRL := 2.
Definition FTDI_SIO_SET_BAUD_RATE := 3.
Definition FTDI_SIO_SET_DATA := 4.
Definition FTDI_SIO_SET_LATENCY_TIMER := 9.
Definition FTDI_SIO_RESET_SIO := 0.
Definition FTDI_SIO_RESET_PURGE_RX := 1.
Definition FTDI_SIO_RESET_PURGE_TX := 2.
Definition FTDI_CLOCK := 3000000.
Definition FTDI_DTR := 1.
Definition FTDI_RTS := 2.
Definition FTDI_WRITE_DTR := 256.   (* 0x0100 *)
Definition FTDI_WRITE_RTS := 512.   (* 0x0200 *)

Record ftdi_transport := { ftdi_handle : Z }.

Definition do_cfg (h request value : Z) : M Z :=
  rc <- libusb_control_transfer h REQTYPE_HOST_TO_DEVICE request value 0 [] ;;
  if negb (rc =? 0) then ret (-1) else ret 0.

(** The [||] chain of [configure_ftdi]: stop at the first failing step. *)
Fixpoint do_cfg_all (h : Z) (steps : list (Z * Z)) : M Z :=
  match steps with
  | [] => ret 0
  | (req, value) :: rest =>
      rc <- do_cfg h req value ;;
      if rc <? 0 then ret (-1) else do_cfg_all h rest
  end.

Definition configure_ftdi (h baud_rate : Z) : M Z :=
  do_cfg_all h
    [(FTDI_SIO_RESET, FTDI_SIO_RESET_SIO);
     (FTDI_SIO_SET_DATA, 8);
     (FTDI_SIO_SET_FLOW_CTRL, 0);
     (FTDI_SIO_MODEM_CTRL, 771);     (* 0x303 *)
     (FTDI_SIO_SET_BAUD_RATE, Z.quot FTDI_CLOCK baud_rate);
     (FTDI_SIO_SET_LATENCY_TIMER, 50);
     (FTDI_SIO_RESET, FTDI_SIO_RESET_PURGE_TX);
     (FTDI_SIO_RESET, FTDI_SIO_RESET_PURGE_RX)].

Definition ftdi_open_device (tr : ftdi_transport) (dev : usb_device)
    (baud_rate : Z) : M (Z * ftdi_transport) :=
  '(rc, h) <- libusb_open dev ;;
  let tr := {| ftdi_handle := h |} in
  if h =? 0 then ret (-1, tr) else
  rc <- libusb_claim_interface h FTDI_USB_INTERFACE ;;
  if negb (rc =? 0) then libusb_close h ;;; ret (-1, tr) else
  rc <- configure_ftdi h baud_rate ;;
  if rc <? 0 then libusb_close h ;;; ret (-1, tr) else
  ret (0, tr).

(** [tr_flush] and [tr_set_modem] begin by setting [tr] to a new block
    from [malloc] of the size of an instance: [fresh] is the
    uninitialised content of that new block, and the caller's instance
    [tr_base] is not read. *)
Definition ftdi_tr_flush (tr_base fresh : ftdi_transport) : M Z :=
  do_cfg (ftdi_handle fresh) FTDI_SIO_RESET FTDI_SIO_RESET_PURGE_RX.

Definition ftdi_modem_value (state : Z) : Z :=
  let value := Z.lor FTDI_WRITE_DTR FTDI_WRITE_RTS in
  let value := if Z.land state TRANSPORT_MODEM_DTR =? 0
               then Z.lor value FTDI_DTR else value in
  if Z.land state TRANSPORT_MODEM_RTS =? 0
  then Z.lor value FTDI_RTS else value.

Definition ftdi_tr_set_modem (tr_base fresh : ftdi_transport) (state : Z) : M Z :=
  do_cfg (ftdi_handle fresh) FTDI_SIO_MODEM_CTRL (ftdi_modem_value state).

Definition FTDI_TIMEOUT_S := 30.
Definition FTDI_PACKET_SIZE := 64.

(** The loop [while (time(NULL) < deadline)] of [tr_recv]: a packet
    carries two status bytes before its data. *)
Fixpoint ftdi_recv_loop (k : nat) (h max_len deadline : Z)
    : M (Z * list Z) :=
  match k with
  | O => ret (-1, [])
  | S k' =>
      s <- get ;;
      if now s <? deadline then
        '(rc, tmpbuf, received) <- libusb_bulk_transfer h FTDI_EP_IN []
                                                        (max_len + 2) ;;
        if negb (rc =? 0) && negb (rc =? LIBUSB_ERROR_TIMEOUT) then
          ret (-1, [])
        else if (rc =? 0) && (received >? 2) then
          ret (received - 2, skipn 2 tmpbuf)
        else ftdi_recv_loop k' h max_len deadline
      else ret (-1, [])
  end.

(** [tr_recv] of ftdi.c: the return value and the bytes copied. *)
Definition ftdi_tr_recv (tr : ftdi_transport) (max_len : Z) : M (Z * list Z) :=
  s <- get ;;
  let deadline := now s + FTDI_TIMEOUT_S in
  let max_len := if max_len >? FTDI_PACKET_SIZE - 2
                 then FTDI_PACKET_SIZE - 2 else max_len in
  ftdi_recv_loop (fuel s) (ftdi_handle tr) max_len deadline.

Definition ftdi_tr_send (tr : ftdi_transport) (data : list Z) : M Z :=
  s <- get ;;
  BslHid.send_loop (fuel s) (ftdi_handle tr) FTDI_EP_OUT data.

Definition ftdi_tr_destroy (tr : ftdi_transport) : M unit :=
  libusb_close (ftdi_handle tr).

(** [ftdi_open]: the instance, or NULL. *)
Definition ftdi_open (devs : list usb_device) (devpath : option string)
    (requested_serial : option string) (vendor product baud_rate : Z)
    : M (option ftdi_transport) :=
  dev <- (match devpath with
          | Some _ => ret (usbutil_find_by_loc devs devpath)
          | None => usbutil_find_by_id devs vendor product requested_serial
          end) ;;
  match dev with
  | None => ret None
  | Some dev =>
      '(rc, tr) <- ftdi_open_device {| ftdi_handle := 0 |} dev baud_rate ;;
      if rc <? 0 then ret None else ret (Some tr)
  end.

End Modem.

(** ** Sessions *)

(** Open a HID instance, suspend it, and resume it against the bus [devs']:
    the result of [bslhid_resume] and the resumed instance. *)
Definition hid_suspend_resume (devs devs' : list usb_device)
    (dev_path : option string) (requested_serial : string)
    : M (option (Z * BslHid.bslhid_transport)) :=
  o <- BslHid.bslhid_open devs dev_path requested_serial ;;
  match o with
  | None => ret None
  | Some tr =>
      '(_, tr) <- BslHid.bslhid_suspend tr ;;
      r <- BslHid.bslhid_resume devs' tr ;;
      ret (Some r)
  end.

(** A CP210x device at 001:007 with one vendor-class interface. *)
Definition cp210x_device : usb_device :=
  {| bus_number := 1; device_address := 7; idVendor := 4292;
     idProduct := 60000; serial_number := "CP1"; bNumConfigurations := 1;
     config := {| bConfigurationValue := 1;
                  interface := [{| bInterfaceClass := V1_INTERFACE_CLASS;
                                   bInterfaceNumber := 0;
                                   endpoint := [bulk_ep 129; bulk_ep 1] |}] |};
     open_ok := true; claim_ok := true |}.

(** An FTDI device at 001:008. *)
Definition ftdi_device : usb_device :=
  {| bus_number := 1; device_address := 8; idVendor := 5562;
     idProduct := 8; serial_number := "FT1"; bNumConfigurations := 1;
     config := {| bConfigurationValue := 1;
                  interface := [{| bInterfaceClass := 255;
                                   bInterfaceNumber := 0;
                                   endpoint := [bulk_ep 129; bulk_ep 2] |}] |};
     open_ok := true; claim_ok := true |}.

(** Open an FTDI device, then flush it and set its modem lines, where each
    [malloc] of the two operations yields a block holding [junk]. *)
Definition ftdi_flush_set_modem (dtr rts : Z) (junk : ftdi_transport)
    (state : Z) : M (option (Z * Z * Z)) :=
  '(rc, tr) <- ftdi_open_device {| ftdi_handle := 0 |} ftdi_device 500000 ;;
  if rc <? 0 then ret None else
  r1 <- ftdi_tr_flush tr junk ;;
  r2 <- ftdi_tr_set_modem dtr rts tr junk state ;;
  ret (Some (ftdi_handle tr, r1, r2)).

Definition cdc_tr : CdcAcm.cdc_acm_transport :=
  {| CdcAcm.int_number := 0; CdcAcm.handle := 1; CdcAcm.in_ep := 129;
     CdcAcm.out_ep := 1; CdcAcm.rbuf_len := 0; CdcAcm.rbuf_ptr := 0;
     CdcAcm.rbuf := [] |}.

(** A CDC-ACM device at 001:009 whose first interface is a HID one and
    whose second is a CDC data interface. *)
Definition cdc_device : usb_device :=
  {| bus_number := 1; device_address := 9; idVendor := 1155;
     idProduct := 22336; serial_number := "CD1"; bNumConfigurations := 1;
     config := {| bConfigurationValue := 1;
                  interface := [hid_interface;
                                {| bInterfaceClass := CdcAcm.CDC_INTERFACE_CLASS;
                                   bInterfaceNumber := 1;
                                   endpoint := [bulk_ep 130; bulk_ep 2] |}] |};
     open_ok := true; claim_ok := true |}.

(** The firmware chunks of the spec's examples: "AAAA" at 0, "BBBB" at 4
    and "BBBB" at 8. *)
Definition chunk_A : Ti3410.binfile_chunk :=
  {| Ti3410.addr := 0; Ti3410.data := [65; 65; 65; 65] |}.
Definition chunk_B4 : Ti3410.binfile_chunk :=
  {| Ti3410.addr := 4; Ti3410.data := [66; 66; 66; 66] |}.
Definition chunk_B8 : Ti3410.binfile_chunk :=
  {| Ti3410.addr := 8; Ti3410.data := [66; 66; 66; 66] |}.

(** ** Statements of the claims *)

(** The wire value of a modem request [state] for the masks [dtr] and
    [rts]: both write-enable bits, and each line bit set exactly when the
    request leaves that line clear. *)
Definition modem_wire_ok (dtr rts state v : Z) : Prop :=
  v = 768 + (if Z.land state dtr =? 0 then 1 else 0)
          + (if Z.land state rts =? 0 then 2 else 0) /\
  Z.testbit v 8 = true /\ Z.testbit v 9 = true /\
  Z.testbit v 0 = (Z.land state dtr =? 0) /\
  Z.testbit v 1 = (Z.land state rts =? 0).

(** Chunks that start at [a] and follow each other without a gap. *)
Fixpoint contiguous_from (a : Z) (chunks : list Ti3410.binfile_chunk) : bool :=
  match chunks with
  | [] => true
  | ch :: rest =>
      (Ti3410.addr ch =? a) &&
      contiguous_from (a + Z.of_nat (List.length (Ti3410.data ch))) rest
  end.

Definition total_length (chunks : list Ti3410.binfile_chunk) : Z :=
  Z.of_nat (List.length (concat (map Ti3410.data chunks))).

(** The 8-bit sum of a list of bytes. *)
Definition byte_sum (l : list Z) : Z := fold_right Z.add 0 l mod 256.

(** ** Statements of further properties *)

(** The bytes the device accepted from one OUT transfer [x], given its
    reply [r]: as many as the count [libusb_bulk_transfer] reports. *)
Definition accepted (x : bulk_xfer) (r : bulk_reply) : list Z :=
  firstn (Z.to_nat (Z.min (r_sent r) (b_length x))) (b_data x).

Definition accepted_all (xs : list bulk_xfer) (rs : list bulk_reply) : list Z :=
  concat (map (fun p => accepted (fst p) (snd p)) (combine xs rs)).

Definition is_bulk (ep : endpoint_descriptor) : bool :=
  Z.land (bmAttributes ep) USB_ENDPOINT_TYPE_MASK =? USB_ENDPOINT_TYPE_BULK.

Definition is_in_addr (a : Z) : bool :=
  negb (Z.land a USB_ENDPOINT_DIR_MASK =? 0).

Definition bulk_in (ep : endpoint_descriptor) : bool :=
  is_bulk ep && is_in_addr (bEndpointAddress ep).

Definition bulk_out (ep : endpoint_descriptor) : bool :=
  is_bulk ep && negb (is_in_addr (bEndpointAddress ep)).

(** An interface of class [cls] with a bulk IN and a bulk OUT endpoint. *)
Definition usable (cls : Z) (desc : interface_descriptor) : bool :=
  (bInterfaceClass desc =? cls) && existsb bulk_in (endpoint desc)
  && existsb bulk_out (endpoint desc).

(** Endpoint addresses are bytes. *)
Definition addrs_in_range (dev : usb_device) : Prop :=
  forall desc ep, In desc (interface (config dev)) -> In ep (endpoint desc) ->
  0 <= bEndpointAddress ep <= 255.

(** The location [<bus>:<device>] as [usbutil_list] prints it, with
    [%03d:%03d]. *)
Definition digit_char (d : Z) : ascii := ascii_of_nat (Z.to_nat (48 + d)).

Definition fmt03 (n : Z) : string :=
  String (digit_char (n / 100))
    (String (digit_char (n / 10 mod 10))
       (String (digit_char (n mod 10)) EmptyString)).

Definition usbutil_loc (bus addr : Z) : string :=
  fmt03 bus ++ ":" ++ fmt03 addr.

(** Handles are allocated upwards from 1 (0 is NULL): no open handle and
    no claim on a handle at or above [next_handle]. *)
Definition fresh_handles (s : usb_state) : Prop :=
  0 < next_handle s /\
  Forall (fun p => fst p < next_handle s) (handles s) /\
  Forall (fun p => fst p < next_handle s) (claimed s).

(** The read buffer of a cdc_acm instance is consistent. *)
Definition cdc_buf_ok (tr : CdcAcm.cdc_acm_transport) : Prop :=
  0 <= CdcAcm.rbuf_ptr tr <= CdcAcm.rbuf_len tr /\
  CdcAcm.rbuf_len tr = Z.of_nat (List.length (CdcAcm.rbuf tr)) /\
  CdcAcm.rbuf_len tr <= CdcAcm.READ_BUFFER_SIZE.

(** [m] neither opens nor closes a handle and neither claims nor releases
    an interface. *)
Definition keeps_res {A : Type} (m : M A) : Prop :=
  forall s, next_handle (snd (m s)) = next_handle s /\
            handles (snd (m s)) = handles s /\
            claimed (snd (m s)) = claimed s.

(** The outcome of an interface search over [ifs] for class [cls], with
    return code [rc], interface index [i] and endpoints [ie] and [oe]: the
    first interface of the class with a bulk IN and a bulk OUT endpoint,
    with two such endpoints of it, or -1 when there is none. *)
Definition first_usable (cls : Z) (ifs : list interface_descriptor)
    (rc i ie oe : Z) : Prop :=
  (rc = 0 /\ exists j desc,
     nth_error ifs j = Some desc /\ i = Z.of_nat j /\ usable cls desc = true /\
     (forall j' d, (j' < j)%nat -> nth_error ifs j' = Some d -> usable cls d = false) /\
     (exists ep, In ep (endpoint desc) /\ bulk_in ep = true /\ bEndpointAddress ep = ie) /\
     (exists ep, In ep (endpoint desc) /\ bulk_out ep = true /\ bEndpointAddress ep = oe)) \/
  (rc = -1 /\ forall d, In d ifs -> usable cls d = false).

(** The outcome of a step that opens a handle to [dev] and claims its
    interface [i]: success, with [h] the newly open handle and [i] claimed
    on it, or failure, with the open handles and the claims as they were. *)
Definition open_outcome (dev : usb_device) (s s1 : usb_state) (rc h i : Z) : Prop :=
  (rc = 0 /\ h = next_handle s /\ next_handle s1 = next_handle s + 1 /\
   handles s1 = (h, dev) :: handles s /\ claimed s1 = (h, i) :: claimed s) \/
  (rc = -1 /\ next_handle s <= next_handle s1 /\
   handles s1 = handles s /\ claimed s1 = claimed s).

(** When the open [m] run from [s] returns NULL, the open handles and the
    claimed interfaces are those of [s]. *)
Definition fails_cleanly {T : Type} (m : M (option T)) (s : usb_state) : Prop :=
  fst (m s) = None ->
  handles (snd (m s)) = handles s /\ claimed (snd (m s)) = claimed s.

(** * Properties *)

(** ** HID send *)

(** C1 (code_bug).  [bslhid_send] builds the 64-byte frame in [outbuf]
    (header 0x3F, length, payload, 0xAC filler) but hands the caller's raw
    [data] of [len] bytes to [libusb_bulk_transfer]: sending [17; 34] issues
    one 2-byte transfer of [17; 34], and an empty payload issues no
    transfer at all. *)
Lemma bslhid_send_sends_raw_payload :
  let '(rc, s') := BslHid.bslhid_send hid_open_tr [17; 34]
                                     (state_with [] [ok_reply [] 2]) in
  rc = 0 /\
  bulk_log s' = [{| b_handle := 1; b_ep := 1; b_data := [17; 34];
                    b_length := 2 |}] /\
  BslHid.outbuf [17; 34] =
    [63; 2; 17; 34] ++ repeat 172 60 /\
  bulk_log (snd (BslHid.bslhid_send hid_open_tr [] (state_with [] []))) = [].
Proof. vm_compute. repeat split. Qed.

(** ** FTDI auxiliary operations *)

(** C3 (code_bug).  After [ftdi_open_device] has opened the caller's
    instance on handle 1, [tr_flush] and [tr_set_modem] issue their control
    transfers on the handle found in a freshly allocated block (here 0,
    the NULL handle), not on handle 1. *)
Lemma ftdi_aux_ops_use_fresh_block :
  let '(r, s') := ftdi_flush_set_modem 1 2 {| ftdi_handle := 0 |} 3
                                       (state_with (repeat 0 10) []) in
  r = Some (1, 0, 0) /\
  map c_handle (ctrl_log s') = [1; 1; 1; 1; 1; 1; 1; 1; 0; 0].
Proof. vm_compute. split; reflexivity. Qed.

(** ** HID suspend and resume *)

(** C4 (code_bug).  An instance opened by serial number "ABC" records an
    empty path; [bslhid_resume] relocates by [path] only, so after suspend
    it fails although the device is still on the bus, while the same cycle
    for an instance opened by path "1:5" succeeds. *)
Lemma bslhid_resume_ignores_serial :
  option_map fst (fst (hid_suspend_resume [bsl_device] [bsl_device] None "ABC"%string
                          (state_with [] [ok_reply [] 0]))) = Some (-1) /\
  option_map fst (fst (hid_suspend_resume [bsl_device] [bsl_device]
                          (Some "1:5"%string) ""%string (state_with [] [ok_reply [] 0])))
    = Some 0.
Proof. vm_compute. split; reflexivity. Qed.

(** ** Port configuration *)

(** C6 (code_bug).  [libusb_control_transfer] returns the number of bytes
    transferred; [configure_port] of cdc_acm.c and [set_termios] of ti3410.c
    test [rc != 0], so a line-coding transfer that delivers its 7 bytes, or
    a UART-configuration transfer that delivers its 10 bytes, makes them
    fail. *)
Lemma config_success_treated_as_failure :
  (let '(rc, s') := CdcAcm.configure_port cdc_tr 9600 (state_with [7; 0] []) in
   rc = -1 /\ map (fun c => List.length (c_data c)) (ctrl_log s') = [7%nat]) /\
  (let '(rc, s') := Ti3410.set_termios {| Ti3410.handle := 1 |}
                                       (state_with [10] []) in
   rc = -1 /\ map (fun c => List.length (c_data c)) (ctrl_log s') = [10%nat]).
Proof. vm_compute. repeat split. Qed.

(** ** Empty receives *)

(** C9 (code_bug).  [usbtr_recv] of cdc_acm.c returns 0 when its one bulk
    read times out with no data, and [usbtr_recv] of cp210x.c returns 0 on a
    successful zero-length read: both are zero-length successes. *)
Lemma recv_zero_length_success :
  fst (fst (CdcAcm.usbtr_recv cdc_tr 16
              (state_with [] [{| r_rc := LIBUSB_ERROR_TIMEOUT; r_data := [];
                                 r_sent := 0; r_elapsed := 30 |}]))) = (0, []) /\
  fst (cp210x_usbtr_recv {| cp_handle := 1; cp_int_number := 0 |} 16
         (state_with [] [ok_reply [] 0])) = (0, []).
Proof. vm_compute. split; reflexivity. Qed.

(** ** Modem lines *)

Lemma modem_value_bits (dtr rts state v0 : Z)
    (Hv0 : v0 = Z.lor 256 512) :
  modem_wire_ok dtr rts state
    (let value := v0 in
     let value := if Z.land state dtr =? 0 then Z.lor value 1 else value in
     if Z.land state rts =? 0 then Z.lor value 2 else value).
Proof.
  subst v0; unfold modem_wire_ok; cbv zeta.
  destruct (Z.land state dtr =? 0), (Z.land state rts =? 0);
    vm_compute; repeat split.
Qed.

Lemma land_lor_absorb (a b : Z) : Z.land (Z.lor a b) a = a.
Proof.
  apply Z.bits_inj'; intros n _.
  rewrite Z.land_spec, Z.lor_spec.
  destruct (Z.testbit a n), (Z.testbit b n); reflexivity.
Qed.

(** C10.  For CP210x and FTDI, [set_modem] sends a value with both
    write-enable bits 0x0100 and 0x0200 set, DTR bit 0x0001 set exactly when
    the request's DTR bit is clear and RTS bit 0x0002 set exactly when its RTS
    bit is clear; for any nonzero masks, requesting both lines sends
    0x0300. *)
Theorem set_modem_wire_value (dtr rts state : Z) :
  modem_wire_ok dtr rts state (cp210x_modem_value dtr rts state) /\
  modem_wire_ok dtr rts state (ftdi_modem_value dtr rts state) /\
  (dtr <> 0 -> rts <> 0 ->
   cp210x_modem_value dtr rts (Z.lor dtr rts) = 768 /\
   ftdi_modem_value dtr rts (Z.lor dtr rts) = 768).
Proof.
  split; [|split].
  - apply modem_value_bits; reflexivity.
  - apply modem_value_bits; reflexivity.
  - intros Hd Hr.
    unfold cp210x_modem_value, ftdi_modem_value.
    rewrite land_lor_absorb, (Z.lor_comm dtr rts), land_lor_absorb.
    apply Z.eqb_neq in Hd; apply Z.eqb_neq in Hr.
    rewrite Hd, Hr; split; reflexivity.
Qed.

Lemma set_modem_wire_value_witness :
  cp210x_modem_value 1 2 3 = 768 /\ ftdi_modem_value 1 2 3 = 768.
Proof.
  destruct (set_modem_wire_value 1 2 3) as [_ [_ H]].
  exact (H ltac:(discriminate) ltac:(discriminate)).
Defined.

(** ** Firmware header *)

Section Upd.

Lemma length_upd (l : list Z) (i : nat) (v : Z) :
  (i < List.length l)%nat -> List.length (Ti3410.upd l i v) = List.length l.
Proof.
  intros H; unfold Ti3410.upd.
  rewrite length_app, length_firstn; cbn [List.length]; rewrite length_skipn; lia.
Qed.

Lemma nth_upd (l : list Z) (i j : nat) (v d : Z) :
  (i < List.length l)%nat ->
  nth j (Ti3410.upd l i v) d = if Nat.eqb i j then v else nth j l d.
Proof.
  intros H; unfold Ti3410.upd.
  assert (Hf : List.length (firstn i l) = i) by (rewrite length_firstn; lia).
  destruct (lt_eq_lt_dec j i) as [[Hlt | Heq] | Hgt].
  - rewrite app_nth1 by lia.
    rewrite nth_firstn.
    replace (Nat.eqb i j) with false by (symmetry; apply Nat.eqb_neq; lia).
    replace (Nat.ltb j i) with true by (symmetry; apply Nat.ltb_lt; lia).
    reflexivity.
  - subst j; rewrite app_nth2 by lia; rewrite Hf, Nat.sub_diag, Nat.eqb_refl.
    reflexivity.
  - rewrite app_nth2 by lia; rewrite Hf.
    replace (Nat.eqb i j) with false by (symmetry; apply Nat.eqb_neq; lia).
    replace (j - i)%nat with (S (j - S i)) by lia; cbn [nth].
    rewrite nth_skipn; f_equal; lia.
Qed.

Lemma skipn_upd (l : list Z) (i k : nat) (v : Z) :
  (i < k)%nat -> (i < List.length l)%nat ->
  skipn k (Ti3410.upd l i v) = skipn k l.
Proof.
  intros Hk Hl.
  apply nth_ext with (d := 0) (d' := 0).
  - rewrite !length_skipn, length_upd by exact Hl; reflexivity.
  - intros n _; rewrite !nth_skipn, nth_upd by exact Hl.
    replace (Nat.eqb i (k + n)) with false by (symmetry; apply Nat.eqb_neq; lia).
    reflexivity.
Qed.

End Upd.

Lemma cksum_fold_mod (l : list Z) (c : Z) :
  fold_left (fun c b => (c + b) mod 256) l (c mod 256) =
  (c + fold_right Z.add 0 l) mod 256.
Proof.
  revert c; induction l as [| b l IH]; intros c; simpl.
  - rewrite Z.add_0_r; reflexivity.
  - rewrite Zplus_mod_idemp_l, IH, Z.add_assoc; reflexivity.
Qed.

Lemma cksum_of_byte_sum (f : Ti3410.firmware) :
  Ti3410.cksum_of f =
  byte_sum (firstn (Z.to_nat (Ti3410.size f - 3)) (skipn 3 (Ti3410.buf f))).
Proof.
  unfold Ti3410.cksum_of, byte_sum.
  pose proof (cksum_fold_mod
                (firstn (Z.to_nat (Ti3410.size f - 3)) (skipn 3 (Ti3410.buf f))) 0)
    as H.
  rewrite Zmod_0_l, Z.add_0_l in H; exact H.
Qed.

(** C8.  [prepare_firmware] keeps the image length [L] and the bytes from
    offset 3 on, and writes into bytes 0-2 the 16-bit little-endian
    encoding of [L - 3] and the 8-bit sum of the image bytes from offset 3
    to [L]. *)
Theorem prepare_firmware_header (f : Ti3410.firmware)
    (Hlen : (3 <= List.length (Ti3410.buf f))%nat) :
  let g := Ti3410.prepare_firmware f in
  let L := Ti3410.size f in
  Ti3410.size g = L /\
  List.length (Ti3410.buf g) = List.length (Ti3410.buf f) /\
  skipn 3 (Ti3410.buf g) = skipn 3 (Ti3410.buf f) /\
  0 <= nth 0 (Ti3410.buf g) 0 < 256 /\ 0 <= nth 1 (Ti3410.buf g) 0 < 256 /\
  nth 0 (Ti3410.buf g) 0 + 256 * nth 1 (Ti3410.buf g) 0 = (L - 3) mod 65536 /\
  nth 2 (Ti3410.buf g) 0 =
    byte_sum (firstn (Z.to_nat (L - 3)) (skipn 3 (Ti3410.buf g))).
Proof.
  cbv zeta; unfold Ti3410.prepare_firmware; cbn [Ti3410.buf Ti3410.size].
  set (b := Ti3410.buf f).
  set (rs := (Ti3410.size f - 3) mod 65536).
  assert (Hrs : 0 <= rs < 65536) by (apply Z.mod_pos_bound; lia).
  assert (L1 : (0 < List.length b)%nat) by (unfold b; lia).
  assert (L2 : (1 < List.length (Ti3410.upd b 0 (Z.land rs 255)))%nat)
    by (rewrite length_upd by exact L1; unfold b; lia).
  assert (L3 : (2 < List.length (Ti3410.upd (Ti3410.upd b 0 (Z.land rs 255)) 1
                                  (Z.shiftr rs 8 mod 256)))%nat)
    by (rewrite !length_upd by assumption; unfold b; lia).
  assert (Hsk : skipn 3 (Ti3410.upd (Ti3410.upd (Ti3410.upd b 0 (Z.land rs 255)) 1
                           (Z.shiftr rs 8 mod 256)) 2 (Ti3410.cksum_of f))
                = skipn 3 b)
    by (rewrite !skipn_upd by (assumption || lia); reflexivity).
  assert (Hland : Z.land rs 255 = rs mod 256)
    by (change 255 with (Z.ones 8); rewrite Z.land_ones by lia; reflexivity).
  assert (Hshr : Z.shiftr rs 8 mod 256 = rs / 256).
  { rewrite Z.shiftr_div_pow2 by lia.
    apply Z.mod_small; split; [apply Z.div_pos | apply Z.div_lt_upper_bound];
      lia. }
  rewrite !nth_upd by assumption; cbn [Nat.eqb].
  rewrite Hsk, Hland, Hshr.
  split; [reflexivity |].
  split; [rewrite !length_upd by assumption; reflexivity |].
  split; [reflexivity |].
  split; [apply Z.mod_pos_bound; lia |].
  split; [split; [apply Z.div_pos | apply Z.div_lt_upper_bound]; lia |].
  split.
  - pose proof (Z.div_mod rs 256 ltac:(lia)); lia.
  - apply cksum_of_byte_sum.
Qed.

Lemma prepare_firmware_header_witness :
  (3 <= List.length (Ti3410.buf Ti3410.firmware_init))%nat /\
  Ti3410.size (Ti3410.prepare_firmware Ti3410.firmware_init) =
    Ti3410.size Ti3410.firmware_init.
Proof.
  assert (H : (3 <= List.length (Ti3410.buf Ti3410.firmware_init))%nat)
    by (vm_compute; lia).
  split; [exact H |].
  exact (proj1 (prepare_firmware_header Ti3410.firmware_init H)).
Defined.

(** ** Firmware accumulation *)

Lemma do_extract_ok (f f1 : Ti3410.firmware) (ch : Ti3410.binfile_chunk) :
  Ti3410.do_extract f ch = Ti3410.Extracted f1 ->
  Ti3410.addr ch = Ti3410.size f /\
  Ti3410.size f + Z.of_nat (List.length (Ti3410.data ch))
    <= Ti3410.TI_FIRMWARE_BUF_SIZE /\
  f1 = {| Ti3410.buf := firstn (Z.to_nat (Ti3410.size f)) (Ti3410.buf f)
                        ++ Ti3410.data ch
                        ++ skipn (Z.to_nat (Ti3410.size f +
                                  Z.of_nat (List.length (Ti3410.data ch))))
                                 (Ti3410.buf f);
          Ti3410.size := Ti3410.size f +
                         Z.of_nat (List.length (Ti3410.data ch)) |}.
Proof.
  unfold Ti3410.do_extract.
  destruct (Ti3410.size f =? Ti3410.addr ch) eqn:Ha; [| discriminate].
  destruct (_ >? _) eqn:Hb; [discriminate |].
  intros H; injection H as <-.
  apply Z.eqb_eq in Ha; rewrite Z.gtb_ltb in Hb; apply Z.ltb_ge in Hb.
  repeat split; lia.
Qed.

Lemma total_length_cons ch rest :
  total_length (ch :: rest) =
  Z.of_nat (List.length (Ti3410.data ch)) + total_length rest.
Proof.
  unfold total_length; cbn [map concat]; rewrite length_app; lia.
Qed.

Lemma extract_contiguous_gen (chunks : list Ti3410.binfile_chunk) :
  forall f, 0 <= Ti3410.size f ->
  List.length (Ti3410.buf f) = Z.to_nat Ti3410.TI_FIRMWARE_BUF_SIZE ->
  contiguous_from (Ti3410.size f) chunks = true ->
  Ti3410.size f + total_length chunks <= Ti3410.TI_FIRMWARE_BUF_SIZE ->
  exists f', Ti3410.ihex_extract chunks f = Ti3410.Extracted f' /\
    Ti3410.size f' = Ti3410.size f + total_length chunks /\
    List.length (Ti3410.buf f') = Z.to_nat Ti3410.TI_FIRMWARE_BUF_SIZE /\
    firstn (Z.to_nat (Ti3410.size f')) (Ti3410.buf f') =
    firstn (Z.to_nat (Ti3410.size f)) (Ti3410.buf f)
      ++ concat (map Ti3410.data chunks).
Proof.
  induction chunks as [| ch rest IH]; intros f Hs Hl Hc Ht.
  - exists f; cbn; rewrite app_nil_r; repeat split; try reflexivity;
      [unfold total_length; cbn; lia | exact Hl].
  - cbn [contiguous_from] in Hc; apply andb_prop in Hc as [Ha Hc].
    apply Z.eqb_eq in Ha.
    rewrite total_length_cons in Ht.
    assert (Htr : 0 <= total_length rest) by (unfold total_length; lia).
    set (d := Ti3410.data ch) in *.
    set (n := Z.to_nat (Ti3410.size f)).
    set (f1 := {| Ti3410.buf := firstn n (Ti3410.buf f) ++ d
                    ++ skipn (Z.to_nat (Ti3410.size f + Z.of_nat (List.length d)))
                             (Ti3410.buf f);
                  Ti3410.size := Ti3410.size f + Z.of_nat (List.length d) |}).
    assert (Hd : Ti3410.do_extract f ch = Ti3410.Extracted f1).
    { unfold Ti3410.do_extract.
      rewrite Ha, Z.eqb_refl.
      replace (_ >? _) with false by (symmetry; rewrite Z.gtb_ltb; apply Z.ltb_ge; fold d; lia).
      reflexivity. }
    assert (Hn : List.length (firstn n (Ti3410.buf f)) = n)
      by (rewrite length_firstn; unfold n; lia).
    assert (Hl1 : List.length (Ti3410.buf f1) =
                  Z.to_nat Ti3410.TI_FIRMWARE_BUF_SIZE).
    { cbn [Ti3410.buf f1]; rewrite !length_app, length_skipn, Hn, Hl.
      unfold n; lia. }
    assert (Hp1 : firstn (Z.to_nat (Ti3410.size f1)) (Ti3410.buf f1) =
                  firstn n (Ti3410.buf f) ++ d).
    { cbn [Ti3410.buf Ti3410.size f1].
      replace (Z.to_nat (Ti3410.size f + Z.of_nat (List.length d)))
        with (n + List.length d)%nat by (unfold n; lia).
      rewrite firstn_app, Hn, firstn_all2 by lia.
      replace (n + List.length d - n)%nat with (List.length d) by lia.
      rewrite firstn_app, firstn_all, Nat.sub_diag; cbn; rewrite app_nil_r.
      reflexivity. }
    destruct (IH f1) as (f' & He & Hs' & Hl' & Hp');
      [cbn [Ti3410.size f1]; lia | exact Hl1 |
       cbn [Ti3410.size f1]; exact Hc |
       cbn [Ti3410.size f1]; lia |].
    exists f'; cbn [Ti3410.ihex_extract]; rewrite Hd.
    repeat split.
    + exact He.
    + rewrite Hs'; cbn [Ti3410.size f1]; rewrite total_length_cons; fold d; lia.
    + exact Hl'.
    + rewrite Hp', Hp1; cbn [map concat]; rewrite app_assoc; reflexivity.
Qed.

(** C7.  Along the chunk list, a chunk whose address differs from the
    image length accumulated so far ends the extraction with a firmware gap
    whatever follows it; a successful extraction saw only chunks starting
    exactly at the accumulated length (so nothing is ever zero-filled);
    and chunks contiguous and ascending from 0 that fit the buffer are
    accumulated as the concatenation of their data. *)
Theorem ihex_extract_contiguous :
  (forall pre ch post f0 f,
     Ti3410.ihex_extract pre f0 = Ti3410.Extracted f ->
     Ti3410.addr ch <> Ti3410.size f ->
     Ti3410.ihex_extract (pre ++ ch :: post) f0 =
       Ti3410.FirmwareGap (Ti3410.size f) (Ti3410.addr ch)) /\
  (forall chunks f0 f,
     Ti3410.ihex_extract chunks f0 = Ti3410.Extracted f ->
     contiguous_from (Ti3410.size f0) chunks = true /\
     Ti3410.size f = Ti3410.size f0 + total_length chunks) /\
  (forall chunks,
     contiguous_from 0 chunks = true ->
     total_length chunks <= Ti3410.TI_FIRMWARE_BUF_SIZE ->
     exists f, Ti3410.ihex_extract chunks Ti3410.firmware_init = Ti3410.Extracted f /\
       Ti3410.size f = total_length chunks /\
       firstn (Z.to_nat (total_length chunks)) (Ti3410.buf f) =
       concat (map Ti3410.data chunks)).
Proof.
  split; [| split].
  - intros pre; induction pre as [| c pre IH]; intros ch post f0 f He Hn.
    + cbn in He; injection He as <-; cbn.
      unfold Ti3410.do_extract.
      replace (Ti3410.size f0 =? Ti3410.addr ch) with false
        by (symmetry; apply Z.eqb_neq; congruence).
      reflexivity.
    + cbn [app Ti3410.ihex_extract] in *.
      destruct (Ti3410.do_extract f0 c) as [f1 | | ]; try discriminate.
      exact (IH ch post f1 f He Hn).
  - intros chunks; induction chunks as [| c rest IH]; intros f0 f He.
    + cbn in He; injection He as <-; unfold total_length; cbn; split; [reflexivity | lia].
    + cbn [Ti3410.ihex_extract] in He.
      destruct (Ti3410.do_extract f0 c) as [f1 | | ] eqn:Hd; try discriminate.
      apply do_extract_ok in Hd as (Ha & _ & ->).
      destruct (IH _ _ He) as [Hc Hs].
      cbn [contiguous_from]; rewrite Ha, Z.eqb_refl; cbn [andb].
      split; [exact Hc |].
      rewrite Hs, total_length_cons; cbn [Ti3410.size]; lia.
  - intros chunks Hc Ht.
    destruct (extract_contiguous_gen chunks Ti3410.firmware_init)
      as (f & He & Hs & _ & Hp); try (vm_compute; congruence);
      [exact Hc | cbn; exact Ht |].
    exists f; split; [exact He |]; cbn in Hs; split; [exact Hs |].
    rewrite <- Hs, Hp; reflexivity.
Qed.

Lemma ihex_extract_contiguous_witness :
  (exists f, Ti3410.ihex_extract [chunk_A] Ti3410.firmware_init =
               Ti3410.Extracted f /\
             Ti3410.addr chunk_B8 <> Ti3410.size f /\
             Ti3410.ihex_extract ([chunk_A] ++ [chunk_B8]) Ti3410.firmware_init =
               Ti3410.FirmwareGap (Ti3410.size f) (Ti3410.addr chunk_B8)) /\
  (exists f, Ti3410.ihex_extract [chunk_A; chunk_B4] Ti3410.firmware_init =
               Ti3410.Extracted f /\
             Ti3410.size f = 8 /\
             firstn 8 (Ti3410.buf f) = [65; 65; 65; 65; 66; 66; 66; 66]).
Proof.
  destruct ihex_extract_contiguous as [H1 [_ H3]].
  split.
  - eexists; split; [vm_compute; reflexivity |].
    assert (Hn : Ti3410.addr chunk_B8 <> 4) by discriminate.
    split; [exact Hn |].
    apply (H1 [chunk_A] chunk_B8 [] Ti3410.firmware_init); [vm_compute; reflexivity | exact Hn].
  - destruct (H3 [chunk_A; chunk_B4]) as (f & He & Hs & Hp);
      [vm_compute; reflexivity | vm_compute; discriminate |].
    exists f; split; [exact He |]; split; [exact Hs | exact Hp].
Defined.

(** ** HID receive *)

Lemma firstn_bytes (n : nat) (l : list Z) :
  Forall (fun b => 0 <= b < 256) l -> Forall (fun b => 0 <= b < 256) (firstn n l).
Proof.
  intros H; rewrite Forall_forall in *; intros x Hx.
  apply H; rewrite <- (firstn_skipn n l); apply in_or_app; left; exact Hx.
Qed.

(** C2.  On an open instance, [bslhid_recv] issues one 64-byte bulk read;
    when that read yields its bytes (it succeeds or times out), the call
    fails exactly when fewer than 2 bytes came, byte 0 is not 0x3F, the
    declared length (byte 1) exceeds [max_len], or the declared length
    plus 2 exceeds the bytes received; otherwise it returns the declared
    length and the bytes 2 .. 2 + length of the transfer. *)
Theorem bslhid_recv_validates (tr : BslHid.bslhid_transport) (max_len : Z)
    (s : usb_state) (rep : bulk_reply) (rest : list bulk_reply)
    (Hopen : BslHid.handle tr <> 0)
    (Hin : Z.land (BslHid.in_ep tr) USB_ENDPOINT_DIR_MASK <> 0)
    (Hs : bulk_replies s = rep :: rest)
    (Hrc : r_rc rep = 0 \/ r_rc rep = LIBUSB_ERROR_TIMEOUT)
    (Hbytes : Forall (fun b => 0 <= b < 256) (r_data rep)) :
  let inbuf := firstn 64 (r_data rep) in
  let r := Z.of_nat (List.length inbuf) in
  let len := nth 1 inbuf 0 in
  let '(res, s') := BslHid.bslhid_recv tr max_len s in
  bulk_log s' = bulk_log s ++ [{| b_handle := BslHid.handle tr;
                                  b_ep := BslHid.in_ep tr; b_data := [];
                                  b_length := 64 |}] /\
  res = (if (r <? 2) || negb (nth 0 inbuf 0 =? BslHid.BSLHID_HEADER)
            || (len >? max_len) || (len + 2 >? r)
         then (-1, [])
         else (len, firstn (Z.to_nat len) (skipn 2 inbuf))) /\
  (2 <= r -> nth 0 inbuf 0 = BslHid.BSLHID_HEADER -> len <= max_len ->
   len + 2 <= r ->
   0 <= len /\ Z.of_nat (List.length (firstn (Z.to_nat len) (skipn 2 inbuf))) = len).
Proof.
  cbv zeta.
  unfold BslHid.bslhid_recv, bind, ret, libusb_bulk_transfer.
  apply Z.eqb_neq in Hopen; apply Z.eqb_neq in Hin.
  rewrite Hopen, Hs, Hin; cbv beta iota zeta; cbn [negb with_bulk bulk_log].
  change (Z.to_nat BslHid.BSLHID_XFER_SIZE) with 64%nat.
  set (inbuf := firstn 64 (r_data rep)).
  assert (Hb : Forall (fun b => 0 <= b < 256) inbuf) by (apply firstn_bytes; exact Hbytes).
  assert (Hrc' : (negb (r_rc rep =? 0) && negb (r_rc rep =? LIBUSB_ERROR_TIMEOUT))
                 = false)
    by (destruct Hrc as [-> | ->]; reflexivity).
  rewrite Hrc'.
  assert (Hall : forall A : Prop, A -> bulk_log s ++ [{| b_handle := BslHid.handle tr;
                     b_ep := BslHid.in_ep tr; b_data := []; b_length := 64 |}] =
                   bulk_log s ++ [{| b_handle := BslHid.handle tr;
                     b_ep := BslHid.in_ep tr; b_data := []; b_length := 64 |}] /\ A)
    by (intros A HA; split; [reflexivity | exact HA]).
  destruct (Z.of_nat (List.length inbuf) <? 2) eqn:E1.
  { cbv beta iota; cbn [orb]; apply Hall; split; [reflexivity |].
    intros; apply Z.ltb_lt in E1; lia. }
  destruct (negb (nth 0 inbuf 0 =? BslHid.BSLHID_HEADER)) eqn:E2.
  { cbv beta iota; cbn [orb]; apply Hall; split; [reflexivity |].
    intros _ H0; rewrite H0 in E2; discriminate. }
  destruct ((nth 1 inbuf 0 >? max_len)
            || (nth 1 inbuf 0 + 2 >? Z.of_nat (List.length inbuf))) eqn:E3.
  { cbv beta iota; cbn [orb]; rewrite E3; apply Hall; split; [reflexivity |].
    intros _ _ H2 H3.
    apply orb_true_iff in E3 as [E | E]; rewrite Z.gtb_ltb in E;
      apply Z.ltb_lt in E; lia. }
  cbv beta iota; cbn [orb]; rewrite E3; apply Hall; split; [reflexivity |].
  intros Hr _ _ Hl.
  assert (H1 : 0 <= nth 1 inbuf 0).
  { rewrite Forall_forall in Hb.
    apply (Hb (nth 1 inbuf 0)), nth_In; lia. }
  split; [exact H1 |].
  rewrite length_firstn, length_skipn; lia.
Qed.

Lemma bslhid_recv_validates_witness :
  fst (BslHid.bslhid_recv hid_open_tr 62 (state_with [] [ok_reply [63; 2; 7; 8] 0]))
    = (2, [7; 8]).
Proof.
  pose proof (bslhid_recv_validates hid_open_tr 62
                (state_with [] [ok_reply [63; 2; 7; 8] 0])
                (ok_reply [63; 2; 7; 8] 0) []
                ltac:(discriminate) ltac:(vm_compute; discriminate) eq_refl
                (or_introl eq_refl)
                ltac:(repeat constructor; lia)) as H.
  destruct (BslHid.bslhid_recv hid_open_tr 62 _) as [res s'].
  destruct H as [_ [H _]]; rewrite H; vm_compute; reflexivity.
Defined.

(** ** Further properties *)

Ltac zdiv := Z.div_mod_to_equations; lia.

(** The bulk write loop shared by all back ends ([while (len) { ...
    data += sent; len -= sent; }]): when it returns 0 on an OUT endpoint,
    every transfer it issued went to that handle and endpoint, and the
    bytes the device accepted, in order, are exactly the data. *)
Lemma send_loop_delivers (n : nat) (h ep : Z) (data : list Z) (s s' : usb_state) :
  Z.land ep USB_ENDPOINT_DIR_MASK = 0 ->
  BslHid.send_loop n h ep data s = (0, s') ->
  exists xs rs,
    bulk_log s' = bulk_log s ++ xs /\
    bulk_replies s = rs ++ bulk_replies s' /\
    Forall (fun x => b_handle x = h /\ b_ep x = ep) xs /\
    accepted_all xs rs = data.
Proof.
  intros Hep; revert data s; induction n as [|n IH]; intros data s Hrun.
  { cbn in Hrun; discriminate. }
  cbn [BslHid.send_loop] in Hrun.
  destruct (Z.of_nat (List.length data) =? 0) eqn:E.
  { unfold ret in Hrun; injection Hrun as <-.
    apply Z.eqb_eq in E; destruct data; [| cbn in E; lia].
    exists [], []; rewrite app_nil_r; repeat split; constructor. }
  unfold bind, libusb_bulk_transfer in Hrun.
  destruct (bulk_replies s) as [|r rest] eqn:R.
  { cbn in Hrun; discriminate. }
  rewrite Hep in Hrun; cbn [Z.eqb] in Hrun.
  destruct (negb (r_rc r =? 0) && negb (r_rc r =? LIBUSB_ERROR_TIMEOUT)).
  { discriminate. }
  apply IH in Hrun as (xs & rs & Hl & Hr & Hf & Ha).
  cbn in Hl, Hr.
  eexists (_ :: xs), (r :: rs); split; [rewrite Hl, <- app_assoc; reflexivity |].
  split; [rewrite Hr; reflexivity |].
  split; [constructor; [split; reflexivity | exact Hf] |].
  unfold accepted_all in *; cbn [combine map concat fst snd]; rewrite Ha.
  unfold accepted; cbn [b_length b_data]; apply firstn_skipn.
Qed.

Lemma drain_loop_first_success (k : nat) (h ep n : Z) (s : usb_state) :
  (List.length (bulk_replies s) < k)%nat ->
  existsb (fun r => r_rc r =? 0) (bulk_replies s) = true ->
  let s' := snd (drain_loop k h ep n s) in
  exists pre r,
    bulk_replies s = pre ++ r :: bulk_replies s' /\ r_rc r = 0 /\
    Forall (fun r => r_rc r <> 0) pre /\
    bulk_log s' = bulk_log s ++
      repeat {| b_handle := h; b_ep := ep; b_data := []; b_length := n |}
             (S (List.length pre)).
Proof.
  revert s; induction k as [|k IH]; intros s Hk Hex; [lia |].
  cbn [drain_loop]; unfold bind, libusb_bulk_transfer.
  destruct (bulk_replies s) as [|r rest] eqn:R; [discriminate |].
  cbn [existsb] in Hex.
  set (x := {| b_handle := h; b_ep := ep; b_data := []; b_length := n |}).
  assert (Hst : forall s1, bulk_replies s1 = rest ->
            bulk_log s1 = bulk_log s ++ [x] ->
            (r_rc r =? 0) = false ->
            let s' := snd (drain_loop k h ep n s1) in
            exists pre r0,
              r :: rest = pre ++ r0 :: bulk_replies s' /\ r_rc r0 = 0 /\
              Forall (fun r => r_rc r <> 0) pre /\
              bulk_log s' = bulk_log s ++ repeat x (S (List.length pre))).
  { intros s1 H1 H2 E s'.
    rewrite E in Hex; cbn [orb] in Hex.
    destruct (IH s1) as (pre & r0 & A & B & C & D);
      [rewrite H1; cbn in Hk; lia | rewrite H1; exact Hex |].
    exists (r :: pre), r0; split; [rewrite <- H1, A; reflexivity |].
    split; [exact B |]; split.
    { constructor; [apply Z.eqb_neq; exact E | exact C]. }
    fold s' in D; rewrite D, H2, <- app_assoc; reflexivity. }
  destruct (Z.land ep USB_ENDPOINT_DIR_MASK =? 0);
  (destruct (r_rc r =? 0) eqn:E;
   [ cbn; exists [], r; split; [reflexivity |]; split; [apply Z.eqb_eq; exact E |];
     split; [constructor | reflexivity]
   | cbn [negb]; apply Hst; reflexivity ]).
Qed.

(** [usbtr_recv] of cdc_acm.c with unread bytes in its buffer issues no
    transfer: it hands out the next [min len (rbuf_len - rbuf_ptr)]
    buffered bytes and advances the read pointer by as many. *)
Lemma cdc_recv_buffered (tr : CdcAcm.cdc_acm_transport) (len : Z) (s : usb_state) :
  CdcAcm.rbuf_ptr tr < CdcAcm.rbuf_len tr ->
  let k := Z.min len (CdcAcm.rbuf_len tr - CdcAcm.rbuf_ptr tr) in
  CdcAcm.usbtr_recv tr len s =
    ((k, firstn (Z.to_nat k) (skipn (Z.to_nat (CdcAcm.rbuf_ptr tr)) (CdcAcm.rbuf tr)),
      CdcAcm.set_rbuf tr (CdcAcm.rbuf_len tr) (CdcAcm.rbuf_ptr tr + k)
                      (CdcAcm.rbuf tr)), s).
Proof.
  intros Hp k; unfold CdcAcm.usbtr_recv, bind, ret.
  replace (CdcAcm.rbuf_ptr tr >=? CdcAcm.rbuf_len tr) with false
    by (symmetry; rewrite Z.geb_leb; apply Z.leb_gt; lia).
  cbn [negb].
  replace (if CdcAcm.rbuf_ptr tr + len >? CdcAcm.rbuf_len tr
           then CdcAcm.rbuf_len tr - CdcAcm.rbuf_ptr tr else len) with k;
    [reflexivity |].
  unfold k; destruct (CdcAcm.rbuf_ptr tr + len >? CdcAcm.rbuf_len tr) eqn:E;
    rewrite Z.gtb_ltb in E; [apply Z.ltb_lt in E | apply Z.ltb_ge in E]; lia.
Qed.

(** [usbtr_recv] of cdc_acm.c keeps its read buffer consistent (pointer
    within the filled length, which is at most 1024) and returns -1 or a
    count between 0 and [len] of the bytes it hands out. *)
Lemma cdc_recv_keeps_buffer (tr : CdcAcm.cdc_acm_transport) (len : Z) (s : usb_state) :
  cdc_buf_ok tr -> 0 <= len -> is_in_addr (CdcAcm.in_ep tr) = true ->
  let '((k, out, tr'), _) := CdcAcm.usbtr_recv tr len s in
  cdc_buf_ok tr' /\ CdcAcm.handle tr' = CdcAcm.handle tr /\
  (k = -1 \/ (0 <= k <= len /\ Z.of_nat (List.length out) = k)).
Proof.
  intros (Hp & Hl & Hm) Hlen Hin.
  unfold is_in_addr in Hin; apply negb_true_iff in Hin.
  unfold CdcAcm.usbtr_recv, bind, ret.
  assert (Hfin : forall tr1, cdc_buf_ok tr1 -> CdcAcm.handle tr1 = CdcAcm.handle tr ->
    let len' := if CdcAcm.rbuf_ptr tr1 + len >? CdcAcm.rbuf_len tr1
                then CdcAcm.rbuf_len tr1 - CdcAcm.rbuf_ptr tr1 else len in
    cdc_buf_ok (CdcAcm.set_rbuf tr1 (CdcAcm.rbuf_len tr1) (CdcAcm.rbuf_ptr tr1 + len')
                  (CdcAcm.rbuf tr1)) /\
    CdcAcm.handle (CdcAcm.set_rbuf tr1 (CdcAcm.rbuf_len tr1)
      (CdcAcm.rbuf_ptr tr1 + len') (CdcAcm.rbuf tr1)) = CdcAcm.handle tr /\
    (len' = -1 \/ (0 <= len' <= len /\
      Z.of_nat (List.length (firstn (Z.to_nat len')
        (skipn (Z.to_nat (CdcAcm.rbuf_ptr tr1)) (CdcAcm.rbuf tr1)))) = len'))).
  { intros tr1 (P1 & P2 & P3) Hh len'.
    assert (Hb : 0 <= len' <= CdcAcm.rbuf_len tr1 - CdcAcm.rbuf_ptr tr1 /\ len' <= len).
    { unfold len'; destruct (_ >? _) eqn:E;
        rewrite Z.gtb_ltb in E; [apply Z.ltb_lt in E | apply Z.ltb_ge in E]; lia. }
    split; [| split; [exact Hh |]].
    { unfold cdc_buf_ok; cbn; lia. }
    right; split; [lia |].
    rewrite length_firstn, length_skipn; lia. }
  destruct (CdcAcm.rbuf_ptr tr >=? CdcAcm.rbuf_len tr).
  2: { apply Hfin; [repeat split; lia | reflexivity]. }
  unfold libusb_bulk_transfer.
  destruct (bulk_replies s) as [|r rest].
  { cbn [negb andb Z.eqb LIBUSB_ERROR_NO_DEVICE LIBUSB_ERROR_TIMEOUT].
    cbn; split; [unfold cdc_buf_ok; cbn; lia | split; [reflexivity | left; reflexivity]]. }
  cbn [CdcAcm.in_ep CdcAcm.set_rbuf]; rewrite Hin.
  destruct (negb (r_rc r =? 0) && negb (r_rc r =? LIBUSB_ERROR_TIMEOUT)).
  { cbn; split; [unfold cdc_buf_ok; cbn; lia | split; [reflexivity | left; reflexivity]]. }
  apply Hfin; [| reflexivity].
  unfold cdc_buf_ok; cbn [CdcAcm.rbuf_len CdcAcm.rbuf_ptr CdcAcm.rbuf CdcAcm.set_rbuf].
  rewrite length_firstn; unfold CdcAcm.READ_BUFFER_SIZE; lia.
Qed.

(** After [usbtr_flush] of cdc_acm.c, which returns 0 and empties the read
    buffer, the next [usbtr_recv] issues a fresh 1024-byte bulk IN read
    instead of serving stale buffered bytes. *)
Lemma cdc_flush_then_recv (tr : CdcAcm.cdc_acm_transport) (len : Z) (s : usb_state) :
  let '((r, tr'), s1) := CdcAcm.usbtr_flush tr s in
  r = 0 /\ CdcAcm.rbuf_len tr' = 0 /\ CdcAcm.rbuf_ptr tr' = 0 /\
  bulk_log (snd (CdcAcm.usbtr_recv tr' len s1)) =
    bulk_log s1 ++ [{| b_handle := CdcAcm.handle tr; b_ep := CdcAcm.in_ep tr;
                       b_data := []; b_length := CdcAcm.READ_BUFFER_SIZE |}].
Proof.
  unfold CdcAcm.usbtr_flush, bind at 1, get.
  unfold bind at 1; destruct (drain_loop _ _ _ _ s) as [[] s1].
  cbn [ret]; split; [reflexivity |]; split; [reflexivity |]; split; [reflexivity |].
  unfold CdcAcm.usbtr_recv, bind, libusb_bulk_transfer; cbn.
  destruct (bulk_replies s1) as [|r rest]; [reflexivity |].
  destruct (Z.land (CdcAcm.in_ep tr) USB_ENDPOINT_DIR_MASK =? 0);
    destruct (_ && _); reflexivity.
Qed.

(** [usbtr_set_modem] of cdc_acm.c sends SET_CONTROL_LINE_STATE with bit 0
    set exactly when DTR is asserted and bit 1 exactly when RTS is
    asserted (active high, no write-enable bits), and returns 0 only when
    the transfer returns 0. *)
Lemma cdc_set_modem_wire (dtr rts : Z) (tr : CdcAcm.cdc_acm_transport) (state : Z)
    (s : usb_state) :
  let v := cdc_modem_value dtr rts state in
  v = (if Z.land state dtr =? 0 then 0 else 1)
      + (if Z.land state rts =? 0 then 0 else 2) /\
  ctrl_log (snd (cdc_usbtr_set_modem dtr rts tr state s)) =
    ctrl_log s ++ [{| c_handle := CdcAcm.handle tr; c_reqtype := 33;
                      c_request := 34; c_value := v; c_index := 0;
                      c_data := [] |}] /\
  fst (cdc_usbtr_set_modem dtr rts tr state s) =
    match ctrl_replies s with
    | rc :: _ => if rc =? 0 then 0 else -1
    | [] => -1
    end.
Proof.
  intros v; split.
  { unfold v, cdc_modem_value.
    destruct (Z.land state dtr =? 0), (Z.land state rts =? 0); reflexivity. }
  unfold cdc_usbtr_set_modem, bind, libusb_control_transfer.
  destruct (ctrl_replies s) as [|rc rest]; [split; reflexivity |].
  destruct (rc =? 0); split; reflexivity.
Qed.

Lemma scan_endpoints_from (eps : list endpoint_descriptor) :
  forall i0 o0,
  let r := fold_left (fun (io : Z * Z) (ep : endpoint_descriptor) =>
    let (i, o) := io in
    let type := Z.land (bmAttributes ep) USB_ENDPOINT_TYPE_MASK in
    let addr := bEndpointAddress ep in
    if negb (type =? USB_ENDPOINT_TYPE_BULK) then (i, o)
    else if negb (Z.land addr USB_ENDPOINT_DIR_MASK =? 0) then (addr, o)
    else (i, addr)) eps (i0, o0) in
  (existsb bulk_in eps = false -> fst r = i0) /\
  (existsb bulk_in eps = true ->
     exists ep, In ep eps /\ bulk_in ep = true /\ bEndpointAddress ep = fst r) /\
  (existsb bulk_out eps = false -> snd r = o0) /\
  (existsb bulk_out eps = true ->
     exists ep, In ep eps /\ bulk_out ep = true /\ bEndpointAddress ep = snd r).
Proof.
  induction eps as [|ep eps IH]; intros i0 o0 r.
  { repeat split; intros H; try reflexivity; discriminate. }
  unfold r; cbn [fold_left existsb].
  unfold bulk_in at 1 3, bulk_out at 1 3, is_bulk, is_in_addr.
  destruct (Z.land (bmAttributes ep) USB_ENDPOINT_TYPE_MASK =? USB_ENDPOINT_TYPE_BULK)
    eqn:Eb; cbn [negb andb orb].
  - destruct (Z.land (bEndpointAddress ep) USB_ENDPOINT_DIR_MASK =? 0) eqn:Ed;
      cbn [negb andb orb].
    + destruct (IH i0 (bEndpointAddress ep)) as (A & B & C & D).
      repeat split.
      * exact A.
      * intros H; destruct (B H) as (e & ? & ? & ?); exists e; auto using in_cons.
      * discriminate.
      * intros _; destruct (existsb bulk_out eps) eqn:Eo.
        { destruct (D eq_refl) as (e & ? & ? & ?); exists e; auto using in_cons. }
        exists ep; split; [left; reflexivity |].
        split; [unfold bulk_out, is_bulk, is_in_addr; rewrite Eb, Ed; reflexivity |].
        symmetry; apply C; reflexivity.
    + destruct (IH (bEndpointAddress ep) o0) as (A & B & C & D).
      repeat split.
      * discriminate.
      * intros _; destruct (existsb bulk_in eps) eqn:Ei.
        { destruct (B eq_refl) as (e & ? & ? & ?); exists e; auto using in_cons. }
        exists ep; split; [left; reflexivity |].
        split; [unfold bulk_in, is_bulk, is_in_addr; rewrite Eb, Ed; reflexivity |].
        symmetry; apply A; reflexivity.
      * exact C.
      * intros H; destruct (D H) as (e & ? & ? & ?); exists e; auto using in_cons.
  - destruct (IH i0 o0) as (A & B & C & D).
    repeat split; auto.
    + intros H; destruct (B H) as (e & ? & ? & ?); exists e; auto using in_cons.
    + intros H; destruct (D H) as (e & ? & ? & ?); exists e; auto using in_cons.
Qed.

(** With byte addresses, both scanned endpoints are found exactly when the
    interface has a bulk IN and a bulk OUT endpoint. *)
Lemma scan_endpoints_found (eps : list endpoint_descriptor) :
  (forall ep, In ep eps -> 0 <= bEndpointAddress ep <= 255) ->
  let (ie, oe) := BslHid.scan_endpoints eps in
  ((0 <=? ie) && (0 <=? oe) = existsb bulk_in eps && existsb bulk_out eps) /\
  (0 <= ie -> exists ep, In ep eps /\ bulk_in ep = true /\ bEndpointAddress ep = ie) /\
  (0 <= oe -> exists ep, In ep eps /\ bulk_out ep = true /\ bEndpointAddress ep = oe).
Proof.
  intros Hr.
  pose proof (scan_endpoints_from eps (-1) (-1)) as (A & B & C & D).
  unfold BslHid.scan_endpoints.
  destruct (fold_left _ eps (-1, -1)) as [ie oe]; cbn [fst snd] in *.
  assert (Ei : (0 <=? ie) = existsb bulk_in eps).
  { destruct (existsb bulk_in eps).
    - destruct (B eq_refl) as (e & He & _ & <-); apply Z.leb_le, Hr, He.
    - rewrite A by reflexivity; reflexivity. }
  assert (Eo : (0 <=? oe) = existsb bulk_out eps).
  { destruct (existsb bulk_out eps).
    - destruct (D eq_refl) as (e & He & _ & <-); apply Z.leb_le, Hr, He.
    - rewrite C by reflexivity; reflexivity. }
  rewrite Ei, Eo; split; [reflexivity |]; split; intros H.
  - apply B; rewrite <- Ei; apply Z.leb_le, H.
  - apply D; rewrite <- Eo; apply Z.leb_le, H.
Qed.

Lemma usable_scan (cls : Z) (desc : interface_descriptor) :
  usable cls desc = (bInterfaceClass desc =? cls) &&
                    (existsb bulk_in (endpoint desc) && existsb bulk_out (endpoint desc)).
Proof. unfold usable; rewrite andb_assoc; reflexivity. Qed.

Lemma bslhid_find_interface_from (tr : BslHid.bslhid_transport)
    (c : config_descriptor) (ifs : list interface_descriptor) (i : Z) :
  (forall desc ep, In desc ifs -> In ep (endpoint desc) ->
     0 <= bEndpointAddress ep <= 255) ->
  let (rc, tr') := BslHid.find_interface_from tr c ifs i in
  (rc = 0 /\ exists j desc,
     nth_error ifs j = Some desc /\ BslHid.int_number tr' = i + Z.of_nat j /\
     usable BslHid.BSLHID_CLASS desc = true /\
     (forall j' d, (j' < j)%nat -> nth_error ifs j' = Some d ->
        usable BslHid.BSLHID_CLASS d = false) /\
     (exists ep, In ep (endpoint desc) /\ bulk_in ep = true /\
        bEndpointAddress ep = BslHid.in_ep tr') /\
     (exists ep, In ep (endpoint desc) /\ bulk_out ep = true /\
        bEndpointAddress ep = BslHid.out_ep tr') /\
     BslHid.cfg_number tr' = bConfigurationValue c /\
     BslHid.handle tr' = BslHid.handle tr /\ BslHid.path tr' = BslHid.path tr /\
     BslHid.serial tr' = BslHid.serial tr) \/
  (rc = -1 /\ forall d, In d ifs -> usable BslHid.BSLHID_CLASS d = false).
Proof.
  revert tr i; induction ifs as [|desc rest IH]; intros tr i Hr.
  { right; split; [reflexivity | intros d []]. }
  cbn [BslHid.find_interface_from].
  assert (Hrest : forall tr1 : BslHid.bslhid_transport,
    BslHid.handle tr1 = BslHid.handle tr -> BslHid.path tr1 = BslHid.path tr ->
    BslHid.serial tr1 = BslHid.serial tr ->
    usable BslHid.BSLHID_CLASS desc = false ->
    let (rc, tr') := BslHid.find_interface_from tr1 c rest (i + 1) in
    (rc = 0 /\ exists j desc0,
     nth_error (desc :: rest) j = Some desc0 /\ BslHid.int_number tr' = i + Z.of_nat j /\
     usable BslHid.BSLHID_CLASS desc0 = true /\
     (forall j' d, (j' < j)%nat -> nth_error (desc :: rest) j' = Some d ->
        usable BslHid.BSLHID_CLASS d = false) /\
     (exists ep, In ep (endpoint desc0) /\ bulk_in ep = true /\
        bEndpointAddress ep = BslHid.in_ep tr') /\
     (exists ep, In ep (endpoint desc0) /\ bulk_out ep = true /\
        bEndpointAddress ep = BslHid.out_ep tr') /\
     BslHid.cfg_number tr' = bConfigurationValue c /\
     BslHid.handle tr' = BslHid.handle tr /\ BslHid.path tr' = BslHid.path tr /\
     BslHid.serial tr' = BslHid.serial tr) \/
    (rc = -1 /\ forall d, In d (desc :: rest) -> usable BslHid.BSLHID_CLASS d = false)).
  { intros tr1 H1 H2 H3 Hu.
    specialize (IH tr1 (i + 1) ltac:(intros; eapply Hr; [right|]; eassumption)).
    destruct (BslHid.find_interface_from tr1 c rest (i + 1)) as [rc tr'].
    destruct IH as [(Hrc & j & d & Hn & Hi & Hu' & Hf & Hin & Hout & Hc & Hh & Hp & Hs)
                   | (Hrc & Hno)].
    - left; split; [exact Hrc |]; exists (S j), d.
      split; [exact Hn |]; split; [rewrite Hi; lia |]; split; [exact Hu' |].
      split.
      { intros [|j'] d' Hj Hd; [injection Hd as <-; exact Hu |].
        apply (Hf j'); [lia | exact Hd]. }
      repeat split; auto; congruence.
    - right; split; [exact Hrc |]; intros d [<- | Hd]; [exact Hu | apply Hno, Hd]. }
  rewrite usable_scan in Hrest.
  destruct (bInterfaceClass desc =? BslHid.BSLHID_CLASS) eqn:Ec; cbn [negb].
  2: { apply Hrest; try reflexivity. }
  pose proof (scan_endpoints_found (endpoint desc)
                ltac:(intros; eapply Hr; [left; reflexivity | eassumption])) as Hs.
  destruct (BslHid.scan_endpoints (endpoint desc)) as [ie oe].
  destruct Hs as (Hb & Hi & Ho).
  cbv beta iota zeta.
  destruct ((0 <=? ie) && (0 <=? oe)) eqn:E.
  - left; split; [reflexivity |]; exists O, desc; cbn.
    split; [reflexivity |]; split; [lia |].
    split; [rewrite usable_scan, Ec, <- Hb; reflexivity |].
    split; [intros j' d Hj; lia |].
    apply andb_true_iff in E as [E1 E2]; apply Z.leb_le in E1, E2.
    repeat split; auto.
  - apply Hrest; try reflexivity; rewrite <- Hb; reflexivity.
Qed.

Lemma cdc_find_interface_from (tr : CdcAcm.cdc_acm_transport)
    (ifs : list interface_descriptor) (i : Z) :
  (forall desc ep, In desc ifs -> In ep (endpoint desc) ->
     0 <= bEndpointAddress ep <= 255) ->
  let (rc, tr') := CdcAcm.find_interface_from tr ifs i in
  (rc = 0 /\ exists j desc,
     nth_error ifs j = Some desc /\ CdcAcm.int_number tr' = i + Z.of_nat j /\
     usable CdcAcm.CDC_INTERFACE_CLASS desc = true /\
     (forall j' d, (j' < j)%nat -> nth_error ifs j' = Some d ->
        usable CdcAcm.CDC_INTERFACE_CLASS d = false) /\
     (exists ep, In ep (endpoint desc) /\ bulk_in ep = true /\
        bEndpointAddress ep = CdcAcm.in_ep tr') /\
     (exists ep, In ep (endpoint desc) /\ bulk_out ep = true /\
        bEndpointAddress ep = CdcAcm.out_ep tr') /\
     CdcAcm.handle tr' = CdcAcm.handle tr /\
     CdcAcm.rbuf_len tr' = CdcAcm.rbuf_len tr /\
     CdcAcm.rbuf_ptr tr' = CdcAcm.rbuf_ptr tr /\ CdcAcm.rbuf tr' = CdcAcm.rbuf tr) \/
  (rc = -1 /\ forall d, In d ifs -> usable CdcAcm.CDC_INTERFACE_CLASS d = false).
Proof.
  revert tr i; induction ifs as [|desc rest IH]; intros tr i Hr.
  { right; split; [reflexivity | intros d []]. }
  cbn [CdcAcm.find_interface_from].
  assert (Hrest : forall tr1 : CdcAcm.cdc_acm_transport,
    CdcAcm.handle tr1 = CdcAcm.handle tr -> CdcAcm.rbuf_len tr1 = CdcAcm.rbuf_len tr ->
    CdcAcm.rbuf_ptr tr1 = CdcAcm.rbuf_ptr tr -> CdcAcm.rbuf tr1 = CdcAcm.rbuf tr ->
    usable CdcAcm.CDC_INTERFACE_CLASS desc = false ->
    let (rc, tr') := CdcAcm.find_interface_from tr1 rest (i + 1) in
    (rc = 0 /\ exists j desc0,
     nth_error (desc :: rest) j = Some desc0 /\ CdcAcm.int_number tr' = i + Z.of_nat j /\
     usable CdcAcm.CDC_INTERFACE_CLASS desc0 = true /\
     (forall j' d, (j' < j)%nat -> nth_error (desc :: rest) j' = Some d ->
        usable CdcAcm.CDC_INTERFACE_CLASS d = false) /\
     (exists ep, In ep (endpoint desc0) /\ bulk_in ep = true /\
        bEndpointAddress ep = CdcAcm.in_ep tr') /\
     (exists ep, In ep (endpoint desc0) /\ bulk_out ep = true /\
        bEndpointAddress ep = CdcAcm.out_ep tr') /\
     CdcAcm.handle tr' = CdcAcm.handle tr /\
     CdcAcm.rbuf_len tr' = CdcAcm.rbuf_len tr /\
     CdcAcm.rbuf_ptr tr' = CdcAcm.rbuf_ptr tr /\ CdcAcm.rbuf tr' = CdcAcm.rbuf tr) \/
    (rc = -1 /\ forall d, In d (desc :: rest) -> usable CdcAcm.CDC_INTERFACE_CLASS d = false)).
  { intros tr1 H1 H2 H3 H4 Hu.
    specialize (IH tr1 (i + 1) ltac:(intros; eapply Hr; [right|]; eassumption)).
    destruct (CdcAcm.find_interface_from tr1 rest (i + 1)) as [rc tr'].
    destruct IH as [(Hrc & j & d & Hn & Hi & Hu' & Hf & Hin & Hout & Hh & Hp & Hs & Hq)
                   | (Hrc & Hno)].
    - left; split; [exact Hrc |]; exists (S j), d.
      split; [exact Hn |]; split; [rewrite Hi; lia |]; split; [exact Hu' |].
      split.
      { intros [|j'] d' Hj Hd; [injection Hd as <-; exact Hu |].
        apply (Hf j'); [lia | exact Hd]. }
      repeat split; auto; congruence.
    - right; split; [exact Hrc |]; intros d [<- | Hd]; [exact Hu | apply Hno, Hd]. }
  rewrite usable_scan in Hrest.
  destruct (bInterfaceClass desc =? CdcAcm.CDC_INTERFACE_CLASS) eqn:Ec; cbn [negb].
  2: { apply Hrest; try reflexivity. }
  pose proof (scan_endpoints_found (endpoint desc)
                ltac:(intros; eapply Hr; [left; reflexivity | eassumption])) as Hs.
  destruct (BslHid.scan_endpoints (endpoint desc)) as [ie oe].
  destruct Hs as (Hb & Hi & Ho).
  cbv beta iota zeta.
  destruct ((0 <=? ie) && (0 <=? oe)) eqn:E.
  - left; split; [reflexivity |]; exists O, desc; cbn.
    split; [reflexivity |]; split; [lia |].
    split; [rewrite usable_scan, Ec, <- Hb; reflexivity |].
    split; [intros j' d Hj; lia |].
    apply andb_true_iff in E as [E1 E2]; apply Z.leb_le in E1, E2.
    repeat split; auto.
  - apply Hrest; try reflexivity; rewrite <- Hb; reflexivity.
Qed.

Lemma digit_char_facts (d : Z) : 0 <= d <= 9 ->
  is_delim (digit_char d) = false /\ is_space (digit_char d) = false /\
  Ascii.eqb (digit_char d) "-" = false /\ Ascii.eqb (digit_char d) "+" = false /\
  digit_value (digit_char d) = Some d.
Proof.
  intros Hd.
  assert (d = 0 \/ d = 1 \/ d = 2 \/ d = 3 \/ d = 4 \/ d = 5 \/ d = 6 \/ d = 7 \/
          d = 8 \/ d = 9) as Hc by lia.
  repeat destruct Hc as [-> | Hc]; try (subst d); vm_compute; repeat split.
Qed.

Lemma atoi_fmt03 (n : Z) : 0 <= n <= 999 -> atoi (fmt03 n) = n.
Proof.
  intros Hn; unfold fmt03.
  destruct (digit_char_facts (n / 100)) as (_ & S1 & M1 & P1 & V1); [zdiv |].
  destruct (digit_char_facts (n / 10 mod 10)) as (_ & _ & _ & _ & V2); [zdiv |].
  destruct (digit_char_facts (n mod 10)) as (_ & _ & _ & _ & V3); [zdiv |].
  cbn [atoi]; rewrite S1, M1, P1; cbn [atoi_digits]; rewrite V1, V2, V3; zdiv.
Qed.

Lemma strtok_two_fields (c1 c2 c3 c4 c5 c6 : ascii) :
  is_delim c1 = false -> is_delim c2 = false -> is_delim c3 = false ->
  is_delim c4 = false -> is_delim c5 = false -> is_delim c6 = false ->
  strtok_all (String c1 (String c2 (String c3 (String ":" (String c4
    (String c5 (String c6 EmptyString))))))) "" =
  [String c1 (String c2 (String c3 EmptyString));
   String c4 (String c5 (String c6 EmptyString))].
Proof.
  intros H1 H2 H3 H4 H5 H6.
  cbn [strtok_all]; rewrite H1, H2, H3, H4, H5, H6; reflexivity.
Qed.

Lemma find_app_last {A} (p : A -> bool) (l : list A) (x : A) :
  find p (l ++ [x]) = match find p l with
                      | Some y => Some y
                      | None => if p x then Some x else None
                      end.
Proof.
  induction l as [|y l IH]; cbn; [destruct (p x); reflexivity |].
  destruct (p y); [reflexivity | exact IH].
Qed.

Lemma fold_last_match {A} (p : A -> bool) (l : list A) (acc : option A) :
  fold_left (fun found d => if p d then Some d else found) l acc =
  match find p (rev l) with Some d => Some d | None => acc end.
Proof.
  revert acc; induction l as [|x l IH]; intros acc; [reflexivity |].
  cbn [fold_left rev]; rewrite IH, find_app_last.
  destruct (find p (rev l)); [reflexivity |].
  destruct (p x); reflexivity.
Qed.

(** A location printed by [usbutil_list] as [%03d:%03d] is parsed back by
    [usbutil_find_by_loc] to the same bus and address: it returns the
    last device on the bus at that location. *)
Lemma usbutil_find_by_loc_listed (devs : list usb_device) (bus addr : Z) :
  0 <= bus <= 999 -> 0 <= addr <= 999 ->
  usbutil_find_by_loc devs (Some (usbutil_loc bus addr)) =
  find (fun d => (bus_number d =? bus) && (device_address d =? addr)) (rev devs).
Proof.
  intros Hb Ha.
  destruct (digit_char_facts (bus / 100)) as (D1 & _); [zdiv |].
  destruct (digit_char_facts (bus / 10 mod 10)) as (D2 & _); [zdiv |].
  destruct (digit_char_facts (bus mod 10)) as (D3 & _); [zdiv |].
  destruct (digit_char_facts (addr / 100)) as (D4 & _); [zdiv |].
  destruct (digit_char_facts (addr / 10 mod 10)) as (D5 & _); [zdiv |].
  destruct (digit_char_facts (addr mod 10)) as (D6 & _); [zdiv |].
  unfold usbutil_find_by_loc, usbutil_loc.
  change (fmt03 bus ++ ":" ++ fmt03 addr)%string with
    (String (digit_char (bus / 100)) (String (digit_char (bus / 10 mod 10))
      (String (digit_char (bus mod 10)) (String ":" (String (digit_char (addr / 100))
        (String (digit_char (addr / 10 mod 10))
          (String (digit_char (addr mod 10)) EmptyString))))))).
  cbn [substring].
  rewrite strtok_two_fields by assumption.
  change (String (digit_char (bus / 100)) (String (digit_char (bus / 10 mod 10))
            (String (digit_char (bus mod 10)) EmptyString))) with (fmt03 bus).
  change (String (digit_char (addr / 100)) (String (digit_char (addr / 10 mod 10))
            (String (digit_char (addr mod 10)) EmptyString))) with (fmt03 addr).
  rewrite atoi_fmt03, atoi_fmt03 by assumption.
  rewrite fold_last_match; destruct (find _ (rev devs)); reflexivity.
Qed.

Lemma append_empty_r (s : string) : (s ++ "")%string = s.
Proof. induction s as [|c s IH]; cbn; [reflexivity | rewrite IH; reflexivity]. Qed.

Lemma append_assoc3 (a b c : string) : ((a ++ b) ++ c)%string = (a ++ (b ++ c))%string.
Proof. induction a as [|x a IH]; cbn; [reflexivity | rewrite IH; reflexivity]. Qed.

Lemma strtok_no_delim (s cur : string) :
  (forall c, In c (list_ascii_of_string s) -> is_delim c = false) ->
  strtok_all s cur = if String.eqb (cur ++ s) "" then [] else [(cur ++ s)%string].
Proof.
  revert cur; induction s as [|c s IH]; intros cur Hs.
  { cbn [strtok_all]; rewrite append_empty_r; reflexivity. }
  cbn [strtok_all]; rewrite (Hs c (or_introl eq_refl)).
  rewrite IH by (intros; apply Hs; right; assumption).
  rewrite append_assoc3; reflexivity.
Qed.

Lemma substring_chars (n : nat) (s : string) (c : ascii) :
  In c (list_ascii_of_string (substring 0 n s)) -> In c (list_ascii_of_string s).
Proof.
  revert n; induction s as [|x s IH]; intros n H; destruct n; cbn in *; try tauto.
  destruct H as [H | H]; [left; exact H | right; eapply IH; exact H].
Qed.

(** A location with no [:] (nor tab, CR or LF) has a single field:
    [usbutil_find_by_loc] returns no device for it. *)
Lemma usbutil_find_by_loc_one_field (devs : list usb_device) (loc : string) :
  (forall c, In c (list_ascii_of_string loc) -> is_delim c = false) ->
  usbutil_find_by_loc devs (Some loc) = None.
Proof.
  intros Hs; unfold usbutil_find_by_loc.
  rewrite strtok_no_delim by (intros c Hc; apply Hs; eapply substring_chars; exact Hc).
  destruct (String.eqb _ _); reflexivity.
Qed.

Lemma find_by_id_fold (devs : list usb_device) (vendor product : Z)
    (requested_serial : option string) :
  usbutil_find_by_id devs vendor product requested_serial =
  fold_left (fun acc dev =>
    bind acc (fun found => find_by_id_step vendor product requested_serial found dev))
    devs (ret None).
Proof. reflexivity. Qed.

Lemma fold_bind {A B : Type} (step : A -> B -> M A) (l : list B) (m : M A)
    (s : usb_state) :
  fold_left (fun acc x => bind acc (fun a => step a x)) l m s =
  let (a, s1) := m s in
  fold_left (fun acc x => bind acc (fun a => step a x)) l (ret a) s1.
Proof.
  revert m s; induction l as [|x l IH]; intros m s; cbn [fold_left].
  { destruct (m s); reflexivity. }
  rewrite IH; unfold bind at 1; destruct (m s) as [a s1].
  rewrite IH; reflexivity.
Qed.

Lemma fold_bind_cons {A B : Type} (step : A -> B -> M A) (x : B) (l : list B)
    (a : A) (s : usb_state) :
  fold_left (fun acc x => bind acc (fun a => step a x)) (x :: l) (ret a) s =
  let (a1, s1) := step a x s in
  fold_left (fun acc x => bind acc (fun a => step a x)) l (ret a1) s1.
Proof. cbn [fold_left]; rewrite fold_bind; reflexivity. Qed.

Lemma filter_keep_below (A : Type) (l : list (Z * A)) (h : Z) :
  Forall (fun p => fst p < h) l ->
  filter (fun p => negb (fst p =? h)) l = l.
Proof.
  induction 1 as [|p l Hp _ IH]; [reflexivity |]; cbn.
  replace (fst p =? h) with false by (symmetry; apply Z.eqb_neq; lia).
  cbn; rewrite IH; reflexivity.
Qed.

Lemma Forall_below_mono (A : Type) (l : list (Z * A)) (h h' : Z) :
  h <= h' -> Forall (fun p => fst p < h) l -> Forall (fun p => fst p < h') l.
Proof. intros Hh; apply Forall_impl; intros; lia. Qed.

Lemma read_serial_spec (dev : usb_device) (s : usb_state) :
  let (b, s1) := read_serial dev s in
  (fresh_handles s ->
   fresh_handles s1 /\ handles s1 = handles s /\ claimed s1 = claimed s) /\
  (forall x, b = Some x -> x = substring 0 127 (serial_number dev)).
Proof.
  unfold read_serial, bind, libusb_open.
  destruct (open_ok dev); cbn.
  - split; [| intros x Hx; injection Hx as <-; reflexivity].
    intros (H0 & Hh & Hc); rewrite Z.eqb_refl; cbn [negb].
    rewrite filter_keep_below by exact Hh.
    rewrite filter_keep_below by exact Hc.
    split; [| split; reflexivity].
    unfold fresh_handles, with_handles; cbn.
    split; [lia |]; split;
      (eapply Forall_below_mono; [| eassumption]; lia).
  - split; [tauto | discriminate].
Qed.

Lemma find_by_id_step_spec (vendor product : Z) (rs : option string)
    (found : option usb_device) (dev : usb_device) (s : usb_state) :
  let (f1, s1) := find_by_id_step vendor product rs found dev s in
  (fresh_handles s ->
   fresh_handles s1 /\ handles s1 = handles s /\ claimed s1 = claimed s) /\
  (f1 = found \/
   (f1 = Some dev /\ idVendor dev = vendor /\ idProduct dev = product /\
    forall r, rs = Some r ->
      strcasecmp_eq r (substring 0 127 (serial_number dev)) = true)) /\
  (rs = None -> s1 = s).
Proof.
  unfold find_by_id_step.
  destruct ((idVendor dev =? vendor) && (idProduct dev =? product)) eqn:E.
  2: { cbn; split; [tauto |]; split; [left |]; reflexivity. }
  apply andb_true_iff in E as [E1 E2]; apply Z.eqb_eq in E1, E2.
  destruct rs as [r|].
  2: { cbn; split; [tauto |]; split; [| reflexivity].
       right; repeat split; auto; discriminate. }
  unfold bind at 1; pose proof (read_serial_spec dev s) as Hr.
  destruct (read_serial dev s) as [b s1]; destruct Hr as (A & C).
  destruct b as [x|].
  - destruct (strcasecmp_eq r x) eqn:Ex; cbn;
      (split; [exact A |]; split; [| discriminate]).
    + right; repeat split; auto.
      intros r' Hr'; injection Hr' as <-; rewrite <- (C x eq_refl); exact Ex.
    + left; reflexivity.
  - cbn; split; [exact A |]; split; [left; reflexivity | discriminate].
Qed.

Lemma find_by_id_from_spec (vendor product : Z) (rs : option string)
    (devs : list usb_device) (f0 : option usb_device) (s : usb_state) :
  let (f, s') := fold_left (fun acc dev =>
    bind acc (fun found => find_by_id_step vendor product rs found dev))
    devs (ret f0) s in
  (fresh_handles s ->
   fresh_handles s' /\ handles s' = handles s /\ claimed s' = claimed s) /\
  (f = f0 \/
   exists d, f = Some d /\ In d devs /\ idVendor d = vendor /\ idProduct d = product /\
     forall r, rs = Some r ->
       strcasecmp_eq r (substring 0 127 (serial_number d)) = true) /\
  (rs = None -> s' = s /\
     f = fold_left (fun found d =>
           if (idVendor d =? vendor) && (idProduct d =? product)
           then Some d else found) devs f0).
Proof.
  revert f0 s; induction devs as [|d devs IH]; intros f0 s.
  { cbn; split; [tauto |]; split; [left |]; auto. }
  rewrite fold_bind_cons.
  pose proof (find_by_id_step_spec vendor product rs f0 d s) as Hs.
  destruct (find_by_id_step vendor product rs f0 d s) as [f1 s1] eqn:Estep.
  destruct Hs as (A & C & D).
  specialize (IH f1 s1).
  destruct (fold_left _ devs (ret f1) s1) as [f s'].
  destruct IH as (A' & C' & D').
  split; [intros H; destruct (A H) as (H1 & H2 & H3); destruct (A' H1) as (? & ? & ?);
          split; [assumption | split; congruence] |].
  split.
  - destruct C' as [-> | (d' & ? & ? & ? & ? & ?)].
    + destruct C as [-> | (? & ? & ? & ?)]; [left; reflexivity |].
      right; exists d; subst; repeat split; auto; left; reflexivity.
    + right; exists d'; repeat split; auto; right; assumption.
  - intros Hn; destruct (D' Hn) as [-> ->]; specialize (D Hn); subst s1 rs.
    split; [reflexivity |]; cbn [fold_left].
    unfold find_by_id_step in Estep.
    destruct ((idVendor d =? vendor) && (idProduct d =? product));
      cbn in Estep; injection Estep; intros; subst; reflexivity.
Qed.

Lemma firstn_length_Z (A : Type) (n : Z) (l : list A) :
  Z.of_nat (length (firstn (Z.to_nat n) l)) <= Z.max n 0.
Proof. rewrite length_firstn; lia. Qed.

Lemma ti3410_recv_loop_result (k : nat) (h max_len deadline : Z) (s : usb_state) :
  let '((r, out), _) := Ti3410.recv_loop k h max_len deadline s in
  (r = -1 /\ out = []) \/
  (0 < r <= max_len /\ Z.of_nat (length out) = r /\
   exists rep, In rep (bulk_replies s) /\
     out = firstn (Z.to_nat max_len) (r_data rep)).
Proof.
  revert s; induction k as [|k IH]; intros s; cbn [Ti3410.recv_loop].
  { left; split; reflexivity. }
  unfold bind at 1, get.
  destruct (now s <? deadline); [| left; split; reflexivity].
  unfold bind, libusb_bulk_transfer.
  destruct (bulk_replies s) as [|rep rest] eqn:R.
  { cbn; left; split; reflexivity. }
  replace (Z.land Ti3410.USB_FET_IN_EP USB_ENDPOINT_DIR_MASK =? 0) with false
    by reflexivity; cbv beta iota zeta.
  destruct (negb (r_rc rep =? 0) && negb (r_rc rep =? LIBUSB_ERROR_TIMEOUT)).
  { left; split; reflexivity. }
  destruct (Z.of_nat (length (firstn (Z.to_nat max_len) (r_data rep))) >? 0) eqn:E.
  - right; rewrite Z.gtb_ltb in E; apply Z.ltb_lt in E.
    pose proof (firstn_length_Z _ max_len (r_data rep)).
    split; [lia |]; split; [reflexivity |].
    exists rep; split; [left |]; reflexivity.
  - specialize (IH (with_bulk s (bulk_log s ++ [{| b_handle := h; b_ep := Ti3410.USB_FET_IN_EP;
        b_data := []; b_length := max_len |}]) rest (now s + r_elapsed rep))).
    destruct (Ti3410.recv_loop k h max_len deadline _) as [[r out] s'].
    cbn [bulk_replies with_bulk] in IH.
    destruct IH as [IH | (A & B & rep' & C & D)]; [left; exact IH |].
    right; split; [exact A |]; split; [exact B |].
    exists rep'; split; [right; exact C | exact D].
Qed.

Lemma ftdi_recv_loop_result (k : nat) (h max_len deadline : Z) (s : usb_state) :
  let '((r, out), _) := ftdi_recv_loop k h max_len deadline s in
  (r = -1 /\ out = []) \/
  (0 < r <= max_len /\ Z.of_nat (length out) = r /\
   exists rep, In rep (bulk_replies s) /\ r_rc rep = 0 /\
     out = skipn 2 (firstn (Z.to_nat (max_len + 2)) (r_data rep))).
Proof.
  revert s; induction k as [|k IH]; intros s; cbn [ftdi_recv_loop].
  { left; split; reflexivity. }
  unfold bind at 1, get.
  destruct (now s <? deadline); [| left; split; reflexivity].
  unfold bind, libusb_bulk_transfer.
  destruct (bulk_replies s) as [|rep rest] eqn:R.
  { cbn; left; split; reflexivity. }
  replace (Z.land FTDI_EP_IN USB_ENDPOINT_DIR_MASK =? 0) with false
    by reflexivity; cbv beta iota zeta.
  destruct (negb (r_rc rep =? 0) && negb (r_rc rep =? LIBUSB_ERROR_TIMEOUT)).
  { left; split; reflexivity. }
  destruct ((r_rc rep =? 0) &&
            (Z.of_nat (length (firstn (Z.to_nat (max_len + 2)) (r_data rep))) >? 2)) eqn:E.
  - right; apply andb_true_iff in E as [E1 E2].
    rewrite Z.gtb_ltb in E2; apply Z.ltb_lt in E2; apply Z.eqb_eq in E1.
    pose proof (firstn_length_Z _ (max_len + 2) (r_data rep)).
    split; [lia |]; split; [rewrite length_skipn; lia |].
    exists rep; split; [left; reflexivity | split; [exact E1 | reflexivity]].
  - specialize (IH (with_bulk s (bulk_log s ++ [{| b_handle := h; b_ep := FTDI_EP_IN;
        b_data := []; b_length := max_len + 2 |}]) rest (now s + r_elapsed rep))).
    destruct (ftdi_recv_loop k h max_len deadline _) as [[r out] s'].
    cbn [bulk_replies with_bulk] in IH.
    destruct IH as [IH | (A & B & rep' & C & D)]; [left; exact IH |].
    right; split; [exact A |]; split; [exact B |].
    exists rep'; split; [right; exact C | exact D].
Qed.

Lemma firstn_app_skipn_firstn (A : Type) (a b : nat) (l : list A) :
  firstn a l ++ firstn b (skipn a l) = firstn (a + b) l.
Proof.
  revert l; induction a as [|a IH]; intros l; [reflexivity |].
  destruct l as [|x l]; cbn; [rewrite firstn_nil; reflexivity |].
  rewrite IH; reflexivity.
Qed.

Lemma download_loop_delivers (k : nat) (h : Z) (f : Ti3410.firmware) (offset : Z)
    (s s' : usb_state) :
  0 <= offset ->
  Forall (fun r => 0 <= r_sent r) (bulk_replies s) ->
  Ti3410.download_loop k h f offset s = (0, s') ->
  exists xs rs,
    s' = with_bulk s (bulk_log s ++ xs) (bulk_replies s') (now s') /\
    bulk_replies s = rs ++ bulk_replies s' /\
    Forall (fun x => b_handle x = h /\ b_ep x = Ti3410.USB_FDL_OUT_EP /\
                     0 < b_length x <= Ti3410.TI_DOWNLOAD_MAX_PACKET_SIZE) xs /\
    accepted_all xs rs =
      firstn (Z.to_nat (Ti3410.size f - offset)) (skipn (Z.to_nat offset) (Ti3410.buf f)).
Proof.
  revert offset s; induction k as [|k IH]; intros offset s Ho Hs Hrun;
    cbn [Ti3410.download_loop] in Hrun.
  { discriminate. }
  destruct (offset <? Ti3410.size f) eqn:Eo.
  2: { unfold ret in Hrun; injection Hrun as <-; apply Z.ltb_ge in Eo.
       exists [], []; rewrite app_nil_r.
       split; [destruct s; reflexivity |]; split; [reflexivity |].
       split; [constructor |].
       replace (Z.to_nat (Ti3410.size f - offset)) with O by lia; reflexivity. }
  apply Z.ltb_lt in Eo.
  unfold bind at 1, libusb_bulk_transfer in Hrun.
  destruct (bulk_replies s) as [|rep rest] eqn:R.
  { cbn in Hrun; discriminate. }
  replace (Z.land Ti3410.USB_FDL_OUT_EP USB_ENDPOINT_DIR_MASK =? 0) with true
    in Hrun by reflexivity; cbv beta iota zeta in Hrun.
  destruct (negb (r_rc rep =? 0) && negb (r_rc rep =? LIBUSB_ERROR_TIMEOUT)).
  { unfold bind, libusb_close, ret in Hrun; discriminate. }
  inversion Hs as [|? ? Hr Hrest]; subst.
  set (plen := Z.min (Ti3410.size f - offset) Ti3410.TI_DOWNLOAD_MAX_PACKET_SIZE) in *.
  assert (Hp : 0 < plen <= Ti3410.size f - offset /\ plen <= 64)
    by (unfold plen, Ti3410.TI_DOWNLOAD_MAX_PACKET_SIZE; lia).
  apply IH in Hrun as (xs & rs & Hst & Hr' & Hf & Ha);
    [| lia | cbn; exact Hrest].
  cbn [with_bulk bulk_log bulk_replies] in Hst, Hr'.
  eexists (_ :: xs), (rep :: rs).
  split; [rewrite Hst, <- app_assoc; destruct s; reflexivity |].
  split; [rewrite Hr'; reflexivity |].
  split; [constructor; [cbn; unfold Ti3410.TI_DOWNLOAD_MAX_PACKET_SIZE;
                        repeat split; lia | exact Hf] |].
  unfold accepted_all in *; cbn [combine map concat fst snd]; rewrite Ha.
  unfold accepted; cbn [b_length b_data].
  rewrite firstn_firstn.
  replace (Nat.min (Z.to_nat (Z.min (r_sent rep) plen)) (Z.to_nat plen))
    with (Z.to_nat (Z.min (r_sent rep) plen)) by lia.
  rewrite Z2Nat.inj_add by lia; rewrite Nat.add_comm, <- skipn_skipn.
  rewrite firstn_app_skipn_firstn; f_equal; lia.
Qed.

Lemma download_loop_rc (k : nat) (h : Z) (f : Ti3410.firmware) (offset : Z)
    (s : usb_state) :
  fst (Ti3410.download_loop k h f offset s) = 0 \/
  fst (Ti3410.download_loop k h f offset s) = -1.
Proof.
  revert offset s; induction k as [|k IH]; intros offset s;
    cbn [Ti3410.download_loop]; [right; reflexivity |].
  destruct (offset <? Ti3410.size f); [| left; reflexivity].
  cbv zeta; unfold bind; destruct (libusb_bulk_transfer _ _ _ _ s) as [[[rc ?] r] s1].
  destruct (negb (rc =? 0) && negb (rc =? LIBUSB_ERROR_TIMEOUT));
    [right; reflexivity | apply IH].
Qed.

(** When [do_download] of ti3410.c succeeds and the device never reports a
    negative count, the packets it wrote all went to endpoint 1 of the
    handle it opened, each of 1 to 64 bytes, the bytes the device
    accepted are exactly the [size] bytes of the image in order, and the
    handle it opened is closed again. *)
Lemma do_download_delivers (dev : usb_device) (f : Ti3410.firmware) (s s' : usb_state) :
  Forall (fun r => 0 <= r_sent r) (bulk_replies s) ->
  Ti3410.do_download dev f s = (0, s') ->
  exists xs rs,
    bulk_log s' = bulk_log s ++ xs /\
    bulk_replies s = rs ++ bulk_replies s' /\
    Forall (fun x => b_handle x = next_handle s /\ b_ep x = Ti3410.USB_FDL_OUT_EP /\
                     0 < b_length x <= Ti3410.TI_DOWNLOAD_MAX_PACKET_SIZE) xs /\
    accepted_all xs rs = firstn (Z.to_nat (Ti3410.size f)) (Ti3410.buf f) /\
    (fresh_handles s -> handles s' = handles s).
Proof.
  intros Hs Hrun; unfold Ti3410.do_download, bind at 1, libusb_open in Hrun.
  destruct (open_ok dev) eqn:Hop; [| discriminate].
  cbv beta iota zeta in Hrun.
  destruct (next_handle s =? 0) eqn:H0; [discriminate |].
  unfold bind at 1, libusb_claim_interface in Hrun; cbn [handles lookup_handle] in Hrun.
  rewrite Z.eqb_refl in Hrun.
  destruct (claim_ok dev) eqn:Hcl; cbn [negb LIBUSB_SUCCESS Z.eqb] in Hrun.
  2: { unfold bind, libusb_close, ret in Hrun; discriminate. }
  unfold bind at 1, get in Hrun; cbv beta iota in Hrun.
  unfold bind at 1 in Hrun.
  match type of Hrun with
  | context [Ti3410.download_loop ?k ?h ?f ?o ?st] =>
      pose proof (download_loop_rc k h f o st) as Hrc;
      destruct (Ti3410.download_loop k h f o st) as [rc s3] eqn:E
  end.
  cbn [fst] in Hrc.
  destruct Hrc as [-> | ->]; [| discriminate].
  cbn in Hrun; injection Hrun as <-.
  apply download_loop_delivers in E as (xs & rs & Hst & Hr & Hf & Ha);
    [| lia | exact Hs].
  exists xs, rs.
  rewrite Hst; cbn [with_bulk with_handles with_claimed bulk_log bulk_replies handles].
  split; [reflexivity |]; split; [exact Hr |]; split; [exact Hf |].
  split; [rewrite Z.sub_0_r in Ha; exact Ha |].
  intros (_ & Hh & _); cbn [filter fst]; rewrite Z.eqb_refl; cbn [negb].
  apply filter_keep_below; exact Hh.
Qed.

Lemma keeps_ret {A : Type} (a : A) : keeps_res (ret a).
Proof. intros s; repeat split. Qed.

Lemma keeps_bind {A B : Type} (m : M A) (f : A -> M B) :
  keeps_res m -> (forall a, keeps_res (f a)) -> keeps_res (bind m f).
Proof.
  intros Hm Hf s; unfold bind; specialize (Hm s).
  destruct (m s) as [a s1]; cbn [snd] in Hm.
  destruct (Hf a s1) as (A1 & A2 & A3); destruct Hm as (B1 & B2 & B3).
  repeat split; congruence.
Qed.

Lemma keeps_get : keeps_res get.
Proof. intros s; repeat split. Qed.

Lemma keeps_bulk (h ep : Z) (data : list Z) (len : Z) :
  keeps_res (libusb_bulk_transfer h ep data len).
Proof.
  intros s; unfold libusb_bulk_transfer.
  destruct (bulk_replies s); [| destruct (Z.land ep USB_ENDPOINT_DIR_MASK =? 0)];
    repeat split.
Qed.

Lemma keeps_ctrl (h reqtype request value index : Z) (data : list Z) :
  keeps_res (libusb_control_transfer h reqtype request value index data).
Proof.
  intros s; unfold libusb_control_transfer.
  destruct (ctrl_replies s); repeat split.
Qed.

Create HintDb keeps.
#[local] Hint Resolve keeps_ret keeps_get keeps_bulk keeps_ctrl : keeps.

Ltac keeps_step :=
  repeat first
    [ apply keeps_bind; [solve [auto with keeps] |];
      intros [[? ?] ?] || intros [? ?] || intros ?
    | match goal with |- keeps_res (if ?b then _ else _) => destruct b end
    | solve [auto with keeps] ].

Lemma keeps_drain (k : nat) (h ep n : Z) : keeps_res (drain_loop k h ep n).
Proof.
  induction k as [|k IH]; cbn [drain_loop]; [apply keeps_ret |].
  apply keeps_bind; [apply keeps_bulk |]; intros [[rc ?] ?].
  destruct (negb (rc =? 0)); [exact IH | apply keeps_ret].
Qed.

Lemma keeps_flush_loop (k : nat) (h ep : Z) : keeps_res (BslHid.flush_loop k h ep).
Proof.
  induction k as [|k IH]; cbn [BslHid.flush_loop]; [apply keeps_ret |].
  apply keeps_bind; [apply keeps_bulk |]; intros [[rc ?] ?].
  destruct (negb (rc =? 0)); [exact IH | apply keeps_ret].
Qed.

#[local] Hint Resolve keeps_drain keeps_flush_loop : keeps.

Lemma keeps_bslhid_flush (tr : BslHid.bslhid_transport) :
  keeps_res (BslHid.bslhid_flush tr).
Proof. unfold BslHid.bslhid_flush; keeps_step. Qed.

Lemma keeps_cdc_configure (tr : CdcAcm.cdc_acm_transport) (b : Z) :
  keeps_res (CdcAcm.configure_port tr b).
Proof. unfold CdcAcm.configure_port; keeps_step. Qed.

Lemma keeps_cdc_flush (tr : CdcAcm.cdc_acm_transport) :
  keeps_res (CdcAcm.usbtr_flush tr).
Proof. unfold CdcAcm.usbtr_flush; keeps_step. Qed.

Lemma filter_keep_below2 (l : list (Z * Z)) (h i : Z) :
  Forall (fun p => fst p < h) l ->
  filter (fun p => negb ((fst p =? h) && (snd p =? i))) l = l.
Proof.
  induction 1 as [|p l Hp _ IH]; [reflexivity |]; cbn.
  replace (fst p =? h) with false by (symmetry; apply Z.eqb_neq; lia).
  cbn; rewrite IH; reflexivity.
Qed.

Lemma release_close_restores (h i : Z) (d : usb_device) (s : usb_state)
    (hs : list (Z * usb_device)) (cs : list (Z * Z)) :
  handles s = (h, d) :: hs -> claimed s = (h, i) :: cs ->
  Forall (fun p => fst p < h) hs -> Forall (fun p => fst p < h) cs ->
  let s' := snd ((libusb_release_interface h i ;;; libusb_close h) s) in
  handles s' = hs /\ claimed s' = cs.
Proof.
  intros Hh Hc Fh Fc; cbn.
  rewrite Hh, Hc; cbn [filter fst snd]; rewrite !Z.eqb_refl; cbn [andb negb].
  rewrite filter_keep_below by exact Fh.
  rewrite filter_keep_below2 by exact Fc.
  rewrite (filter_keep_below Z) by exact Fc.
  split; reflexivity.
Qed.

(** How an open attempt of the HID and CDC back ends leaves the handles
    and the claims. *)
Lemma bslhid_open_device_res (tr : BslHid.bslhid_transport) (dev : usb_device)
    (s : usb_state) :
  fresh_handles s ->
  let '((rc, tr'), s1) := BslHid.open_device tr dev s in
  (rc = 0 /\ BslHid.handle tr' = next_handle s /\
   handles s1 = (next_handle s, dev) :: handles s /\
   claimed s1 = (next_handle s, BslHid.int_number tr') :: claimed s) \/
  (rc = -1 /\ handles s1 = handles s /\ claimed s1 = claimed s).
Proof.
  intros (H0 & Hh & Hc); unfold BslHid.open_device.
  destruct (BslHid.find_interface tr dev) as [rc0 tr0].
  destruct (negb (rc0 =? 0)); [right; repeat split |].
  unfold bind at 1, libusb_open.
  destruct (open_ok dev); [| right; repeat split].
  cbv beta iota zeta.
  replace (next_handle s =? 0) with false by (symmetry; apply Z.eqb_neq; lia).
  unfold bind at 1, libusb_claim_interface; cbn [handles lookup_handle].
  rewrite Z.eqb_refl.
  destruct (claim_ok dev); cbn.
  - left; repeat split.
  - right; rewrite Z.eqb_refl; cbn [negb].
    rewrite filter_keep_below by exact Hh.
    rewrite filter_keep_below by exact Hc; repeat split.
Qed.

Lemma cdc_open_interface_res (tr : CdcAcm.cdc_acm_transport) (dev : usb_device)
    (s : usb_state) :
  fresh_handles s ->
  let '((rc, tr'), s1) := CdcAcm.open_interface tr dev s in
  CdcAcm.int_number tr' = CdcAcm.int_number tr /\
  ((rc = 0 /\ CdcAcm.handle tr' = next_handle s /\
    handles s1 = (next_handle s, dev) :: handles s /\
    claimed s1 = (next_handle s, CdcAcm.int_number tr) :: claimed s) \/
   (rc = -1 /\ handles s1 = handles s /\ claimed s1 = claimed s)).
Proof.
  intros (H0 & Hh & Hc); unfold CdcAcm.open_interface.
  unfold bind at 1, libusb_open.
  destruct (open_ok dev); [| split; [reflexivity | right; repeat split]].
  cbv beta iota zeta.
  replace (next_handle s =? 0) with false by (symmetry; apply Z.eqb_neq; lia).
  unfold bind at 1, libusb_claim_interface; cbn [handles lookup_handle].
  rewrite Z.eqb_refl.
  destruct (claim_ok dev); cbn.
  - split; [reflexivity | left; repeat split].
  - split; [reflexivity | right]; rewrite Z.eqb_refl; cbn [negb].
    rewrite filter_keep_below by exact Hh.
    rewrite filter_keep_below by exact Hc; repeat split.
Qed.

Lemma find_by_id_keeps (devs : list usb_device) (vendor product : Z)
    (rs : option string) (s : usb_state) :
  fresh_handles s ->
  let s' := snd (usbutil_find_by_id devs vendor product rs s) in
  fresh_handles s' /\ handles s' = handles s /\ claimed s' = claimed s.
Proof.
  intros Hf; rewrite find_by_id_fold.
  pose proof (find_by_id_from_spec vendor product rs devs None s) as H.
  destruct (fold_left _ devs (ret None) s) as [f s']; cbn [snd].
  destruct H as (A & _); exact (A Hf).
Qed.

Lemma find_by_id_found (devs : list usb_device) (vendor product : Z)
    (rs : option string) (s : usb_state) (d : usb_device) :
  fst (usbutil_find_by_id devs vendor product rs s) = Some d ->
  In d devs /\ idVendor d = vendor /\ idProduct d = product /\
  (forall r, rs = Some r -> strcasecmp_eq r (substring 0 127 (serial_number d)) = true).
Proof.
  rewrite find_by_id_fold.
  pose proof (find_by_id_from_spec vendor product rs devs None s) as H.
  destruct (fold_left _ devs (ret None) s) as [f s']; cbn [fst]; intros ->.
  destruct H as (_ & [Hn | (d' & Hd & ? & ? & ? & ?)] & _); [discriminate |].
  injection Hd as <-; auto.
Qed.

Lemma select_dev_keeps (devs : list usb_device) (devpath : option string)
    (vendor product : Z) (rs : option string) (s : usb_state) :
  fresh_handles s ->
  let '(d, s0) := (match devpath with
                   | Some _ => ret (usbutil_find_by_loc devs devpath)
                   | None => usbutil_find_by_id devs vendor product rs
                   end) s in
  fresh_handles s0 /\ handles s0 = handles s /\ claimed s0 = claimed s.
Proof.
  intros Hf; destruct devpath as [p|]; [cbn; auto |].
  pose proof (find_by_id_keeps devs vendor product rs s Hf) as H.
  destruct (usbutil_find_by_id devs vendor product rs s); exact H.
Qed.

Lemma bslhid_open_res (devs : list usb_device) (dev_path : option string)
    (requested_serial : string) (s : usb_state) :
  fresh_handles s ->
  let (o, s1) := BslHid.bslhid_open devs dev_path requested_serial s in
  match o with
  | None => handles s1 = handles s /\ claimed s1 = claimed s
  | Some tr =>
      (exists d, handles s1 = (BslHid.handle tr, d) :: handles s) /\
      claimed s1 = (BslHid.handle tr, BslHid.int_number tr) :: claimed s /\
      let s2 := snd (BslHid.bslhid_destroy tr s1) in
      handles s2 = handles s /\ claimed s2 = claimed s
  end.
Proof.
  intros Hf; unfold BslHid.bslhid_open.
  assert (Hst : exists tr0 d s0,
    (match dev_path with
     | Some p =>
         ret ({| BslHid.cfg_number := 0; BslHid.int_number := 0; BslHid.handle := 0;
                 BslHid.in_ep := 0; BslHid.out_ep := 0;
                 BslHid.path := substring 0 7 p; BslHid.serial := "" |},
              usbutil_find_by_loc devs (Some p))
     | None =>
         d <- usbutil_find_by_id devs BslHid.BSLHID_VID BslHid.BSLHID_PID
                                 (Some requested_serial) ;;
         ret ({| BslHid.cfg_number := 0; BslHid.int_number := 0; BslHid.handle := 0;
                 BslHid.in_ep := 0; BslHid.out_ep := 0; BslHid.path := "";
                 BslHid.serial := substring 0 127 requested_serial |}, d)
     end) s = ((tr0, d), s0) /\
    fresh_handles s0 /\ handles s0 = handles s /\ claimed s0 = claimed s).
  { destruct dev_path as [p|].
    - do 3 eexists; split; [reflexivity | auto].
    - unfold bind at 1.
      pose proof (find_by_id_keeps devs BslHid.BSLHID_VID BslHid.BSLHID_PID
                    (Some requested_serial) s Hf) as H.
      destruct (usbutil_find_by_id _ _ _ _ s) as [d s0].
      do 3 eexists; split; [reflexivity | exact H]. }
  destruct Hst as (tr0 & d & s0 & Hrun & Hf0 & Hh0 & Hc0).
  unfold bind at 1; rewrite Hrun; cbv beta iota.
  destruct d as [dev|]; [| cbn; auto].
  unfold bind at 1.
  pose proof (bslhid_open_device_res tr0 dev s0 Hf0) as Ho.
  destruct (BslHid.open_device tr0 dev s0) as [[rc tr1] s1].
  destruct Ho as [(-> & Hh & Hh1 & Hc1) | (-> & Hh1 & Hc1)]; [| cbn; split; congruence].
  cbn [Z.ltb Z.compare]; unfold bind at 1.
  pose proof (keeps_bslhid_flush tr1 s1) as (_ & Hh2 & Hc2).
  destruct (BslHid.bslhid_flush tr1 s1) as [u s2]; cbn [snd] in Hh2, Hc2.
  unfold ret; cbv beta iota.
  destruct Hf0 as (Hp & Fh & Fc).
  rewrite Hh.
  split; [exists dev; congruence |]; split; [congruence |].
  unfold BslHid.bslhid_destroy; rewrite Hh.
  replace (negb (next_handle s0 =? 0)) with true
    by (symmetry; apply negb_true_iff, Z.eqb_neq; lia).
  rewrite <- Hh0, <- Hc0.
  apply (release_close_restores _ _ dev); [congruence | congruence | exact Fh | exact Fc].
Qed.

Lemma cdc_flush_result (tr : CdcAcm.cdc_acm_transport) (s : usb_state) :
  fst (CdcAcm.usbtr_flush tr s) = (0, CdcAcm.set_rbuf tr 0 0 (CdcAcm.rbuf tr)).
Proof.
  unfold CdcAcm.usbtr_flush, bind, get.
  destruct (drain_loop _ _ _ _ s); reflexivity.
Qed.

Lemma cdc_acm_open_res (devs : list usb_device) (devpath : option string)
    (requested_serial : option string) (baud_rate vendor product : Z)
    (s : usb_state) :
  fresh_handles s ->
  let (o, s1) := CdcAcm.cdc_acm_open devs devpath requested_serial baud_rate
                                     vendor product s in
  match o with
  | None => handles s1 = handles s /\ claimed s1 = claimed s
  | Some tr =>
      (exists d, handles s1 = (CdcAcm.handle tr, d) :: handles s) /\
      claimed s1 = (CdcAcm.handle tr, CdcAcm.int_number tr) :: claimed s /\
      let s2 := snd (CdcAcm.usbtr_destroy tr s1) in
      handles s2 = handles s /\ claimed s2 = claimed s
  end.
Proof.
  intros Hf; unfold CdcAcm.cdc_acm_open, bind at 1.
  pose proof (select_dev_keeps devs devpath vendor product requested_serial s Hf) as Hsel.
  destruct ((match devpath with
             | Some _ => ret (usbutil_find_by_loc devs devpath)
             | None => usbutil_find_by_id devs vendor product requested_serial
             end) s) as [d s0].
  destruct Hsel as (Hf0 & Hh0 & Hc0).
  destruct d as [dev|]; [| cbn; auto].
  cbv beta iota.
  destruct (CdcAcm.find_interface CdcAcm.zero_transport dev) as [rc0 tr0].
  destruct (rc0 <? 0); [cbn; auto |].
  unfold bind at 1.
  pose proof (cdc_open_interface_res tr0 dev s0 Hf0) as Ho.
  destruct (CdcAcm.open_interface tr0 dev s0) as [[rc tr1] s1].
  destruct Ho as (Hi & [(-> & Hh & Hh1 & Hc1) | (-> & Hh1 & Hc1)]);
    [| cbn; split; congruence].
  cbn [Z.ltb Z.compare]; unfold bind at 1.
  pose proof (keeps_cdc_configure tr1 baud_rate s1) as (_ & Hh2 & Hc2).
  destruct (CdcAcm.configure_port tr1 baud_rate s1) as [rc2 s2].
  cbn [snd] in Hh2, Hc2.
  destruct Hf0 as (Hp & Fh & Fc).
  destruct (rc2 <? 0).
  - unfold bind at 1.
    pose proof (release_close_restores (CdcAcm.handle tr1) (CdcAcm.int_number tr1)
                  dev s2 (handles s0) (claimed s0)) as R.
    unfold CdcAcm.usbtr_destroy.
    destruct ((libusb_release_interface (CdcAcm.handle tr1) (CdcAcm.int_number tr1) ;;;
               libusb_close (CdcAcm.handle tr1)) s2) as [u s3].
    cbn [snd] in R; unfold ret.
    rewrite Hh in R.
    destruct R as [R1 R2]; [congruence | congruence | exact Fh | exact Fc |].
    split; congruence.
  - unfold bind at 1.
    pose proof (keeps_cdc_flush tr1 s2) as (_ & Hh3 & Hc3).
    pose proof (cdc_flush_result tr1 s2) as Hr.
    destruct (CdcAcm.usbtr_flush tr1 s2) as [[z tr2] s3].
    cbn [fst snd] in Hr, Hh3, Hc3; injection Hr as -> ->.
    unfold ret; cbv beta iota; cbn [CdcAcm.handle CdcAcm.int_number CdcAcm.set_rbuf].
    rewrite Hh.
    split; [exists dev; congruence |]; split; [congruence |].
    rewrite <- Hh0, <- Hc0.
    pose proof (release_close_restores (next_handle s0) (CdcAcm.int_number tr1) dev s3
                  (handles s0) (claimed s0)) as R.
    unfold CdcAcm.usbtr_destroy; cbn [CdcAcm.handle CdcAcm.int_number CdcAcm.set_rbuf].
    rewrite Hh; apply R; [congruence | congruence | exact Fh | exact Fc].
Qed.

(** [bslhid_open] either fails leaving the open handles and the claims as
    they were, or returns an instance whose handle is newly open with its
    interface claimed; [bslhid_destroy] on it then restores the handles
    and the claims. *)
Theorem bslhid_open_destroy (devs : list usb_device) (dev_path : option string)
    (requested_serial : string) (s : usb_state) :
  fresh_handles s ->
  let (o, s1) := BslHid.bslhid_open devs dev_path requested_serial s in
  match o with
  | None => handles s1 = handles s /\ claimed s1 = claimed s
  | Some tr =>
      (exists d, handles s1 = (BslHid.handle tr, d) :: handles s) /\
      claimed s1 = (BslHid.handle tr, BslHid.int_number tr) :: claimed s /\
      let s2 := snd (BslHid.bslhid_destroy tr s1) in
      handles s2 = handles s /\ claimed s2 = claimed s
  end.
Proof. exact (bslhid_open_res devs dev_path requested_serial s). Qed.

(** [cdc_acm_open] either fails leaving the open handles and the claims as
    they were (also when configuring the port fails after the claim), or
    returns an instance whose handle is newly open with its interface
    claimed; [usbtr_destroy] on it then restores the handles and the
    claims. *)
Theorem cdc_acm_open_destroy (devs : list usb_device) (devpath : option string)
    (requested_serial : option string) (baud_rate vendor product : Z)
    (s : usb_state) :
  fresh_handles s ->
  let (o, s1) := CdcAcm.cdc_acm_open devs devpath requested_serial baud_rate
                                     vendor product s in
  match o with
  | None => handles s1 = handles s /\ claimed s1 = claimed s
  | Some tr =>
      (exists d, handles s1 = (CdcAcm.handle tr, d) :: handles s) /\
      claimed s1 = (CdcAcm.handle tr, CdcAcm.int_number tr) :: claimed s /\
      let s2 := snd (CdcAcm.usbtr_destroy tr s1) in
      handles s2 = handles s /\ claimed s2 = claimed s
  end.
Proof.
  exact (cdc_acm_open_res devs devpath requested_serial baud_rate vendor product s).
Qed.

(** ** Failed opens *)

Lemma keeps_interrupt (h ep len : Z) : keeps_res (libusb_interrupt_transfer h ep len).
Proof. unfold libusb_interrupt_transfer; keeps_step. Qed.

Lemma keeps_clear_halt (h ep : Z) : keeps_res (libusb_clear_halt h ep).
Proof. unfold libusb_clear_halt; keeps_step. Qed.

Lemma keeps_set_configuration (h cfg : Z) : keeps_res (libusb_set_configuration h cfg).
Proof. unfold libusb_set_configuration; keeps_step. Qed.

#[local] Hint Resolve keeps_interrupt keeps_clear_halt keeps_set_configuration : keeps.

Lemma keeps_set_termios (tr : Ti3410.ti3410_transport) :
  keeps_res (Ti3410.set_termios tr).
Proof. unfold Ti3410.set_termios; keeps_step. Qed.

Lemma keeps_set_mcr (tr : Ti3410.ti3410_transport) : keeps_res (Ti3410.set_mcr tr).
Proof. unfold Ti3410.set_mcr; keeps_step. Qed.

#[local] Hint Resolve keeps_set_termios keeps_set_mcr : keeps.

Lemma keeps_do_open_start (tr : Ti3410.ti3410_transport) :
  keeps_res (Ti3410.do_open_start tr).
Proof. unfold Ti3410.do_open_start; keeps_step. Qed.

Lemma keeps_interrupt_flush (tr : Ti3410.ti3410_transport) :
  keeps_res (Ti3410.interrupt_flush tr).
Proof. apply keeps_interrupt. Qed.

#[local] Hint Resolve keeps_do_open_start keeps_interrupt_flush : keeps.

Lemma keeps_setup_port (tr : Ti3410.ti3410_transport) :
  keeps_res (Ti3410.setup_port tr).
Proof. unfold Ti3410.setup_port; keeps_step. Qed.

Lemma keeps_teardown_port (tr : Ti3410.ti3410_transport) :
  keeps_res (Ti3410.teardown_port tr).
Proof. unfold Ti3410.teardown_port; keeps_step. Qed.

Lemma keeps_cp210x_configure (tr : cp210x_transport) (b : Z) :
  keeps_res (cp210x_configure_port tr b).
Proof. unfold cp210x_configure_port; keeps_step. Qed.

Lemma keeps_configure_ftdi (h b : Z) : keeps_res (configure_ftdi h b).
Proof.
  unfold configure_ftdi; generalize (Z.quot FTDI_CLOCK b); intros q.
  match goal with |- keeps_res (do_cfg_all h ?l) => induction l as [|[req v] rest IH] end;
    cbn [do_cfg_all]; [apply keeps_ret |].
  apply keeps_bind; [unfold do_cfg; keeps_step | intros rc].
  destruct (rc <? 0); [apply keeps_ret | exact IH].
Qed.

Lemma filter_own (l : list (Z * Z)) (h : Z) :
  Forall (fun p => fst p = h) l -> filter (fun p => negb (fst p =? h)) l = [].
Proof.
  induction 1 as [|p l Hp _ IH]; [reflexivity |]; cbn.
  rewrite Hp, Z.eqb_refl; exact IH.
Qed.

(** Closing a newly opened handle [h] drops it and every claim on it. *)
Lemma close_restores (h : Z) (d : usb_device) (s : usb_state)
    (hs : list (Z * usb_device)) (cs0 cs : list (Z * Z)) :
  handles s = (h, d) :: hs -> claimed s = cs0 ++ cs ->
  Forall (fun p => fst p = h) cs0 ->
  Forall (fun p => fst p < h) hs -> Forall (fun p => fst p < h) cs ->
  let s' := snd (libusb_close h s) in
  next_handle s' = next_handle s /\ handles s' = hs /\ claimed s' = cs.
Proof.
  intros Hh Hc H0 Fh Fc; cbn.
  rewrite Hh, Hc; cbn [filter fst]; rewrite Z.eqb_refl; cbn [negb].
  rewrite filter_app, filter_own by exact H0.
  rewrite !filter_keep_below by assumption.
  repeat split.
Qed.

Lemma fresh_same (s s1 : usb_state) :
  fresh_handles s -> next_handle s <= next_handle s1 ->
  handles s1 = handles s -> claimed s1 = claimed s -> fresh_handles s1.
Proof.
  intros (H0 & Fh & Fc) Hn Hh Hc; unfold fresh_handles; rewrite Hh, Hc.
  split; [lia |]; split; (eapply Forall_below_mono; [| eassumption]; lia).
Qed.

Lemma open_outcome_fresh (dev : usb_device) (s s1 : usb_state) (rc h i : Z) :
  fresh_handles s -> open_outcome dev s s1 rc h i -> fresh_handles s1.
Proof.
  intros (H0 & Fh & Fc) [(_ & -> & Hn & Hh & Hc) | (_ & Hn & Hh & Hc)];
    unfold fresh_handles; rewrite Hh, Hc.
  - split; [lia |]; split; constructor; cbn; try lia;
      (eapply Forall_below_mono; [| eassumption]; lia).
  - split; [lia |]; split; (eapply Forall_below_mono; [| eassumption]; lia).
Qed.


Lemma cp210x_open_interface_res (tr : cp210x_transport) (dev : usb_device)
    (ino b : Z) (s : usb_state) :
  fresh_handles s ->
  let '((rc, tr'), s1) := cp210x_open_interface tr dev ino b s in
  open_outcome dev s s1 rc (cp_handle tr') ino.
Proof.
  intros (H0 & Fh & Fc); unfold cp210x_open_interface.
  unfold bind at 1, libusb_open.
  destruct (open_ok dev); [| right; cbn; repeat split; lia].
  cbv beta iota zeta.
  replace (next_handle s =? 0) with false by (symmetry; apply Z.eqb_neq; lia).
  unfold bind at 1, libusb_claim_interface; cbn [handles lookup_handle].
  rewrite Z.eqb_refl.
  destruct (claim_ok dev).
  - cbv iota beta; cbn [negb LIBUSB_SUCCESS Z.eqb].
    set (s1 := with_claimed _ _).
    unfold bind at 1.
    pose proof (keeps_cp210x_configure {| cp_handle := next_handle s; cp_int_number := ino |}
                  b s1) as (K1 & K2 & K3).
    destruct (cp210x_configure_port _ b s1) as [rc s2]; cbn [snd] in K1, K2, K3.
    destruct (rc <? 0).
    + unfold bind.
      pose proof (close_restores (next_handle s) dev s2 (handles s) [(next_handle s, ino)]
                    (claimed s)) as R.
      destruct (libusb_close (next_handle s) s2) as [u s3]; cbn [snd] in R.
      destruct R as (R1 & R2 & R3);
        [rewrite K2; reflexivity | rewrite K3; reflexivity |
         repeat constructor | exact Fh | exact Fc |].
      right; cbn; repeat split; [rewrite R1, K1; cbn; lia | exact R2 | exact R3].
    + left; cbn; repeat split; [rewrite K1; reflexivity | exact K2 | exact K3].
  - cbv iota beta; cbn [negb LIBUSB_ERROR_BUSY Z.eqb].
    unfold bind.
    pose proof (close_restores (next_handle s) dev
                  {| next_handle := next_handle s + 1; handles := (next_handle s, dev) :: handles s;
                     claimed := claimed s; ctrl_log := ctrl_log s;
                     ctrl_replies := ctrl_replies s; bulk_log := bulk_log s;
                     bulk_replies := bulk_replies s; now := now s |}
                  (handles s) [] (claimed s)) as R.
    destruct (libusb_close (next_handle s) _) as [u s3]; cbn [snd] in R.
    destruct R as (R1 & R2 & R3);
      [reflexivity | reflexivity | constructor | exact Fh | exact Fc |].
    right; cbn; repeat split; [rewrite R1; cbn; lia | exact R2 | exact R3].
Qed.


Lemma ftdi_open_device_res (tr : ftdi_transport) (dev : usb_device) (b : Z)
    (s : usb_state) :
  fresh_handles s ->
  let '((rc, tr'), s1) := ftdi_open_device tr dev b s in
  open_outcome dev s s1 rc (ftdi_handle tr') FTDI_USB_INTERFACE.
Proof.
  intros (H0 & Fh & Fc); unfold ftdi_open_device.
  unfold bind at 1, libusb_open.
  destruct (open_ok dev); [| right; cbn; repeat split; lia].
  cbv beta iota zeta.
  replace (next_handle s =? 0) with false by (symmetry; apply Z.eqb_neq; lia).
  unfold bind at 1, libusb_claim_interface; cbn [handles lookup_handle].
  rewrite Z.eqb_refl.
  destruct (claim_ok dev).
  - cbv iota beta; cbn [negb LIBUSB_SUCCESS Z.eqb].
    set (s1 := with_claimed _ _).
    unfold bind at 1.
    pose proof (keeps_configure_ftdi (next_handle s) b s1) as (K1 & K2 & K3).
    destruct (configure_ftdi (next_handle s) b s1) as [rc s2]; cbn [snd] in K1, K2, K3.
    destruct (rc <? 0).
    + unfold bind.
      pose proof (close_restores (next_handle s) dev s2 (handles s)
                    [(next_handle s, FTDI_USB_INTERFACE)] (claimed s)) as R.
      destruct (libusb_close (next_handle s) s2) as [u s3]; cbn [snd] in R.
      destruct R as (R1 & R2 & R3);
        [rewrite K2; reflexivity | rewrite K3; reflexivity |
         repeat constructor | exact Fh | exact Fc |].
      right; cbn; repeat split; [rewrite R1, K1; cbn; lia | exact R2 | exact R3].
    + left; cbn; repeat split; [rewrite K1; reflexivity | exact K2 | exact K3].
  - cbv iota beta; cbn [negb LIBUSB_ERROR_BUSY Z.eqb].
    unfold bind.
    pose proof (close_restores (next_handle s) dev
                  {| next_handle := next_handle s + 1; handles := (next_handle s, dev) :: handles s;
                     claimed := claimed s; ctrl_log := ctrl_log s;
                     ctrl_replies := ctrl_replies s; bulk_log := bulk_log s;
                     bulk_replies := bulk_replies s; now := now s |}
                  (handles s) [] (claimed s)) as R.
    destruct (libusb_close (next_handle s) _) as [u s3]; cbn [snd] in R.
    destruct R as (R1 & R2 & R3);
      [reflexivity | reflexivity | constructor | exact Fh | exact Fc |].
    right; cbn; repeat split; [rewrite R1; cbn; lia | exact R2 | exact R3].
Qed.

Lemma cp210x_open_device_from_res (tr : cp210x_transport) (dev : usb_device)
    (ifs : list interface_descriptor) (b : Z) (s : usb_state) :
  fresh_handles s ->
  let '((rc, tr'), s1) := cp210x_open_device_from tr dev ifs b s in
  fresh_handles s1 /\
  (rc = 0 \/ (rc = -1 /\ handles s1 = handles s /\ claimed s1 = claimed s)).
Proof.
  revert tr s; induction ifs as [|desc rest IH]; intros tr s Hf;
    cbn [cp210x_open_device_from].
  - cbn; split; [exact Hf | right; auto].
  - destruct (bInterfaceClass desc =? V1_INTERFACE_CLASS); [| apply IH; exact Hf].
    unfold bind at 1.
    pose proof (cp210x_open_interface_res tr dev (bInterfaceNumber desc) b s Hf) as Ho.
    destruct (cp210x_open_interface tr dev (bInterfaceNumber desc) b s)
      as [[rc tr1] s1].
    pose proof (open_outcome_fresh _ _ _ _ _ _ Hf Ho) as Hf1.
    destruct Ho as [(-> & _) | (-> & _ & Hh1 & Hc1)].
    + cbn; split; [exact Hf1 | left; reflexivity].
    + cbv beta iota; cbn [Z.eqb].
      specialize (IH tr1 s1 Hf1).
      destruct (cp210x_open_device_from tr1 dev rest b s1) as [[rc2 tr2] s2].
      destruct IH as [Hf2 [-> | (-> & Hh2 & Hc2)]];
        (split; [exact Hf2 |]); [left; reflexivity |].
      right; split; [reflexivity | split; congruence].
Qed.

Lemma ti3410_open_device_res (tr : Ti3410.ti3410_transport) (dev : usb_device)
    (s : usb_state) :
  fresh_handles s ->
  let '((rc, tr'), s1) := Ti3410.open_device tr dev s in
  open_outcome dev s s1 rc (Ti3410.handle tr') Ti3410.USB_FET_INTERFACE.
Proof.
  intros (H0 & Fh & Fc); unfold Ti3410.open_device.
  unfold bind at 1, libusb_open.
  destruct (open_ok dev); [| right; cbn; repeat split; lia].
  cbv beta iota zeta.
  replace (next_handle s =? 0) with false by (symmetry; apply Z.eqb_neq; lia).
  set (s0 := {| next_handle := next_handle s + 1; handles := (next_handle s, dev) :: handles s;
                claimed := claimed s; ctrl_log := ctrl_log s;
                ctrl_replies := ctrl_replies s; bulk_log := bulk_log s;
                bulk_replies := bulk_replies s; now := now s |}).
  unfold bind at 1.
  assert (K : keeps_res (if bConfigurationValue (config dev) =? Ti3410.TI_BOOT_CONFIG
                         then libusb_set_configuration (next_handle s) Ti3410.TI_ACTIVE_CONFIG
                         else ret 0)) by keeps_step.
  destruct (K s0) as (K1 & K2 & K3).
  destruct ((if bConfigurationValue (config dev) =? Ti3410.TI_BOOT_CONFIG
             then libusb_set_configuration (next_handle s) Ti3410.TI_ACTIVE_CONFIG
             else ret 0) s0) as [rc s1]; cbn [snd] in K1, K2, K3.
  unfold s0 in K1, K2, K3; cbn [handles claimed next_handle] in K1, K2, K3.
  destruct (negb (rc =? 0)).
  { unfold bind.
    pose proof (close_restores (next_handle s) dev s1 (handles s) [] (claimed s)) as R.
    destruct (libusb_close (next_handle s) s1) as [u s3]; cbn [snd] in R.
    destruct R as (R1 & R2 & R3);
      [rewrite K2; reflexivity | rewrite K3; reflexivity | constructor |
       exact Fh | exact Fc |].
    right; cbn; repeat split; [rewrite R1, K1; cbn; lia | exact R2 | exact R3]. }
  unfold bind at 1, libusb_claim_interface; rewrite K2; cbn [lookup_handle].
  rewrite Z.eqb_refl.
  destruct (claim_ok dev).
  - left; cbn; repeat split; [rewrite K1; reflexivity | exact K2 | rewrite K3; reflexivity].
  - cbv iota beta; cbn [negb LIBUSB_ERROR_BUSY Z.eqb].
    unfold bind.
    pose proof (close_restores (next_handle s) dev s1 (handles s) [] (claimed s)) as R.
    destruct (libusb_close (next_handle s) s1) as [u s3]; cbn [snd] in R.
    destruct R as (R1 & R2 & R3);
      [rewrite K2; reflexivity | rewrite K3; reflexivity | constructor |
       exact Fh | exact Fc |].
    right; cbn; repeat split; [rewrite R1, K1; cbn; lia | exact R2 | exact R3].
Qed.


Lemma download_loop_res (k : nat) (h : Z) (f : Ti3410.firmware) (offset : Z)
    (s : usb_state) :
  (List.length (bulk_replies s) < k)%nat ->
  let '(rc, s1) := Ti3410.download_loop k h f offset s in
  next_handle s1 = next_handle s /\
  ((rc = 0 /\ handles s1 = handles s /\ claimed s1 = claimed s) \/
   (rc = -1 /\ handles s1 = filter (fun p => negb (fst p =? h)) (handles s) /\
    claimed s1 = filter (fun p => negb (fst p =? h)) (claimed s))).
Proof.
  revert offset s; induction k as [|k IH]; intros offset s Hk; [lia |].
  cbn [Ti3410.download_loop].
  destruct (offset <? Ti3410.size f); [| cbn; auto].
  cbv zeta; unfold bind at 1, libusb_bulk_transfer.
  destruct (bulk_replies s) as [|rep rest] eqn:R.
  - cbv beta iota; cbn [negb andb LIBUSB_ERROR_NO_DEVICE LIBUSB_ERROR_TIMEOUT Z.eqb].
    unfold bind; cbn; split; [reflexivity | right; auto].
  - replace (Z.land Ti3410.USB_FDL_OUT_EP USB_ENDPOINT_DIR_MASK =? 0) with true
      by reflexivity; cbv beta iota zeta.
    destruct (negb (r_rc rep =? 0) && negb (r_rc rep =? LIBUSB_ERROR_TIMEOUT)).
    + unfold bind; cbn; split; [reflexivity | right; auto].
    + match goal with
      | |- context [Ti3410.download_loop k h f ?o ?st] => specialize (IH o st)
      end.
      cbn [bulk_replies with_bulk next_handle handles claimed] in IH.
      cbn in Hk.
      destruct (Ti3410.download_loop k h f _ _) as [rc s1].
      exact (IH ltac:(lia)).
Qed.

Lemma do_download_res (dev : usb_device) (f : Ti3410.firmware) (s : usb_state) :
  fresh_handles s ->
  let '(rc, s1) := Ti3410.do_download dev f s in
  fresh_handles s1 /\ handles s1 = handles s /\ claimed s1 = claimed s.
Proof.
  intros Hf; pose proof Hf as (H0 & Fh & Fc).
  unfold Ti3410.do_download, bind at 1, libusb_open.
  destruct (open_ok dev); [| cbn; auto].
  cbv beta iota zeta.
  replace (next_handle s =? 0) with false by (symmetry; apply Z.eqb_neq; lia).
  unfold bind at 1, libusb_claim_interface; cbn [handles lookup_handle].
  rewrite Z.eqb_refl.
  assert (Hfin : forall s1 : usb_state, next_handle s1 = next_handle s + 1 ->
            handles s1 = handles s -> claimed s1 = claimed s ->
            fresh_handles s1 /\ handles s1 = handles s /\ claimed s1 = claimed s).
  { intros s1 Hn Hh Hc; split; [| auto].
    apply (fresh_same s); [exact Hf | lia | exact Hh | exact Hc]. }
  destruct (claim_ok dev).
  - cbv iota beta; cbn [negb LIBUSB_SUCCESS Z.eqb].
    unfold bind at 1, get; cbv beta iota.
    unfold bind at 1.
    match goal with
    | |- context [Ti3410.download_loop ?k ?h ?f ?o ?st] =>
        pose proof (download_loop_res k h f o st ltac:(unfold fuel; lia)) as D;
        destruct (Ti3410.download_loop k h f o st) as [rc s3]
    end.
    cbn [next_handle handles claimed with_claimed filter fst] in D.
    rewrite Z.eqb_refl in D; cbn [negb] in D.
    rewrite !filter_keep_below in D by assumption.
    destruct D as (Dn & [(-> & Dh & Dc) | (-> & Dh & Dc)]).
    + cbn [Z.ltb Z.compare]; unfold bind; cbn [snd].
      pose proof (close_restores (next_handle s) dev s3 (handles s)
                    [(next_handle s, Ti3410.USB_FDL_INTERFACE)] (claimed s)) as R.
      destruct (libusb_close (next_handle s) s3) as [u s4]; cbn [snd] in R.
      destruct R as (R1 & R2 & R3);
        [exact Dh | exact Dc | repeat constructor | exact Fh | exact Fc |].
      apply Hfin; [congruence | exact R2 | exact R3].
    + cbn; apply Hfin; [exact Dn | exact Dh | exact Dc].
  - cbv iota beta; cbn [negb LIBUSB_ERROR_BUSY Z.eqb].
    unfold bind.
    pose proof (close_restores (next_handle s) dev
                  {| next_handle := next_handle s + 1; handles := (next_handle s, dev) :: handles s;
                     claimed := claimed s; ctrl_log := ctrl_log s;
                     ctrl_replies := ctrl_replies s; bulk_log := bulk_log s;
                     bulk_replies := bulk_replies s; now := now s |}
                  (handles s) [] (claimed s)) as R.
    destruct (libusb_close (next_handle s) _) as [u s3]; cbn [snd] in R.
    destruct R as (R1 & R2 & R3);
      [reflexivity | reflexivity | constructor | exact Fh | exact Fc |].
    apply Hfin; [exact R1 | exact R2 | exact R3].
Qed.


Lemma fails_cleanly_intro {T : Type} (m : M (option T)) (s : usb_state) :
  (let (o, s1) := m s in
   o = None -> handles s1 = handles s /\ claimed s1 = claimed s) ->
  fails_cleanly m s.
Proof. unfold fails_cleanly; destruct (m s); exact (fun H => H). Qed.

Lemma download_firmware_res (file : option (bool * list Ti3410.binfile_chunk))
    (dev : usb_device) (s : usb_state) :
  fresh_handles s ->
  let '(rc, s1) := Ti3410.download_firmware file dev s in
  fresh_handles s1 /\ handles s1 = handles s /\ claimed s1 = claimed s.
Proof.
  intros Hf; unfold Ti3410.download_firmware.
  destruct (Ti3410.load_firmware file) as [frm|]; [| cbn; auto].
  unfold bind at 1.
  pose proof (do_download_res dev (Ti3410.prepare_firmware frm) s Hf) as D.
  destruct (Ti3410.do_download dev (Ti3410.prepare_firmware frm) s) as [rc s1].
  destruct (rc <? 0); exact D.
Qed.

Lemma find_fet_keeps (devs : list usb_device) (devpath rs : option string)
    (s : usb_state) :
  fresh_handles s ->
  let '(d, s0) := Ti3410.find_fet devs devpath rs s in
  fresh_handles s0 /\ handles s0 = handles s /\ claimed s0 = claimed s.
Proof. apply select_dev_keeps. Qed.

Lemma ti3410_open_res (devs devs' : list usb_device)
    (file : option (bool * list Ti3410.binfile_chunk))
    (devpath requested_serial : option string) (s : usb_state) :
  fresh_handles s ->
  fails_cleanly (Ti3410.ti3410_open devs devs' file devpath requested_serial) s.
Proof.
  intros Hf; apply fails_cleanly_intro; unfold Ti3410.ti3410_open, bind at 1.
  pose proof (find_fet_keeps devs devpath requested_serial s Hf) as F.
  destruct (Ti3410.find_fet devs devpath requested_serial s) as [d0 s0].
  destruct F as (Hf0 & Hh0 & Hc0).
  destruct d0 as [dev0|]; [| cbn; auto].
  cbv beta iota.
  set (m1 := if bNumConfigurations dev0 =? 1 then
               rc <- Ti3410.download_firmware file dev0 ;;
               if rc <? 0 then ret None else Ti3410.find_fet devs' devpath requested_serial
             else ret (Some dev0)).
  assert (Hsel : let '(d, s1) := m1 s0 in
          fresh_handles s1 /\ handles s1 = handles s0 /\ claimed s1 = claimed s0).
  { unfold m1; destruct (bNumConfigurations dev0 =? 1); [| cbn; auto].
    unfold bind at 1.
    pose proof (download_firmware_res file dev0 s0 Hf0) as D.
    destruct (Ti3410.download_firmware file dev0 s0) as [rc s1].
    destruct D as (Hf1 & Hh1 & Hc1).
    destruct (rc <? 0); [cbn; auto |].
    pose proof (find_fet_keeps devs' devpath requested_serial s1 Hf1) as F.
    destruct (Ti3410.find_fet devs' devpath requested_serial s1) as [d2 s2].
    destruct F as (? & ? & ?); split; [assumption | split; congruence]. }
  unfold bind at 1.
  destruct (m1 s0) as [d1 s1].
  destruct Hsel as (Hf1 & Hh1 & Hc1).
  destruct d1 as [dev|]; [| cbn; split; congruence].
  cbv beta iota; unfold bind at 1.
  pose proof (ti3410_open_device_res {| Ti3410.handle := 0 |} dev s1 Hf1) as Ho.
  destruct (Ti3410.open_device {| Ti3410.handle := 0 |} dev s1) as [[rc tr] s2].
  destruct Ho as [(-> & Hh & Hn2 & Hh2 & Hc2) | (-> & _ & Hh2 & Hc2)];
    [| cbn; split; congruence].
  cbn [Z.ltb Z.compare]; unfold bind at 1.
  pose proof (keeps_setup_port tr s2) as (_ & K2 & K3).
  destruct (Ti3410.setup_port tr s2) as [rc3 s3]; cbn [snd] in K2, K3.
  destruct (rc3 <? 0); [| cbn; discriminate].
  unfold bind.
  pose proof (keeps_teardown_port tr s3) as (_ & T2 & T3).
  destruct (Ti3410.teardown_port tr s3) as [u s4]; cbn [snd] in T2, T3.
  destruct Hf1 as (_ & Fh & Fc).
  pose proof (close_restores (Ti3410.handle tr) dev s4 (handles s1)
                [(Ti3410.handle tr, Ti3410.USB_FET_INTERFACE)] (claimed s1)) as R.
  destruct (libusb_close (Ti3410.handle tr) s4) as [u' s5]; cbn [snd] in R.
  rewrite Hh in R.
  destruct R as (_ & R2 & R3);
    [congruence | cbn; congruence | repeat constructor | exact Fh | exact Fc |].
  cbn; intros _; split; congruence.
Qed.

Lemma cp210x_open_res (devs : list usb_device) (devpath requested_serial : option string)
    (baud_rate product vendor : Z) (s : usb_state) :
  fresh_handles s ->
  fails_cleanly (cp210x_open devs devpath requested_serial baud_rate product vendor) s.
Proof.
  intros Hf; apply fails_cleanly_intro; unfold cp210x_open, bind at 1.
  pose proof (select_dev_keeps devs devpath product vendor requested_serial s Hf) as F.
  destruct ((match devpath with
             | Some _ => ret (usbutil_find_by_loc devs devpath)
             | None => usbutil_find_by_id devs product vendor requested_serial
             end) s) as [d0 s0].
  destruct F as (Hf0 & Hh0 & Hc0).
  destruct d0 as [dev|]; [| cbn; auto].
  cbv beta iota; unfold bind at 1.
  pose proof (cp210x_open_device_from_res {| cp_handle := 0; cp_int_number := 0 |} dev
                (interface (config dev)) baud_rate s0 Hf0) as D.
  unfold cp210x_open_device.
  destruct (cp210x_open_device_from _ dev _ baud_rate s0) as [[rc tr] s1].
  destruct D as (_ & [-> | (-> & Hh1 & Hc1)]).
  - cbn [Z.ltb Z.compare]; unfold bind, get; cbv beta iota.
    destruct (drain_loop _ _ _ _ _); cbn; discriminate.
  - cbn; split; congruence.
Qed.

Lemma ftdi_open_res (devs : list usb_device) (devpath requested_serial : option string)
    (vendor product baud_rate : Z) (s : usb_state) :
  fresh_handles s ->
  fails_cleanly (ftdi_open devs devpath requested_serial vendor product baud_rate) s.
Proof.
  intros Hf; apply fails_cleanly_intro; unfold ftdi_open, bind at 1.
  pose proof (select_dev_keeps devs devpath vendor product requested_serial s Hf) as F.
  destruct ((match devpath with
             | Some _ => ret (usbutil_find_by_loc devs devpath)
             | None => usbutil_find_by_id devs vendor product requested_serial
             end) s) as [d0 s0].
  destruct F as (Hf0 & Hh0 & Hc0).
  destruct d0 as [dev|]; [| cbn; auto].
  cbv beta iota; unfold bind at 1.
  pose proof (ftdi_open_device_res {| ftdi_handle := 0 |} dev baud_rate s0 Hf0) as D.
  destruct (ftdi_open_device _ dev baud_rate s0) as [[rc tr] s1].
  destruct D as [(-> & _) | (-> & _ & Hh1 & Hc1)].
  - cbn; discriminate.
  - cbn; split; congruence.
Qed.

Lemma fails_cleanly_of {T : Type} (m : M (option T)) (s : usb_state) (Q : T -> usb_state -> Prop) :
  (let (o, s1) := m s in
   match o with
   | None => handles s1 = handles s /\ claimed s1 = claimed s
   | Some tr => Q tr s1
   end) ->
  fails_cleanly m s.
Proof.
  unfold fails_cleanly; destruct (m s) as [[tr|] s1]; cbn; [discriminate | auto].
Qed.

(** C5.  In every backend, an [open] that returns NULL leaves the open
    device handles and the claimed interfaces as they were before the
    call: whatever handle it opened is closed again, and closing a handle
    also releases the interfaces claimed on it. *)
Theorem open_failure_releases (devs devs' : list usb_device)
    (devpath requested_serial : option string) (serial : string)
    (file : option (bool * list Ti3410.binfile_chunk))
    (baud_rate vendor product : Z) (s : usb_state) :
  fresh_handles s ->
  fails_cleanly (BslHid.bslhid_open devs devpath serial) s /\
  fails_cleanly (CdcAcm.cdc_acm_open devs devpath requested_serial baud_rate
                                     vendor product) s /\
  fails_cleanly (cp210x_open devs devpath requested_serial baud_rate product vendor) s /\
  fails_cleanly (ftdi_open devs devpath requested_serial vendor product baud_rate) s /\
  fails_cleanly (Ti3410.ti3410_open devs devs' file devpath requested_serial) s.
Proof.
  intros Hf; split; [| split; [| split; [| split]]].
  - eapply fails_cleanly_of; exact (bslhid_open_res devs devpath serial s Hf).
  - eapply fails_cleanly_of;
      exact (cdc_acm_open_res devs devpath requested_serial baud_rate vendor product s Hf).
  - apply cp210x_open_res; exact Hf.
  - apply ftdi_open_res; exact Hf.
  - apply ti3410_open_res; exact Hf.
Qed.

(** ** Interface search *)

(** [find_interface] of bslhid.c picks the first HID interface that has a
    bulk IN and a bulk OUT endpoint, records its index, the two endpoints
    and the configuration value, and keeps the handle; with no such
    interface it returns -1. *)
Theorem bslhid_find_interface_first (tr : BslHid.bslhid_transport) (dev : usb_device) :
  addrs_in_range dev ->
  let (rc, tr') := BslHid.find_interface tr dev in
  first_usable BslHid.BSLHID_CLASS (interface (config dev)) rc
    (BslHid.int_number tr') (BslHid.in_ep tr') (BslHid.out_ep tr') /\
  (rc = 0 -> BslHid.cfg_number tr' = bConfigurationValue (config dev) /\
             BslHid.handle tr' = BslHid.handle tr).
Proof.
  intros Hr; unfold BslHid.find_interface.
  pose proof (bslhid_find_interface_from tr (config dev) (interface (config dev)) 0 Hr)
    as H.
  destruct (BslHid.find_interface_from tr (config dev) (interface (config dev)) 0)
    as [rc tr'].
  destruct H as [(-> & j & d & Hn & Hi & Hu & Hf & Hin & Hout & Hc & Hh & _)
                | (-> & Hno)].
  - split; [| intros _; split; assumption].
    left; split; [reflexivity |]; exists j, d; repeat split; auto; lia.
  - split; [right; split; [reflexivity | exact Hno] | discriminate].
Qed.

(** [find_interface] of cdc_acm.c picks the first CDC data interface (class
    10) that has a bulk IN and a bulk OUT endpoint, records its index and
    the two endpoints, and keeps the handle and the read buffer; with no
    such interface it returns -1. *)
Theorem cdc_find_interface_first (tr : CdcAcm.cdc_acm_transport) (dev : usb_device) :
  addrs_in_range dev ->
  let (rc, tr') := CdcAcm.find_interface tr dev in
  first_usable CdcAcm.CDC_INTERFACE_CLASS (interface (config dev)) rc
    (CdcAcm.int_number tr') (CdcAcm.in_ep tr') (CdcAcm.out_ep tr') /\
  (rc = 0 -> CdcAcm.handle tr' = CdcAcm.handle tr /\
             CdcAcm.rbuf_len tr' = CdcAcm.rbuf_len tr /\
             CdcAcm.rbuf_ptr tr' = CdcAcm.rbuf_ptr tr /\
             CdcAcm.rbuf tr' = CdcAcm.rbuf tr).
Proof.
  intros Hr; unfold CdcAcm.find_interface.
  pose proof (cdc_find_interface_from tr (interface (config dev)) 0 Hr) as H.
  destruct (CdcAcm.find_interface_from tr (interface (config dev)) 0) as [rc tr'].
  destruct H as [(-> & j & d & Hn & Hi & Hu & Hf & Hin & Hout & Hh & Hl & Hp & Hb)
                | (-> & Hno)].
  - split; [| intros _; repeat split; assumption].
    left; split; [reflexivity |]; exists j, d; repeat split; auto; lia.
  - split; [right; split; [reflexivity | exact Hno] | discriminate].
Qed.

(** ** Looking a device up by its ids *)

(** [usbutil_find_by_id] closes every handle it opens to read a serial
    number: the open handles and the claims are the same afterwards. *)
Theorem usbutil_find_by_id_closes (devs : list usb_device) (vendor product : Z)
    (requested_serial : option string) (s : usb_state) :
  fresh_handles s ->
  let s' := snd (usbutil_find_by_id devs vendor product requested_serial s) in
  fresh_handles s' /\ handles s' = handles s /\ claimed s' = claimed s.
Proof. apply find_by_id_keeps. Qed.

(** A device [usbutil_find_by_id] returns is on the bus, has the requested
    vendor and product ids and, when a serial number was requested, a
    serial number (the first 127 characters read) equal to it up to the
    case of ASCII letters. *)
Theorem usbutil_find_by_id_match (devs : list usb_device) (vendor product : Z)
    (requested_serial : option string) (s : usb_state) (d : usb_device) :
  fst (usbutil_find_by_id devs vendor product requested_serial s) = Some d ->
  In d devs /\ idVendor d = vendor /\ idProduct d = product /\
  (forall r, requested_serial = Some r ->
     strcasecmp_eq r (substring 0 127 (serial_number d)) = true).
Proof. apply find_by_id_found. Qed.

(** With no serial number requested, [usbutil_find_by_id] opens no device,
    and it returns the last device on the bus with the two ids. *)
Theorem usbutil_find_by_id_no_serial (devs : list usb_device) (vendor product : Z)
    (s : usb_state) :
  usbutil_find_by_id devs vendor product None s =
  (find (fun d => (idVendor d =? vendor) && (idProduct d =? product)) (rev devs), s).
Proof.
  rewrite find_by_id_fold.
  pose proof (find_by_id_from_spec vendor product None devs None s) as H.
  destruct (fold_left _ devs (ret None) s) as [f s'].
  destruct H as (_ & _ & D); destruct (D eq_refl) as [-> ->].
  rewrite (fold_last_match (fun d => (idVendor d =? vendor) && (idProduct d =? product))).
  destruct (find _ (rev devs)); reflexivity.
Qed.

(** [cp210x_open] without a path looks the device up with its [product]
    argument as the vendor id and its [vendor] argument as the product
    id. *)
Theorem cp210x_open_ids (devs : list usb_device) (requested_serial : option string)
    (baud_rate product vendor : Z) (s : usb_state) (tr : cp210x_transport) :
  fst (cp210x_open devs None requested_serial baud_rate product vendor s) = Some tr ->
  exists d, In d devs /\ idVendor d = product /\ idProduct d = vendor.
Proof.
  unfold cp210x_open, bind at 1.
  pose proof (find_by_id_found devs product vendor requested_serial s) as H.
  destruct (usbutil_find_by_id devs product vendor requested_serial s) as [d s0].
  cbn [fst] in H.
  destruct d as [dev|]; [| cbn; discriminate].
  intros _; destruct (H dev eq_refl) as (A & B & C & _); exists dev; auto.
Qed.

(** ** Receiving *)

(** [ti3410_recv] returns -1 with no data, or a count between 1 and
    [max_len] of bytes it received, the start of what one bulk IN reply
    delivered; it never returns 0. *)
Theorem ti3410_recv_result (tr : Ti3410.ti3410_transport) (max_len : Z)
    (s : usb_state) :
  let '((r, out), _) := Ti3410.ti3410_recv tr max_len s in
  (r = -1 /\ out = []) \/
  (0 < r <= max_len /\ Z.of_nat (length out) = r /\
   exists rep, In rep (bulk_replies s) /\
     out = firstn (Z.to_nat max_len) (r_data rep)).
Proof. unfold Ti3410.ti3410_recv, bind at 1, get; apply ti3410_recv_loop_result. Qed.

(** [tr_recv] of ftdi.c returns -1 with no data, or a count between 1 and
    [min max_len 62] of bytes: those of one successful bulk IN reply after
    its two status bytes; it never returns 0. *)
Theorem ftdi_tr_recv_result (tr : ftdi_transport) (max_len : Z) (s : usb_state) :
  let '((r, out), _) := ftdi_tr_recv tr max_len s in
  (r = -1 /\ out = []) \/
  (0 < r <= Z.min max_len 62 /\ Z.of_nat (length out) = r /\
   exists rep, In rep (bulk_replies s) /\ r_rc rep = 0 /\
     out = skipn 2 (firstn (Z.to_nat (Z.min max_len 62 + 2)) (r_data rep))).
Proof.
  unfold ftdi_tr_recv, bind at 1, get; cbv beta.
  replace (if max_len >? FTDI_PACKET_SIZE - 2 then FTDI_PACKET_SIZE - 2 else max_len)
    with (Z.min max_len 62).
  - apply ftdi_recv_loop_result.
  - unfold FTDI_PACKET_SIZE; destruct (max_len >? 64 - 2) eqn:E;
      rewrite Z.gtb_ltb in E; [apply Z.ltb_lt in E | apply Z.ltb_ge in E]; lia.
Qed.

(** ** Flushing *)

(** [usbtr_flush] of cdc_acm.c reads 64-byte bulk IN transfers until the
    first successful one, discarding what they deliver, and empties the
    read buffer. *)
Theorem cdc_usbtr_flush_drains (tr : CdcAcm.cdc_acm_transport) (s : usb_state) :
  existsb (fun r => r_rc r =? 0) (bulk_replies s) = true ->
  let '((rc, tr'), s') := CdcAcm.usbtr_flush tr s in
  rc = 0 /\ tr' = CdcAcm.set_rbuf tr 0 0 (CdcAcm.rbuf tr) /\
  exists pre r,
    bulk_replies s = pre ++ r :: bulk_replies s' /\ r_rc r = 0 /\
    Forall (fun r => r_rc r <> 0) pre /\
    bulk_log s' = bulk_log s ++
      repeat {| b_handle := CdcAcm.handle tr; b_ep := CdcAcm.in_ep tr;
                b_data := []; b_length := 64 |} (S (length pre)).
Proof.
  intros Hex; unfold CdcAcm.usbtr_flush, bind at 1, get; cbv beta.
  pose proof (drain_loop_first_success (fuel s) (CdcAcm.handle tr) (CdcAcm.in_ep tr)
                64 s ltac:(unfold fuel; lia) Hex) as H.
  unfold bind; destruct (drain_loop _ _ _ _ s) as [u s']; cbn [snd] in H.
  split; [reflexivity |]; split; [reflexivity | exact H].
Qed.

(** [usbtr_flush] of cp210x.c reads 64-byte bulk IN transfers on endpoint
    0x81 until the first successful one and returns 0. *)
Theorem cp210x_usbtr_flush_drains (tr : cp210x_transport) (s : usb_state) :
  existsb (fun r => r_rc r =? 0) (bulk_replies s) = true ->
  let '(rc, s') := cp210x_usbtr_flush tr s in
  rc = 0 /\
  exists pre r,
    bulk_replies s = pre ++ r :: bulk_replies s' /\ r_rc r = 0 /\
    Forall (fun r => r_rc r <> 0) pre /\
    bulk_log s' = bulk_log s ++
      repeat {| b_handle := cp_handle tr; b_ep := V1_IN_EP;
                b_data := []; b_length := 64 |} (S (length pre)).
Proof.
  intros Hex; unfold cp210x_usbtr_flush, bind at 1, get; cbv beta.
  pose proof (drain_loop_first_success (fuel s) (cp_handle tr) V1_IN_EP
                64 s ltac:(unfold fuel; lia) Hex) as H.
  unfold bind; destruct (drain_loop _ _ _ _ s) as [u s']; cbn [snd] in H.
  split; [reflexivity | exact H].
Qed.

(** ** Tear-down *)

(** [ti3410_destroy] issues the CLOSE_PORT request and nothing else: it
    neither releases the interface nor closes the handle. *)
Theorem ti3410_destroy_keeps_handle (tr : Ti3410.ti3410_transport) (s : usb_state) :
  let s' := snd (Ti3410.ti3410_destroy tr s) in
  handles s' = handles s /\ claimed s' = claimed s /\
  ctrl_log s' = ctrl_log s ++
    [{| c_handle := Ti3410.handle tr; c_reqtype := 64; c_request := Ti3410.TI_CLOSE_PORT;
        c_value := 0; c_index := Ti3410.TI_UART1_PORT; c_data := [] |}] /\
  bulk_log s' = bulk_log s.
Proof.
  unfold Ti3410.ti3410_destroy, Ti3410.teardown_port, bind, libusb_control_transfer.
  destruct (ctrl_replies s); repeat split.
Qed.

(** ** Instances of the further properties *)

Ltac in_range_tac :=
  intros desc ep Hd He; cbn in Hd;
  repeat destruct Hd as [<- | Hd]; try contradiction;
  cbn in He; repeat destruct He as [<- | He]; try contradiction; cbn; lia.

Ltac fresh_tac := unfold fresh_handles; cbn; split; [lia | split; constructor].

Lemma send_loop_delivers_witness :
  exists xs rs, accepted_all xs rs = [10; 20; 30] /\
                Forall (fun x => b_handle x = 1 /\ b_ep x = 1) xs.
Proof.
  destruct (send_loop_delivers 3 1 1 [10; 20; 30]
              (state_with [] [ok_reply [] 2; ok_reply [] 1])
              (snd (BslHid.send_loop 3 1 1 [10; 20; 30]
                      (state_with [] [ok_reply [] 2; ok_reply [] 1])))
              ltac:(reflexivity) ltac:(vm_compute; reflexivity))
    as (xs & rs & _ & _ & Hf & Ha).
  exists xs, rs; split; assumption.
Defined.

Lemma cdc_recv_buffered_witness :
  CdcAcm.usbtr_recv (CdcAcm.set_rbuf cdc_tr 3 1 [7; 8; 9]) 5 (state_with [] []) =
  ((2, [8; 9], CdcAcm.set_rbuf cdc_tr 3 3 [7; 8; 9]), state_with [] []).
Proof.
  pose proof (cdc_recv_buffered (CdcAcm.set_rbuf cdc_tr 3 1 [7; 8; 9]) 5
                (state_with [] []) ltac:(cbn; lia)) as H.
  cbv zeta in H; rewrite H; vm_compute; reflexivity.
Defined.

Lemma cdc_recv_keeps_buffer_witness :
  let '((k, out, tr'), _) :=
    CdcAcm.usbtr_recv cdc_tr 4 (state_with [] [ok_reply [1; 2; 3] 0]) in
  cdc_buf_ok tr' /\ (k = -1 \/ (0 <= k <= 4 /\ Z.of_nat (length out) = k)).
Proof.
  pose proof (cdc_recv_keeps_buffer cdc_tr 4 (state_with [] [ok_reply [1; 2; 3] 0])
                ltac:(unfold cdc_buf_ok, CdcAcm.READ_BUFFER_SIZE; cbn; lia) ltac:(lia)
                ltac:(reflexivity)) as H.
  destruct (CdcAcm.usbtr_recv cdc_tr 4 _) as [[[k out] tr'] s'].
  destruct H as (A & _ & B); split; assumption.
Defined.

Lemma bslhid_find_interface_first_witness :
  addrs_in_range bsl_device /\
  let (rc, tr') := BslHid.find_interface BslHid.zero_transport bsl_device in
  first_usable BslHid.BSLHID_CLASS (interface (config bsl_device)) rc
    (BslHid.int_number tr') (BslHid.in_ep tr') (BslHid.out_ep tr') /\
  (rc = 0 -> BslHid.cfg_number tr' = bConfigurationValue (config bsl_device) /\
             BslHid.handle tr' = BslHid.handle BslHid.zero_transport).
Proof.
  assert (Hr : addrs_in_range bsl_device) by in_range_tac.
  split; [exact Hr | exact (bslhid_find_interface_first BslHid.zero_transport bsl_device Hr)].
Defined.

Lemma cdc_find_interface_first_witness :
  addrs_in_range cdc_device /\
  let (rc, tr') := CdcAcm.find_interface CdcAcm.zero_transport cdc_device in
  first_usable CdcAcm.CDC_INTERFACE_CLASS (interface (config cdc_device)) rc
    (CdcAcm.int_number tr') (CdcAcm.in_ep tr') (CdcAcm.out_ep tr') /\
  (rc = 0 -> CdcAcm.handle tr' = CdcAcm.handle CdcAcm.zero_transport /\
             CdcAcm.rbuf_len tr' = CdcAcm.rbuf_len CdcAcm.zero_transport /\
             CdcAcm.rbuf_ptr tr' = CdcAcm.rbuf_ptr CdcAcm.zero_transport /\
             CdcAcm.rbuf tr' = CdcAcm.rbuf CdcAcm.zero_transport).
Proof.
  assert (Hr : addrs_in_range cdc_device) by in_range_tac.
  split; [exact Hr | exact (cdc_find_interface_first CdcAcm.zero_transport cdc_device Hr)].
Defined.

Lemma usbutil_find_by_loc_listed_witness :
  usbutil_find_by_loc [bsl_device; cp210x_device] (Some (usbutil_loc 1 7)) =
  Some cp210x_device.
Proof.
  rewrite (usbutil_find_by_loc_listed [bsl_device; cp210x_device] 1 7
             ltac:(lia) ltac:(lia)).
  vm_compute; reflexivity.
Defined.

Lemma usbutil_find_by_loc_one_field_witness :
  usbutil_find_by_loc [bsl_device] (Some "001-005"%string) = None.
Proof.
  apply usbutil_find_by_loc_one_field.
  intros c Hc; cbn in Hc; repeat destruct Hc as [<- | Hc]; try contradiction;
    reflexivity.
Defined.

Lemma usbutil_find_by_id_closes_witness :
  fresh_handles (state_with [] []) /\
  let s' := snd (usbutil_find_by_id [bsl_device] BslHid.BSLHID_VID BslHid.BSLHID_PID
                   (Some "abc"%string) (state_with [] [])) in
  fresh_handles s' /\ handles s' = [] /\ claimed s' = [].
Proof.
  assert (Hf : fresh_handles (state_with [] [])) by fresh_tac.
  split; [exact Hf |].
  exact (usbutil_find_by_id_closes [bsl_device] BslHid.BSLHID_VID BslHid.BSLHID_PID
           (Some "abc"%string) (state_with [] []) Hf).
Defined.

Lemma usbutil_find_by_id_match_witness :
  strcasecmp_eq "abc" (substring 0 127 (serial_number bsl_device)) = true.
Proof.
  destruct (usbutil_find_by_id_match [bsl_device] BslHid.BSLHID_VID BslHid.BSLHID_PID
              (Some "abc"%string) (state_with [] []) bsl_device
              ltac:(vm_compute; reflexivity)) as (_ & _ & _ & H).
  exact (H "abc"%string eq_refl).
Defined.

Lemma cp210x_open_ids_witness :
  exists d, In d [cp210x_device] /\ idVendor d = 4292 /\ idProduct d = 60000.
Proof.
  apply (cp210x_open_ids [cp210x_device] None 115200 4292 60000
           (state_with [0; 0; 0] [ok_reply [] 0])
           {| cp_handle := 1; cp_int_number := 0 |}).
  vm_compute; reflexivity.
Defined.

Lemma do_download_delivers_witness :
  exists xs rs, accepted_all xs rs = [1; 2; 3] /\
    Forall (fun x => b_handle x = 1 /\ b_ep x = Ti3410.USB_FDL_OUT_EP /\
                     0 < b_length x <= Ti3410.TI_DOWNLOAD_MAX_PACKET_SIZE) xs.
Proof.
  destruct (do_download_delivers bsl_device
              {| Ti3410.buf := [1; 2; 3]; Ti3410.size := 3 |}
              (state_with [] [ok_reply [] 2; ok_reply [] 5])
              (snd (Ti3410.do_download bsl_device
                      {| Ti3410.buf := [1; 2; 3]; Ti3410.size := 3 |}
                      (state_with [] [ok_reply [] 2; ok_reply [] 5])))
              ltac:(repeat apply Forall_cons; try apply Forall_nil; cbn; lia)
              ltac:(vm_compute; reflexivity))
    as (xs & rs & _ & _ & Hf & Ha & _).
  exists xs, rs; split; [exact Ha | exact Hf].
Defined.

Lemma cdc_usbtr_flush_drains_witness :
  let st := state_with [] [{| r_rc := -7; r_data := []; r_sent := 0; r_elapsed := 1 |};
                           ok_reply [5] 0; ok_reply [6] 0] in
  let '((rc, tr'), s') := CdcAcm.usbtr_flush cdc_tr st in
  rc = 0 /\ exists pre r, bulk_replies st = pre ++ r :: bulk_replies s' /\ r_rc r = 0.
Proof.
  intros st.
  pose proof (cdc_usbtr_flush_drains cdc_tr st ltac:(reflexivity)) as H.
  destruct (CdcAcm.usbtr_flush cdc_tr st) as [[rc tr'] s'].
  destruct H as (A & _ & pre & r & B & C & _).
  split; [exact A |]; exists pre, r; split; assumption.
Defined.

Lemma cp210x_usbtr_flush_drains_witness :
  let st := state_with [] [{| r_rc := -7; r_data := []; r_sent := 0; r_elapsed := 1 |};
                           ok_reply [5] 0] in
  let '(rc, s') := cp210x_usbtr_flush {| cp_handle := 1; cp_int_number := 0 |} st in
  rc = 0 /\ exists pre r, bulk_replies st = pre ++ r :: bulk_replies s' /\ r_rc r = 0.
Proof.
  intros st.
  pose proof (cp210x_usbtr_flush_drains {| cp_handle := 1; cp_int_number := 0 |} st
                ltac:(reflexivity)) as H.
  destruct (cp210x_usbtr_flush _ st) as [rc s'].
  destruct H as (A & pre & r & B & C & _).
  split; [exact A |]; exists pre, r; split; assumption.
Defined.

Lemma bslhid_open_destroy_witness :
  fresh_handles (state_with [] [ok_reply [] 0]) /\
  let (o, s1) := BslHid.bslhid_open [bsl_device] None "abc"%string
                   (state_with [] [ok_reply [] 0]) in
  match o with
  | None => handles s1 = [] /\ claimed s1 = []
  | Some tr =>
      (exists d, handles s1 = [(BslHid.handle tr, d)]) /\
      claimed s1 = [(BslHid.handle tr, BslHid.int_number tr)] /\
      let s2 := snd (BslHid.bslhid_destroy tr s1) in
      handles s2 = [] /\ claimed s2 = []
  end.
Proof.
  assert (Hf : fresh_handles (state_with [] [ok_reply [] 0])) by fresh_tac.
  split; [exact Hf |].
  exact (bslhid_open_destroy [bsl_device] None "abc"%string _ Hf).
Defined.

Lemma cdc_acm_open_destroy_witness :
  fresh_handles (state_with [0; 0] [ok_reply [] 0]) /\
  let (o, s1) := CdcAcm.cdc_acm_open [cdc_device] None None 9600 1155 22336
                   (state_with [0; 0] [ok_reply [] 0]) in
  match o with
  | None => handles s1 = [] /\ claimed s1 = []
  | Some tr =>
      (exists d, handles s1 = [(CdcAcm.handle tr, d)]) /\
      claimed s1 = [(CdcAcm.handle tr, CdcAcm.int_number tr)] /\
      let s2 := snd (CdcAcm.usbtr_destroy tr s1) in
      handles s2 = [] /\ claimed s2 = []
  end.
Proof.
  assert (Hf : fresh_handles (state_with [0; 0] [ok_reply [] 0])) by fresh_tac.
  split; [exact Hf |].
  exact (cdc_acm_open_destroy [cdc_device] None None 9600 1155 22336 _ Hf).
Defined.

Lemma open_failure_releases_witness :
  fresh_handles (state_with [-1] []) /\
  fst (cp210x_open [cp210x_device] None None 9600 4292 60000 (state_with [-1] [])) = None /\
  (fails_cleanly (BslHid.bslhid_open [cp210x_device] None "CP1"%string)
                 (state_with [-1] []) /\
   fails_cleanly (CdcAcm.cdc_acm_open [cp210x_device] None None 9600 60000 4292)
                 (state_with [-1] []) /\
   fails_cleanly (cp210x_open [cp210x_device] None None 9600 4292 60000)
                 (state_with [-1] []) /\
   fails_cleanly (ftdi_open [cp210x_device] None None 60000 4292 9600)
                 (state_with [-1] []) /\
   fails_cleanly (Ti3410.ti3410_open [cp210x_device] [] None None None)
                 (state_with [-1] [])).
Proof.
  assert (Hf : fresh_handles (state_with [-1] [])) by fresh_tac.
  split; [exact Hf |]; split; [vm_compute; reflexivity |].
  exact (open_failure_releases [cp210x_device] [] None None "CP1"%string None
           9600 60000 4292 (state_with [-1] []) Hf).
Defined.
